(** * video-conf backend: the room registry and the signaling handlers

    A shallow embedding of [backend/src/services/roomService.js] (the
    in-memory [RoomService] singleton) and of the Socket.IO handlers of
    [backend/src/sockets/signaling.js] that create, join, leave, consume and
    chat, together with the properties of the room life cycle, of the
    connection index, of resource cleanup and of the authorization gate. *)

From Stdlib Require Import String Ascii List Bool Arith DecimalString.
From ExtLib Require Import Structures.Monad Structures.MonadExc.
Import ListNotations.
Import MonadNotation.
Local Open Scope string_scope.
Local Open Scope list_scope.
Local Open Scope monad_scope.

Set Implicit Arguments.

(* ===================================================================== *)
(** ** JavaScript [Map] with string keys

    A [Map] iterates in insertion order: [set] on a present key replaces the
    value where it stands, [set] on an absent key appends, [delete] drops
    the entry.  The model is the list of entries in iteration order. *)

Module JSMap.

Definition t (V : Type) : Type := list (string * V).

Definition empty {V} : t V := [].

Fixpoint get {V} (k : string) (m : t V) : option V :=
  match m with
  | [] => None
  | (k', v) :: r => if String.eqb k k' then Some v else get k r
  end.

Definition has {V} (k : string) (m : t V) : bool :=
  match get k m with Some _ => true | None => false end.

Fixpoint set {V} (k : string) (v : V) (m : t V) : t V :=
  match m with
  | [] => [(k, v)]
  | (k', v') :: r =>
      if String.eqb k k' then (k, v) :: r else (k', v') :: set k v r
  end.

Definition delete {V} (k : string) (m : t V) : t V :=
  filter (fun kv => negb (String.eqb k (fst kv))) m.

Definition clear {V} (_ : t V) : t V := [].

Definition size {V} (m : t V) : nat := length m.

Definition keys {V} (m : t V) : list string := map fst m.

Definition values {V} (m : t V) : list V := map snd m.

Definition entries {V} (m : t V) : list (string * V) := m.

End JSMap.

(* ===================================================================== *)
(** ** Data model of [roomService.js] *)

(** [new Date()] values; only their identity matters here. *)
Definition JsDate := nat.

(** The router's and the clients' RTP capability descriptors are opaque
    JSON documents for this code. *)
Definition RtpCapabilities := string.

(** mediasoup handles, with the properties the code reads.  Each of them
    has a [close()] method, which is an external call (see [Env]). *)
Record Transport := { transport_id : string }.

Record Producer := { producer_id : string; producer_kind : string }.

Record Consumer := {
  consumer_id : string;
  consumer_kind : string;
  consumer_rtpParameters : string;
  consumer_producerPaused : bool
}.

(** The participant object built by [addUserToRoom]. *)
Record Participant := {
  p_userId : string;
  p_socketId : string;
  p_name : string;
  p_role : string;
  p_joinedAt : JsDate;
  p_transports : JSMap.t Transport;
  p_producers : JSMap.t Producer;
  p_consumers : JSMap.t Consumer;
  p_rtpCapabilities : option RtpCapabilities
}.

(** The room object built by [createRoom]. *)
Record Room := {
  room_id : string;
  room_participants : JSMap.t Participant;
  room_createdAt : JsDate
}.

(** [socket.user], the [userInfo] argument of [addUserToRoom]:
    [{ uid, email, name, role, ...userData }].  Every field of the profile
    document is an own property of it; besides the four that the handlers
    read, the two that matter to this code are a [userId] and a [roomId]
    of the profile, if it has them, because [addUserToRoom] spreads
    [userInfo] over the properties of these names.  Their values are
    strings here, as every id is: for the maps of the registry a value that
    is not a string is a key that no entry has. *)
Record UserInfo := {
  uid : string;
  email : string;
  name : string;
  role : string;
  prop_userId : option string;
  prop_roomId : option string
}.

(** An entry of [this.users]: [{ userId, roomId, ...userInfo }]. *)
Record User := {
  u_userId : string;
  u_roomId : string;
  u_info : UserInfo
}.

(** A property written before a spread and the own property of the same
    name of the object that is spread, if any: the latter wins. *)
Definition spreadOver (written : string) (own : option string) : string :=
  match own with
  | Some v => v
  | None => written
  end.

(** [{ userId, roomId, ...userInfo }] *)
Definition indexEntry (roomId userId : string) (userInfo : UserInfo) : User :=
  {| u_userId := spreadOver userId (prop_userId userInfo);
     u_roomId := spreadOver roomId (prop_roomId userInfo);
     u_info := userInfo |}.

(** The state of the [RoomService] singleton: [rooms] is keyed by room id,
    [users] (the connection index) by socket id. *)
Record RoomService := {
  rooms : JSMap.t Room;
  users : JSMap.t User
}.

Definition emptyService : RoomService :=
  {| rooms := JSMap.empty; users := JSMap.empty |}.

(** One element of the array returned by [getRoomProducers]. *)
Record ProducerInfo := {
  pi_id : string;
  pi_kind : string;
  pi_userId : string;
  pi_userName : string;
  pi_userRole : string
}.

(** The chat message object of the [chat:message] handler. *)
Record ChatMessage := {
  msg_id : string;
  msg_userId : string;
  msg_name : string;
  msg_role : string;
  msg_text : string;
  msg_timestamp : JsDate
}.

(* ===================================================================== *)
(** ** Observable actions

    Every call that leaves the handler or the registry (an external service,
    a handle, the socket, the console) and every call of a mutating method
    of [roomService] is recorded, in program order. *)

Inductive HandleKind := KConsumer | KProducer | KTransport.

Inductive Method :=
| MCreateRoom (roomId : string)
| MAddUserToRoom (roomId userId socketId : string)
| MRemoveUserFromRoom (socketId : string)
| MAddTransport (roomId userId transportId : string)
| MAddProducer (roomId userId producerId : string)
| MAddConsumer (roomId userId consumerId : string).

Inductive Level := LLog | LWarn | LError.

(** What a handler passes to its acknowledgement [callback]. *)
Inductive Ack :=
| AckError (error : string)
| AckCreated (roomId : string) (rtpCapabilities : RtpCapabilities)
| AckJoined (roomId : string) (rtpCapabilities : RtpCapabilities)
            (existingProducers : list ProducerInfo)
| AckConsumed (c : Consumer)
| AckChat (message : ChatMessage)
| AckSuccess.

Inductive Push :=
| UserJoined (userId name role : string)
| UserLeft (userId name role : string)
| ChatPush (message : ChatMessage).

(** [io.to(room)] reaches every socket of the Socket.IO room,
    [socket.to(room)] every socket of it but the emitting one. *)
Inductive Address :=
| IoTo (roomId : string)
| SocketTo (roomId : string).

Definition Exn := string.

Inductive Event :=
| EvClose (k : HandleKind) (id : string)
| EvConsole (l : Level) (text : string) (err : option Exn)
| EvCanUserAccessRoom (userId roomId userRole : string)
| EvRegistry (m : Method)
| EvSocketJoin (roomId : string)
| EvSocketLeave (roomId : string)
| EvGetRouterRtpCapabilities
| EvGetRouter
| EvCanConsume (producerId : string) (caps : RtpCapabilities)
| EvConsume (transportId producerId : string) (caps : RtpCapabilities)
| EvGetScheduleByRoomId (roomId : string)
| EvMessagesAdd (scheduleId : string) (message : ChatMessage)
| EvAck (a : Ack)
| EvEmit (to : Address) (p : Push).

(* ===================================================================== *)
(** ** The effect monad

    A computation reads the environment (the answers of the external
    services), updates the registry, records its observable actions and
    ends normally or by throwing.  As in JavaScript, a [throw] keeps the
    mutations and the actions made before it. *)

Inductive Outcome (A : Type) :=
| Normal (a : A)
| Throw (e : Exn).

Arguments Normal {A} a.
Arguments Throw {A} e.

(** The collaborators that are not part of the registry: the clock, the
    mediasoup handles and router ([../config/mediasoup]), the schedule
    service and the message store. *)
Record Env := {
  newDate : JsDate;
  dateNow : nat;
  handle_close : HandleKind -> string -> Outcome unit;
  schedule_canUserAccessRoom : string -> string -> string -> bool;
  mediasoup_getRouterRtpCapabilities : Outcome RtpCapabilities;
  mediasoup_getRouter : Outcome unit;
  router_canConsume : string -> RtpCapabilities -> Outcome bool;
  transport_consume : string -> string -> RtpCapabilities -> Outcome Consumer;
  schedule_getScheduleByRoomId : string -> Outcome string;
  messages_add : string -> ChatMessage -> Outcome unit
}.

Definition Js (A : Type) : Type :=
  Env -> RoomService -> Outcome A * RoomService * list Event.

Definition Js_ret {A} (a : A) : Js A := fun _ s => (Normal a, s, []).

Definition Js_bind {A B} (m : Js A) (f : A -> Js B) : Js B :=
  fun env s =>
    match m env s with
    | (Normal a, s1, t1) =>
        match f a env s1 with
        | (o, s2, t2) => (o, s2, t1 ++ t2)
        end
    | (Throw e, s1, t1) => (Throw e, s1, t1)
    end.

Definition Js_throw {A} (e : Exn) : Js A := fun _ s => (Throw e, s, []).

(** [try { m } catch (error) { h error }] *)
Definition Js_catch {A} (m : Js A) (h : Exn -> Js A) : Js A :=
  fun env s =>
    match m env s with
    | (Normal a, s1, t1) => (Normal a, s1, t1)
    | (Throw e, s1, t1) =>
        match h e env s1 with
        | (o, s2, t2) => (o, s2, t1 ++ t2)
        end
    end.

#[global] Instance Monad_Js : Monad Js :=
  {| ret := @Js_ret; bind := @Js_bind |}.

#[global] Instance MonadExc_Js : MonadExc Exn Js :=
  {| raise := @Js_throw; catch := @Js_catch |}.

Definition tell (e : Event) : Js unit := fun _ s => (Normal tt, s, [e]).

Definition ask : Js Env := fun env s => (Normal env, s, []).

Definition getService : Js RoomService := fun _ s => (Normal s, s, []).

Definition modifyRooms (f : JSMap.t Room -> JSMap.t Room) : Js unit :=
  fun _ s => (Normal tt, {| rooms := f (rooms s); users := users s |}, []).

Definition modifyUsers (f : JSMap.t User -> JSMap.t User) : Js unit :=
  fun _ s => (Normal tt, {| rooms := rooms s; users := f (users s) |}, []).

(** The result of an external call, as the environment decides it. *)
Definition external {A} (e : Event) (answer : Env -> Outcome A) : Js A :=
  fun env s => (answer env, s, [e]).

(** [for (const x of xs) { body x }] *)
Fixpoint forOf {A} (xs : list A) (body : A -> Js unit) : Js unit :=
  match xs with
  | [] => ret tt
  | x :: r => body x ;; forOf r body
  end.

Definition outcomeOf {A} (r : Outcome A * RoomService * list Event) : Outcome A :=
  fst (fst r).

Definition serviceOf {A} (r : Outcome A * RoomService * list Event) : RoomService :=
  snd (fst r).

Definition traceOf {A} (r : Outcome A * RoomService * list Event) : list Event :=
  snd r.

(* ===================================================================== *)
(** ** [class RoomService] *)

(** [getRoom(roomId)], [roomExists(roomId)], [getUserBySocketId(socketId)] *)
Definition getRoom (roomId : string) (s : RoomService) : option Room :=
  JSMap.get roomId (rooms s).

Definition roomExists (roomId : string) (s : RoomService) : bool :=
  JSMap.has roomId (rooms s).

Definition getUserBySocketId (socketId : string) (s : RoomService) : option User :=
  JSMap.get socketId (users s).

(** [getParticipant(roomId, userId)] *)
Definition getParticipant (roomId userId : string) (s : RoomService)
  : option Participant :=
  match getRoom roomId s with
  | Some room => JSMap.get userId (room_participants room)
  | None => None
  end.

(** [getRoomParticipants(roomId)] *)
Definition getRoomParticipants (roomId : string) (s : RoomService)
  : list Participant :=
  match getRoom roomId s with
  | Some room => JSMap.values (room_participants room)
  | None => []
  end.

(** [getTransport(roomId, userId, transportId)] *)
Definition getTransport (roomId userId transportId : string) (s : RoomService)
  : option Transport :=
  match getParticipant roomId userId s with
  | Some participant => JSMap.get transportId (p_transports participant)
  | None => None
  end.

(** [getConsumer(roomId, userId, consumerId)] *)
Definition getConsumer (roomId userId consumerId : string) (s : RoomService)
  : option Consumer :=
  match getParticipant roomId userId s with
  | Some participant => JSMap.get consumerId (p_consumers participant)
  | None => None
  end.

(** [userId !== excludeUserId], where [excludeUserId] defaults to [null]. *)
Definition differs (userId : string) (excludeUserId : option string) : bool :=
  match excludeUserId with
  | Some x => negb (String.eqb userId x)
  | None => true
  end.

(** [getRoomProducers(roomId, excludeUserId = null)] *)
Definition getRoomProducers (roomId : string) (excludeUserId : option string)
    (s : RoomService) : list ProducerInfo :=
  match getRoom roomId s with
  | None => []
  | Some room =>
      flat_map
        (fun entry : string * Participant =>
           let (userId, participant) := entry in
           if differs userId excludeUserId then
             map (fun producer =>
                    {| pi_id := producer_id producer;
                       pi_kind := producer_kind producer;
                       pi_userId := userId;
                       pi_userName := p_name participant;
                       pi_userRole := p_role participant |})
                 (JSMap.values (p_producers participant))
           else [])
        (JSMap.entries (room_participants room))
  end.

(** [createRoom(roomId)]: create or get the room. *)
Definition createRoom (roomId : string) : Js (option Room) :=
  tell (EvRegistry (MCreateRoom roomId)) ;;
  s <- getService ;;
  (if negb (JSMap.has roomId (rooms s)) then
     env <- ask ;;
     modifyRooms (JSMap.set roomId
                    {| room_id := roomId;
                       room_participants := JSMap.empty;
                       room_createdAt := newDate env |})
   else ret tt) ;;
  s' <- getService ;;
  ret (JSMap.get roomId (rooms s')).

(** [handle.close()] inside its [try]/[catch] of [cleanupParticipant]. *)
Definition closeQuietly (k : HandleKind) (id : string) (label : string) : Js unit :=
  catch (external (EvClose k id) (fun env => handle_close env k id))
        (fun error => tell (EvConsole LError label (Some error))).

(** [cleanupParticipant(participant)]; the result is the participant object
    as the call leaves it. *)
Definition cleanupParticipant (participant : Participant) : Js Participant :=
  forOf (JSMap.values (p_consumers participant))
        (fun consumer =>
           closeQuietly KConsumer (consumer_id consumer) "Error closing consumer:") ;;
  forOf (JSMap.values (p_producers participant))
        (fun producer =>
           closeQuietly KProducer (producer_id producer) "Error closing producer:") ;;
  forOf (JSMap.values (p_transports participant))
        (fun transport =>
           closeQuietly KTransport (transport_id transport) "Error closing transport:") ;;
  ret {| p_userId := p_userId participant;
         p_socketId := p_socketId participant;
         p_name := p_name participant;
         p_role := p_role participant;
         p_joinedAt := p_joinedAt participant;
         p_transports := JSMap.clear (p_transports participant);
         p_producers := JSMap.clear (p_producers participant);
         p_consumers := JSMap.clear (p_consumers participant);
         p_rtpCapabilities := p_rtpCapabilities participant |}.

Definition withParticipants (room : Room) (ps : JSMap.t Participant) : Room :=
  {| room_id := room_id room;
     room_participants := ps;
     room_createdAt := room_createdAt room |}.

(** [addUserToRoom(roomId, userId, socketId, userInfo)] *)
Definition addUserToRoom (roomId userId socketId : string) (userInfo : UserInfo)
  : Js Participant :=
  tell (EvRegistry (MAddUserToRoom roomId userId socketId)) ;;
  r <- createRoom roomId ;;
  env <- ask ;;
  let participant :=
    {| p_userId := userId;
       p_socketId := socketId;
       p_name := name userInfo;
       p_role := role userInfo;
       p_joinedAt := newDate env;
       p_transports := JSMap.empty;
       p_producers := JSMap.empty;
       p_consumers := JSMap.empty;
       p_rtpCapabilities := None |} in
  match r with
  | None => raise "TypeError: Cannot read properties of undefined"
  | Some room =>
      modifyRooms (JSMap.set roomId
                     (withParticipants room
                        (JSMap.set userId participant (room_participants room)))) ;;
      modifyUsers (JSMap.set socketId (indexEntry roomId userId userInfo)) ;;
      ret participant
  end.

(** [removeUserFromRoom(socketId)].  The room object is mutated in place:
    the participant is cleaned up and deleted, and the room is dropped from
    [rooms] when no participant is left. *)
Definition removeUserFromRoom (socketId : string) : Js (option User) :=
  tell (EvRegistry (MRemoveUserFromRoom socketId)) ;;
  s <- getService ;;
  match JSMap.get socketId (users s) with
  | None => ret None
  | Some user =>
      match getRoom (u_roomId user) s with
      | Some room =>
          ps <- match JSMap.get (u_userId user) (room_participants room) with
                | Some participant =>
                    cleanupParticipant participant ;;
                    let ps := JSMap.delete (u_userId user) (room_participants room) in
                    modifyRooms (JSMap.set (u_roomId user) (withParticipants room ps)) ;;
                    ret ps
                | None => ret (room_participants room)
                end ;;
          if Nat.eqb (JSMap.size ps) 0
          then modifyRooms (JSMap.delete (u_roomId user))
          else ret tt
      | None => ret tt
      end ;;
      modifyUsers (JSMap.delete socketId) ;;
      ret (Some user)
  end.

(** [const participant = this.getParticipant(roomId, userId);
    if (participant) { ... }]: the participant object is mutated where it
    is stored. *)
Definition mutateParticipant (roomId userId : string)
    (f : Participant -> Participant) : Js unit :=
  s <- getService ;;
  match getRoom roomId s with
  | Some room =>
      match JSMap.get userId (room_participants room) with
      | Some p =>
          modifyRooms (JSMap.set roomId
                         (withParticipants room
                            (JSMap.set userId (f p) (room_participants room))))
      | None => ret tt
      end
  | None => ret tt
  end.

Definition withTransport (p : Participant) (transport : Transport) : Participant :=
  {| p_userId := p_userId p;
     p_socketId := p_socketId p;
     p_name := p_name p;
     p_role := p_role p;
     p_joinedAt := p_joinedAt p;
     p_transports := JSMap.set (transport_id transport) transport (p_transports p);
     p_producers := p_producers p;
     p_consumers := p_consumers p;
     p_rtpCapabilities := p_rtpCapabilities p |}.

Definition withProducer (p : Participant) (producer : Producer) : Participant :=
  {| p_userId := p_userId p;
     p_socketId := p_socketId p;
     p_name := p_name p;
     p_role := p_role p;
     p_joinedAt := p_joinedAt p;
     p_transports := p_transports p;
     p_producers := JSMap.set (producer_id producer) producer (p_producers p);
     p_consumers := p_consumers p;
     p_rtpCapabilities := p_rtpCapabilities p |}.

Definition withConsumer (p : Participant) (consumer : Consumer) : Participant :=
  {| p_userId := p_userId p;
     p_socketId := p_socketId p;
     p_name := p_name p;
     p_role := p_role p;
     p_joinedAt := p_joinedAt p;
     p_transports := p_transports p;
     p_producers := p_producers p;
     p_consumers := JSMap.set (consumer_id consumer) consumer (p_consumers p);
     p_rtpCapabilities := p_rtpCapabilities p |}.

(** [addTransport(roomId, userId, transport)] *)
Definition addTransport (roomId userId : string) (transport : Transport) : Js unit :=
  tell (EvRegistry (MAddTransport roomId userId (transport_id transport))) ;;
  mutateParticipant roomId userId (fun p => withTransport p transport).

(** [addProducer(roomId, userId, producer)] *)
Definition addProducer (roomId userId : string) (producer : Producer) : Js unit :=
  tell (EvRegistry (MAddProducer roomId userId (producer_id producer))) ;;
  mutateParticipant roomId userId (fun p => withProducer p producer).

(** [addConsumer(roomId, userId, consumer)] *)
Definition addConsumer (roomId userId : string) (consumer : Consumer) : Js unit :=
  tell (EvRegistry (MAddConsumer roomId userId (consumer_id consumer))) ;;
  mutateParticipant roomId userId (fun p => withConsumer p consumer).

(** A run from a given registry. *)
Definition run {A} (m : Js A) (env : Env) (s : RoomService)
  : Outcome A * RoomService * list Event := m env s.

(** An environment in which every external call succeeds. *)
Definition quietEnv : Env :=
  {| newDate := 7;
     dateNow := 1700;
     handle_close := fun _ _ => Normal tt;
     schedule_canUserAccessRoom := fun _ _ _ => true;
     mediasoup_getRouterRtpCapabilities := Normal "caps";
     mediasoup_getRouter := Normal tt;
     router_canConsume := fun _ _ => Normal true;
     transport_consume := fun _ p _ =>
       Normal {| consumer_id := String.append "c-" p; consumer_kind := "video";
                 consumer_rtpParameters := "rtp"; consumer_producerPaused := false |};
     schedule_getScheduleByRoomId := fun r => Normal (String.append "sched-" r);
     messages_add := fun _ _ => Normal tt |}.

(** The schedule service refuses everybody. *)
Definition refusingEnv : Env :=
  {| newDate := newDate quietEnv;
     dateNow := dateNow quietEnv;
     handle_close := handle_close quietEnv;
     schedule_canUserAccessRoom := fun _ _ _ => false;
     mediasoup_getRouterRtpCapabilities := mediasoup_getRouterRtpCapabilities quietEnv;
     mediasoup_getRouter := mediasoup_getRouter quietEnv;
     router_canConsume := router_canConsume quietEnv;
     transport_consume := transport_consume quietEnv;
     schedule_getScheduleByRoomId := schedule_getScheduleByRoomId quietEnv;
     messages_add := messages_add quietEnv |}.

(** The router finds every producer incompatible. *)
Definition incompatibleEnv : Env :=
  {| newDate := newDate quietEnv;
     dateNow := dateNow quietEnv;
     handle_close := handle_close quietEnv;
     schedule_canUserAccessRoom := schedule_canUserAccessRoom quietEnv;
     mediasoup_getRouterRtpCapabilities := mediasoup_getRouterRtpCapabilities quietEnv;
     mediasoup_getRouter := mediasoup_getRouter quietEnv;
     router_canConsume := fun _ _ => Normal false;
     transport_consume := transport_consume quietEnv;
     schedule_getScheduleByRoomId := schedule_getScheduleByRoomId quietEnv;
     messages_add := messages_add quietEnv |}.


Definition teacherInfo : UserInfo :=
  {| uid := "t1"; email := "t1@example.com"; name := "Ada"; role := "teacher";
     prop_userId := None; prop_roomId := None |}.

Definition studentInfo : UserInfo :=
  {| uid := "u1"; email := "u1@example.com"; name := "Bob"; role := "student";
     prop_userId := None; prop_roomId := None |}.

(** A student whose profile document has a [roomId] field of its own. *)
Definition taggedInfo : UserInfo :=
  {| uid := "u2"; email := "u2@example.com"; name := "Cyd"; role := "student";
     prop_userId := None; prop_roomId := Some "homeroom" |}.

(* ===================================================================== *)
(** ** Strings of the chat handler *)

(** [String.prototype.trim] strips white space and line terminators from
    both ends.  Characters are code units below 256 here, of which TAB, LF,
    VT, FF, CR, SP and NBSP are white space. *)
Definition isWhiteSpace (c : ascii) : bool :=
  let n := nat_of_ascii c in
  (Nat.leb 9 n && Nat.leb n 13) || Nat.eqb n 32 || Nat.eqb n 160.

Fixpoint trimStart (cs : list ascii) : list ascii :=
  match cs with
  | c :: r => if isWhiteSpace c then trimStart r else cs
  | [] => []
  end.

Definition trim (text : string) : string :=
  string_of_list_ascii
    (rev (trimStart (rev (trimStart (list_ascii_of_string text))))).

(** [!text || text.trim().length === 0], for [text] a string or undefined. *)
Definition textMissing (text : option string) : bool :=
  match text with
  | None => true
  | Some t => Nat.eqb (String.length t) 0 || Nat.eqb (String.length (trim t)) 0
  end.

(** Template literals and [+] on strings. *)
Infix "+++" := String.append (right associativity, at level 60).

(** [n.toString()] of a non-negative integer. *)
Definition toString (n : nat) : string := NilZero.string_of_uint (Nat.to_uint n).

(* ===================================================================== *)
(** ** [setupSignaling]: the handlers registered on a connected socket *)

Module Signaling.

(** Each handler is an async function; its awaits are the [external]
    calls below.  A run is one handler from the registry it finds to the
    registry it leaves, with everything it calls in its trace. *)

(** The connected socket: [socket.id] and the [socket.user] that the
    authentication middleware attached. *)
Record Socket := { socket_id : string; socket_user : UserInfo }.

Record ConsumeData := {
  cd_transportId : string;
  cd_producerId : string;
  cd_rtpCapabilities : RtpCapabilities
}.

(** [const { ... } = data]: throws when the client sent no payload. *)
Definition destructure {A} (data : option A) : Js A :=
  match data with
  | Some d => ret d
  | None => raise "TypeError: Cannot destructure 'data' as it is undefined"
  end.

(** The last parameter of a handler, [callback]: the acknowledgement
    function that Socket.IO passes when the client asked for an
    acknowledgement, or whatever else the client's emit leaves in its
    place, which is not a function: nothing ([undefined], falsy) or a value
    of the payload (falsy or truthy). *)
Inductive Callback :=
| AckFunction
| NotAFunction (truthy : bool).

(** [if (callback)] *)
Definition isTruthy (cb : Callback) : bool :=
  match cb with
  | AckFunction => true
  | NotAFunction truthy => truthy
  end.

(** [callback(a)]: the argument has been evaluated; calling what is not a
    function throws. *)
Definition callback (cb : Callback) (a : Ack) : Js unit :=
  match cb with
  | AckFunction => tell (EvAck a)
  | NotAFunction _ => raise "TypeError: callback is not a function"
  end.

(** How a handler that calls its callback last ends, and what then is
    acknowledged: with a function, normally and with the acknowledgement;
    otherwise by the exception of the call, which the handler's own [catch]
    raises again when it calls the callback in its turn. *)
Definition answered (cb : Callback) : Outcome unit :=
  match cb with
  | AckFunction => Normal tt
  | NotAFunction _ => Throw "TypeError: callback is not a function"
  end.

Definition acked (cb : Callback) (a : Ack) : list Ack :=
  match cb with
  | AckFunction => [a]
  | NotAFunction _ => []
  end.

Definition consoleLog (text : string) : Js unit := tell (EvConsole LLog text None).

Definition consoleWarn (text : string) (error : Exn) : Js unit :=
  tell (EvConsole LWarn text (Some error)).

Definition consoleError (text : string) (error : Exn) : Js unit :=
  tell (EvConsole LError text (Some error)).

Definition emit (to : Address) (p : Push) : Js unit := tell (EvEmit to p).

Definition socketJoin (roomId : string) : Js unit := tell (EvSocketJoin roomId).

Definition socketLeave (roomId : string) : Js unit := tell (EvSocketLeave roomId).

(** [await scheduleService.canUserAccessRoom(userId, roomId, userRole)];
    the service catches its own errors and answers [false] then. *)
Definition canUserAccessRoom (userId roomId userRole : string) : Js bool :=
  external (EvCanUserAccessRoom userId roomId userRole)
           (fun env => Normal (schedule_canUserAccessRoom env userId roomId userRole)).

Definition getRouterRtpCapabilities : Js RtpCapabilities :=
  external EvGetRouterRtpCapabilities mediasoup_getRouterRtpCapabilities.

Definition getRouter : Js unit := external EvGetRouter mediasoup_getRouter.

Definition canConsume (producerId : string) (caps : RtpCapabilities) : Js bool :=
  external (EvCanConsume producerId caps)
           (fun env => router_canConsume env producerId caps).

Definition transportConsume (transportId producerId : string)
    (caps : RtpCapabilities) : Js Consumer :=
  external (EvConsume transportId producerId caps)
           (fun env => transport_consume env transportId producerId caps).

Definition getScheduleByRoomId (roomId : string) : Js string :=
  external (EvGetScheduleByRoomId roomId)
           (fun env => schedule_getScheduleByRoomId env roomId).

Definition messagesAdd (scheduleId : string) (message : ChatMessage) : Js unit :=
  external (EvMessagesAdd scheduleId message)
           (fun env => messages_add env scheduleId message).

(** [socket.on('createRoom', async (data, callback) => ...)] *)
Definition on_createRoom (socket : Socket) (data : option string)
    (cb : Callback) : Js unit :=
  let user := socket_user socket in
  catch
    (roomId <- destructure data ;;
     if negb (String.eqb (role user) "teacher") then
       callback cb (AckError "Only teachers can create rooms")
     else
       canAccess <- canUserAccessRoom (uid user) roomId (role user) ;;
       if negb canAccess then
         callback cb (AckError "You do not have permission to create this room")
       else
         createRoom roomId ;;
         socketJoin roomId ;;
         addUserToRoom roomId (uid user) (socket_id socket) user ;;
         consoleLog ("Teacher " +++ name user +++ " created room: " +++ roomId) ;;
         caps <- getRouterRtpCapabilities ;;
         callback cb (AckCreated roomId caps) ;;
         emit (SocketTo roomId) (UserJoined (uid user) (name user) (role user)))
    (fun error =>
       consoleError "Error creating room:" error ;;
       callback cb (AckError "Failed to create room")).

(** [socket.on('joinRoom', async (data, callback) => ...)] *)
Definition on_joinRoom (socket : Socket) (data : option string)
    (cb : Callback) : Js unit :=
  let user := socket_user socket in
  catch
    (roomId <- destructure data ;;
     canAccess <- canUserAccessRoom (uid user) roomId (role user) ;;
     if negb canAccess then
       callback cb (AckError "You do not have permission to join this room")
     else
       s <- getService ;;
       if negb (roomExists roomId s) then
         callback cb (AckError "Room does not exist")
       else
         socketJoin roomId ;;
         addUserToRoom roomId (uid user) (socket_id socket) user ;;
         consoleLog ("User " +++ name user +++ " joined room: " +++ roomId) ;;
         s' <- getService ;;
         let existingProducers := getRoomProducers roomId (Some (uid user)) s' in
         caps <- getRouterRtpCapabilities ;;
         callback cb (AckJoined roomId caps existingProducers) ;;
         emit (SocketTo roomId) (UserJoined (uid user) (name user) (role user)))
    (fun error =>
       consoleError "Error joining room:" error ;;
       callback cb (AckError "Failed to join room")).

(** [socket.on('consume', async (data, callback) => ...)] *)
Definition on_consume (socket : Socket) (data : option ConsumeData)
    (cb : Callback) : Js unit :=
  catch
    (d <- destructure data ;;
     s <- getService ;;
     match getUserBySocketId (socket_id socket) s with
     | None => callback cb (AckError "User not found in any room")
     | Some user =>
         match getTransport (u_roomId user) (u_userId user) (cd_transportId d) s with
         | None => callback cb (AckError "Transport not found")
         | Some transport =>
             getRouter ;;
             ok <- canConsume (cd_producerId d) (cd_rtpCapabilities d) ;;
             if negb ok then
               callback cb (AckError "Cannot consume this producer")
             else
               consumer <- transportConsume (transport_id transport)
                             (cd_producerId d) (cd_rtpCapabilities d) ;;
               addConsumer (u_roomId user) (u_userId user) consumer ;;
               consoleLog ("Consumer created: " +++ consumer_id consumer
                           +++ " for producer " +++ cd_producerId d) ;;
               callback cb (AckConsumed consumer)
         end
     end)
    (fun error =>
       consoleError "Error creating consumer:" error ;;
       callback cb (AckError "Failed to create consumer")).

(** The message object of the chat handler. *)
Definition chatMessage (env : Env) (user : User) (text : string) : ChatMessage :=
  {| msg_id := toString (dateNow env);
     msg_userId := u_userId user;
     msg_name := name (u_info user);
     msg_role := role (u_info user);
     msg_text := trim text;
     msg_timestamp := newDate env |}.

(** [socket.on('chat:message', async (data, callback) => ...)]; [data] is
    the payload and its [text] property, each possibly missing. *)
Definition on_chat_message (socket : Socket) (data : option (option string))
    (cb : Callback) : Js unit :=
  catch
    (text <- destructure data ;;
     s <- getService ;;
     match getUserBySocketId (socket_id socket) s with
     | None => callback cb (AckError "User not found in any room")
     | Some user =>
         if textMissing text then
           callback cb (AckError "Message text is required")
         else
           env <- ask ;;
           let message :=
             chatMessage env user (match text with Some t => t | None => "" end) in
           catch
             (schedule <- getScheduleByRoomId (u_roomId user) ;;
              messagesAdd schedule message)
             (fun error => consoleWarn "Failed to persist chat message:" error) ;;
           emit (IoTo (u_roomId user)) (ChatPush message) ;;
           callback cb (AckChat message)
     end)
    (fun error =>
       consoleError "Error handling chat message:" error ;;
       callback cb (AckError "Failed to send message")).

(** [socket.on('leaveRoom', (callback) => ...)] *)
Definition on_leaveRoom (socket : Socket) (cb : Callback) : Js unit :=
  catch
    (removed <- removeUserFromRoom (socket_id socket) ;;
     match removed with
     | Some user =>
         socketLeave (u_roomId user) ;;
         consoleLog ("User " +++ name (u_info user) +++ " left room: " +++ u_roomId user) ;;
         emit (SocketTo (u_roomId user))
              (UserLeft (u_userId user) (name (u_info user)) (role (u_info user))) ;;
         if isTruthy cb then callback cb AckSuccess else ret tt
     | None => ret tt
     end)
    (fun error =>
       consoleError "Error leaving room:" error ;;
       if isTruthy cb then callback cb (AckError "Failed to leave room") else ret tt).

(** [socket.on('disconnect', () => ...)] *)
Definition on_disconnect (socket : Socket) : Js unit :=
  catch
    (removed <- removeUserFromRoom (socket_id socket) ;;
     match removed with
     | Some user =>
         consoleLog ("User " +++ name (u_info user) +++ " disconnected from room: "
                     +++ u_roomId user) ;;
         emit (SocketTo (u_roomId user))
              (UserLeft (u_userId user) (name (u_info user)) (role (u_info user)))
     | None => ret tt
     end)
    (fun error => consoleError "Error handling disconnect:" error).

(** The requests a client sends over its socket, among those above. *)
Inductive Request :=
| ReqCreateRoom (data : option string) (cb : Callback)
| ReqJoinRoom (data : option string) (cb : Callback)
| ReqConsume (data : option ConsumeData) (cb : Callback)
| ReqChatMessage (data : option (option string)) (cb : Callback)
| ReqLeaveRoom (cb : Callback)
| ReqDisconnect.

Definition handle (socket : Socket) (req : Request) : Js unit :=
  match req with
  | ReqCreateRoom data cb => on_createRoom socket data cb
  | ReqJoinRoom data cb => on_joinRoom socket data cb
  | ReqConsume data cb => on_consume socket data cb
  | ReqChatMessage data cb => on_chat_message socket data cb
  | ReqLeaveRoom cb => on_leaveRoom socket cb
  | ReqDisconnect => on_disconnect socket
  end.

(** The registry after a sequence of requests, each handled to its end
    in the environment of its moment. *)
Definition serve (reqs : list (Env * Socket * Request)) (s : RoomService)
  : RoomService :=
  fold_left
    (fun s r => serviceOf (run (handle (snd (fst r)) (snd r)) (fst (fst r)) s))
    reqs s.


End Signaling.

(* ===================================================================== *)
(** ** The registry after each mutating method *)

Definition freshRoom (env : Env) (roomId : string) : Room :=
  {| room_id := roomId;
     room_participants := JSMap.empty;
     room_createdAt := newDate env |}.

Definition freshParticipant (env : Env) (userId socketId : string)
    (userInfo : UserInfo) : Participant :=
  {| p_userId := userId;
     p_socketId := socketId;
     p_name := name userInfo;
     p_role := role userInfo;
     p_joinedAt := newDate env;
     p_transports := JSMap.empty;
     p_producers := JSMap.empty;
     p_consumers := JSMap.empty;
     p_rtpCapabilities := None |}.

Definition afterCreateRoom (env : Env) (roomId : string) (s : RoomService)
  : RoomService :=
  if JSMap.has roomId (rooms s) then s
  else {| rooms := JSMap.set roomId (freshRoom env roomId) (rooms s);
          users := users s |}.

Definition afterAddUserToRoom (env : Env) (roomId userId socketId : string)
    (userInfo : UserInfo) (s : RoomService) : RoomService :=
  let room := match getRoom roomId s with
              | Some r => r
              | None => freshRoom env roomId
              end in
  {| rooms :=
       JSMap.set roomId
         (withParticipants room
            (JSMap.set userId (freshParticipant env userId socketId userInfo)
               (room_participants room)))
         (rooms s);
     users := JSMap.set socketId (indexEntry roomId userId userInfo) (users s) |}.

Definition afterRemoveUserFromRoom (socketId : string) (s : RoomService)
  : RoomService :=
  match JSMap.get socketId (users s) with
  | None => s
  | Some user =>
      {| rooms :=
           match getRoom (u_roomId user) s with
           | None => rooms s
           | Some room =>
               match JSMap.get (u_userId user) (room_participants room) with
               | Some _ =>
                   let ps := JSMap.delete (u_userId user) (room_participants room) in
                   if Nat.eqb (JSMap.size ps) 0
                   then JSMap.delete (u_roomId user) (rooms s)
                   else JSMap.set (u_roomId user) (withParticipants room ps) (rooms s)
               | None =>
                   if Nat.eqb (JSMap.size (room_participants room)) 0
                   then JSMap.delete (u_roomId user) (rooms s)
                   else rooms s
               end
           end;
         users := JSMap.delete socketId (users s) |}
  end.

Definition afterAddConsumer (roomId userId : string) (consumer : Consumer)
    (s : RoomService) : RoomService :=
  match getRoom roomId s with
  | Some room =>
      match JSMap.get userId (room_participants room) with
      | Some p =>
          {| rooms :=
               JSMap.set roomId
                 (withParticipants room
                    (JSMap.set userId (withConsumer p consumer)
                       (room_participants room)))
                 (rooms s);
             users := users s |}
      | None => s
      end
  | None => s
  end.

(** The participant object once [cleanupParticipant] has cleared its maps. *)
Definition cleared (p : Participant) : Participant :=
  {| p_userId := p_userId p;
     p_socketId := p_socketId p;
     p_name := p_name p;
     p_role := p_role p;
     p_joinedAt := p_joinedAt p;
     p_transports := JSMap.empty;
     p_producers := JSMap.empty;
     p_consumers := JSMap.empty;
     p_rtpCapabilities := p_rtpCapabilities p |}.

(** What closing the handles [ids] of one kind records: the call, and the
    console line when the call threw. *)
Definition closeTrace (env : Env) (k : HandleKind) (label : string)
    (ids : list string) : list Event :=
  flat_map
    (fun id =>
       EvClose k id ::
       match handle_close env k id with
       | Normal _ => []
       | Throw e => [EvConsole LError label (Some e)]
       end)
    ids.

Definition cleanupTrace (env : Env) (p : Participant) : list Event :=
  closeTrace env KConsumer "Error closing consumer:"
    (map consumer_id (JSMap.values (p_consumers p)))
  ++ closeTrace env KProducer "Error closing producer:"
       (map producer_id (JSMap.values (p_producers p)))
  ++ closeTrace env KTransport "Error closing transport:"
       (map transport_id (JSMap.values (p_transports p))).

(** The actions of [removeUserFromRoom] after its own call record. *)
Definition removeTrace (env : Env) (socketId : string) (s : RoomService)
  : list Event :=
  match JSMap.get socketId (users s) with
  | None => []
  | Some user =>
      match getParticipant (u_roomId user) (u_userId user) s with
      | Some participant => cleanupTrace env participant
      | None => []
      end
  end.

(* ===================================================================== *)
(** ** Vocabulary of the properties *)

(** Projections of a trace. *)
Definition closes (t : list Event) : list (HandleKind * string) :=
  flat_map (fun e => match e with EvClose k id => [(k, id)] | _ => [] end) t.

Definition acks (t : list Event) : list Ack :=
  flat_map (fun e => match e with EvAck a => [a] | _ => [] end) t.

Definition emits (t : list Event) : list (Address * Push) :=
  flat_map (fun e => match e with EvEmit to p => [(to, p)] | _ => [] end) t.

Definition mutations (t : list Event) : list Method :=
  flat_map (fun e => match e with EvRegistry m => [m] | _ => [] end) t.

Definition consumeCalls (t : list Event) : list Event :=
  filter (fun e => match e with EvConsume _ _ _ => true | _ => false end) t.

Definition oracleCalls (t : list Event) : list Event :=
  filter (fun e => match e with EvCanUserAccessRoom _ _ _ => true | _ => false end) t.

(** The handles a participant owns, in the order in which
    [cleanupParticipant] goes through them. *)
Definition handlesOf (p : Participant) : list (HandleKind * string) :=
  map (fun c => (KConsumer, consumer_id c)) (JSMap.values (p_consumers p))
  ++ map (fun x => (KProducer, producer_id x)) (JSMap.values (p_producers p))
  ++ map (fun t => (KTransport, transport_id t)) (JSMap.values (p_transports p)).

(** No room of the registry has zero participants. *)
Definition noEmptyRoom (s : RoomService) : Prop :=
  forall roomId room,
    getRoom roomId s = Some room -> JSMap.size (room_participants room) <> 0.

(** Sequences of registry operations. *)
Inductive Op :=
| CreateRoom (roomId : string)
| AddUserToRoom (roomId userId socketId : string) (userInfo : UserInfo)
| RemoveUserFromRoom (socketId : string).

Definition perform (op : Op) : Js unit :=
  match op with
  | CreateRoom roomId => createRoom roomId ;; ret tt
  | AddUserToRoom roomId userId socketId userInfo =>
      addUserToRoom roomId userId socketId userInfo ;; ret tt
  | RemoveUserFromRoom socketId => removeUserFromRoom socketId ;; ret tt
  end.

(** Each operation runs in the environment (the clock, the behaviour of
    the handles) of its own moment. *)
Definition performAll (ops : list (Env * Op)) (s : RoomService) : RoomService :=
  fold_left (fun s eo => serviceOf (run (perform (snd eo)) (fst eo) s)) ops s.

Definition isAddOrRemove (op : Op) : bool :=
  match op with CreateRoom _ => false | _ => true end.

(** Every entry of the connection index leads to a participant of an
    existing room. *)
Definition indexSound (s : RoomService) : Prop :=
  forall socketId user,
    getUserBySocketId socketId s = Some user ->
    exists room participant,
      getRoom (u_roomId user) s = Some room /\
      JSMap.get (u_userId user) (room_participants room) = Some participant.

(** [socketId] is an entry of the connection index for that participant. *)
Definition refersTo (s : RoomService) (roomId userId socketId : string) : Prop :=
  exists user,
    getUserBySocketId socketId s = Some user /\
    u_roomId user = roomId /\ u_userId user = userId.

(** Every participant of every room has exactly one entry of the
    connection index. *)
Definition indexComplete (s : RoomService) : Prop :=
  forall roomId userId participant,
    getParticipant roomId userId s = Some participant ->
    exists! socketId, refersTo s roomId userId socketId.

Definition consistent (s : RoomService) : Prop :=
  indexSound s /\ indexComplete s.

(** The index entry that [addUserToRoom] writes names the room and the
    user of the call: [userInfo] has no own [roomId] or [userId] property
    with another value. *)
Definition namesTheCall (roomId userId : string) (userInfo : UserInfo) : Prop :=
  u_roomId (indexEntry roomId userId userInfo) = roomId /\
  u_userId (indexEntry roomId userId userInfo) = userId.

(** What [addUserToRoom(roomId, userId, socketId, userInfo)] must find for
    the index and the rooms to agree afterwards.  Either the join is new:
    the socket has no entry, the user is not in the room, and the entry
    written names the call.  Or it repeats what the index records: the
    socket's entry already names the participant that the new entry names,
    and the user of the call is in the room. *)
Definition joinKeepsIndex (s : RoomService) (roomId userId socketId : string)
    (userInfo : UserInfo) : Prop :=
  (getUserBySocketId socketId s = None /\
   getParticipant roomId userId s = None /\
   namesTheCall roomId userId userInfo)
  \/
  (refersTo s (u_roomId (indexEntry roomId userId userInfo))
              (u_userId (indexEntry roomId userId userInfo)) socketId /\
   exists participant, getParticipant roomId userId s = Some participant).

(** Registries reached from the empty one when every [addUserToRoom] finds
    what [joinKeepsIndex] asks for. *)
Inductive ReachedKeepingIndex : RoomService -> Prop :=
| reached_empty : ReachedKeepingIndex emptyService
| reached_add env s roomId userId socketId userInfo :
    ReachedKeepingIndex s ->
    joinKeepsIndex s roomId userId socketId userInfo ->
    ReachedKeepingIndex
      (serviceOf (run (addUserToRoom roomId userId socketId userInfo) env s))
| reached_remove env s socketId :
    ReachedKeepingIndex s ->
    ReachedKeepingIndex (serviceOf (run (removeUserFromRoom socketId) env s)).

(** No mutating method of the registry is called before the schedule
    service has been asked. *)
Definition gatedByOracle (t : list Event) : Prop :=
  forall pre m post,
    t = pre ++ EvRegistry m :: post ->
    exists userId roomId userRole,
      In (EvCanUserAccessRoom userId roomId userRole) pre.

Fixpoint gatedByOracleb (t : list Event) : bool :=
  match t with
  | [] => true
  | EvCanUserAccessRoom _ _ _ :: _ => true
  | EvRegistry _ :: _ => false
  | _ :: r => gatedByOracleb r
  end.


(** The console label of a failed [close], by kind of handle. *)
Definition closeLabel (k : HandleKind) : string :=
  match k with
  | KConsumer => "Error closing consumer:"
  | KProducer => "Error closing producer:"
  | KTransport => "Error closing transport:"
  end.

(* ===================================================================== *)
(** ** Sample registries and sessions *)

Definition teacherSocket : Signaling.Socket :=
  {| Signaling.socket_id := "s1"; Signaling.socket_user := teacherInfo |}.

Definition studentSocket : Signaling.Socket :=
  {| Signaling.socket_id := "s2"; Signaling.socket_user := studentInfo |}.

(** A registry with one teacher in room r1, on socket s1. *)
Definition oneTeacher : RoomService :=
  serviceOf (run (addUserToRoom "r1" "t1" "s1" teacherInfo) quietEnv emptyService).

(** Room r1 with the teacher, who has a transport and produces video, and
    a student who has a transport. *)
Definition classroom : RoomService :=
  serviceOf
    (run (addUserToRoom "r1" "t1" "s1" teacherInfo ;;
          addUserToRoom "r1" "u1" "s2" studentInfo ;;
          addTransport "r1" "t1" {| transport_id := "tr1" |} ;;
          addProducer "r1" "t1" {| producer_id := "p1"; producer_kind := "video" |} ;;
          addTransport "r1" "u1" {| transport_id := "tr2" |})
       quietEnv emptyService).

Definition sampleOps : list (Env * Op) :=
  [(quietEnv, AddUserToRoom "r1" "t1" "s1" teacherInfo);
   (quietEnv, AddUserToRoom "r1" "u1" "s2" studentInfo);
   (quietEnv, RemoveUserFromRoom "s1")].

Definition sampleSession : list (Env * Signaling.Socket * Signaling.Request) :=
  [(quietEnv, teacherSocket, Signaling.ReqCreateRoom (Some "r1") Signaling.AckFunction);
   (quietEnv, studentSocket, Signaling.ReqJoinRoom (Some "r1") Signaling.AckFunction);
   (quietEnv, teacherSocket, Signaling.ReqDisconnect)].

(* ===================================================================== *)
(** ** The other methods of [class RoomService] *)

(** [getProducer(roomId, userId, producerId)] *)
Definition getProducer (roomId userId producerId : string) (s : RoomService)
  : option Producer :=
  match getParticipant roomId userId s with
  | Some participant => JSMap.get producerId (p_producers participant)
  | None => None
  end.

Definition withRtpCapabilities (p : Participant) (caps : option RtpCapabilities)
  : Participant :=
  {| p_userId := p_userId p;
     p_socketId := p_socketId p;
     p_name := p_name p;
     p_role := p_role p;
     p_joinedAt := p_joinedAt p;
     p_transports := p_transports p;
     p_producers := p_producers p;
     p_consumers := p_consumers p;
     p_rtpCapabilities := caps |}.

(** [setRtpCapabilities(roomId, userId, rtpCapabilities)]; the value is
    whatever the client sent, possibly undefined.  Its calls have no record
    among [Method]. *)
Definition setRtpCapabilities (roomId userId : string)
    (caps : option RtpCapabilities) : Js unit :=
  mutateParticipant roomId userId (fun p => withRtpCapabilities p caps).

(** One element of [participants] in the result of [getRoomStats]. *)
Record ParticipantStats := {
  ps_userId : string;
  ps_name : string;
  ps_role : string;
  ps_joinedAt : JsDate;
  ps_transportCount : nat;
  ps_producerCount : nat;
  ps_consumerCount : nat
}.

Record RoomStats := {
  rs_roomId : string;
  rs_participantCount : nat;
  rs_participants : list ParticipantStats;
  rs_createdAt : JsDate
}.

(** [getRoomStats(roomId)] *)
Definition getRoomStats (roomId : string) (s : RoomService) : option RoomStats :=
  match getRoom roomId s with
  | None => None
  | Some room =>
      Some {| rs_roomId := roomId;
              rs_participantCount := JSMap.size (room_participants room);
              rs_participants :=
                map (fun p =>
                       {| ps_userId := p_userId p;
                          ps_name := p_name p;
                          ps_role := p_role p;
                          ps_joinedAt := p_joinedAt p;
                          ps_transportCount := JSMap.size (p_transports p);
                          ps_producerCount := JSMap.size (p_producers p);
                          ps_consumerCount := JSMap.size (p_consumers p) |})
                    (JSMap.values (room_participants room));
              rs_createdAt := room_createdAt room |}
  end.

(** [getAllRooms()] *)
Definition getAllRooms (s : RoomService) : list string := JSMap.keys (rooms s).

(** The registry after [mutateParticipant]. *)
Definition afterMutateParticipant (roomId userId : string)
    (f : Participant -> Participant) (s : RoomService) : RoomService :=
  match getRoom roomId s with
  | Some room =>
      match JSMap.get userId (room_participants room) with
      | Some p =>
          {| rooms :=
               JSMap.set roomId
                 (withParticipants room
                    (JSMap.set userId (f p) (room_participants room)))
                 (rooms s);
             users := users s |}
      | None => s
      end
  | None => s
  end.

(** Every call a handler can make on the registry. *)
Inductive RegistryCall :=
| CallCreateRoom (roomId : string)
| CallAddUserToRoom (roomId userId socketId : string) (userInfo : UserInfo)
| CallRemoveUserFromRoom (socketId : string)
| CallAddTransport (roomId userId : string) (transport : Transport)
| CallAddProducer (roomId userId : string) (producer : Producer)
| CallAddConsumer (roomId userId : string) (consumer : Consumer)
| CallSetRtpCapabilities (roomId userId : string) (caps : option RtpCapabilities).

Definition performCall (c : RegistryCall) : Js unit :=
  match c with
  | CallCreateRoom roomId => createRoom roomId ;; ret tt
  | CallAddUserToRoom roomId userId socketId userInfo =>
      addUserToRoom roomId userId socketId userInfo ;; ret tt
  | CallRemoveUserFromRoom socketId => removeUserFromRoom socketId ;; ret tt
  | CallAddTransport roomId userId transport => addTransport roomId userId transport
  | CallAddProducer roomId userId producer => addProducer roomId userId producer
  | CallAddConsumer roomId userId consumer => addConsumer roomId userId consumer
  | CallSetRtpCapabilities roomId userId caps =>
      setRtpCapabilities roomId userId caps
  end.

(** The registry after one call, and after a sequence of calls made at
    different moments. *)
Definition afterCall (env : Env) (c : RegistryCall) (s : RoomService) : RoomService :=
  serviceOf (run (performCall c) env s).

Definition afterCalls (cs : list (Env * RegistryCall)) (s : RoomService)
  : RoomService :=
  fold_left (fun s ec => afterCall (fst ec) (snd ec) s) cs s.

(** The keys of a map are distinct, and every value is stored under the
    key that [f] reads from it. *)
Definition uniqueKeys {V} (m : JSMap.t V) : Prop := NoDup (JSMap.keys m).

Definition keyedBy {V} (f : V -> string) (m : JSMap.t V) : Prop :=
  forall k v, In (k, v) m -> f v = k.

Definition wellKeyedParticipant (p : Participant) : Prop :=
  uniqueKeys (p_transports p) /\ keyedBy transport_id (p_transports p) /\
  uniqueKeys (p_producers p) /\ keyedBy producer_id (p_producers p) /\
  uniqueKeys (p_consumers p) /\ keyedBy consumer_id (p_consumers p).

Definition wellKeyedRoom (room : Room) : Prop :=
  uniqueKeys (room_participants room) /\
  keyedBy p_userId (room_participants room) /\
  forall u p, In (u, p) (room_participants room) -> wellKeyedParticipant p.

(** Rooms are stored under their id, participants under their user id and
    handles under their handle id, each key once. *)
Definition wellKeyed (s : RoomService) : Prop :=
  uniqueKeys (rooms s) /\ uniqueKeys (users s) /\
  keyedBy room_id (rooms s) /\
  forall r room, In (r, room) (rooms s) -> wellKeyedRoom room.

(** The participant that a call updates in place, for the four calls that
    go through [mutateParticipant]. *)
Definition updatedParticipant (c : RegistryCall) : option (string * string) :=
  match c with
  | CallAddTransport roomId userId _
  | CallAddProducer roomId userId _
  | CallAddConsumer roomId userId _
  | CallSetRtpCapabilities roomId userId _ => Some (roomId, userId)
  | _ => None
  end.

(** The calls that build [classroom]. *)
Definition classroomCalls : list (Env * RegistryCall) :=
  [(quietEnv, CallAddUserToRoom "r1" "t1" "s1" teacherInfo);
   (quietEnv, CallAddUserToRoom "r1" "u1" "s2" studentInfo);
   (quietEnv, CallAddTransport "r1" "t1" {| transport_id := "tr1" |});
   (quietEnv, CallAddProducer "r1" "t1"
                {| producer_id := "p1"; producer_kind := "video" |});
   (quietEnv, CallAddTransport "r1" "u1" {| transport_id := "tr2" |})].

(* ===================================================================== *)
(** ** The media handlers of [setupSignaling]

    The handlers for transports, producers, resumed consumers, the producer
    list and the capabilities call the media engine in ways the handlers
    above do not.  Their environment extends [Env], their traces extend
    [Event], and the computations above run inside them unchanged. *)

Module Media.

Import Signaling.

(** What [createWebRtcTransport()] of [../config/mediasoup] resolves to:
    [{ transport, params }]. *)
Record WebRtcTransport := { wt_transport : Transport; wt_params : string }.

(** The argument of [transport.produce]: the client's kind, parameters and
    [appData], and the [userId] and [userName] that the handler adds to the
    latter. *)
Record ProduceOptions := {
  po_kind : string;
  po_rtpParameters : string;
  po_appData : option string;
  po_userId : string;
  po_userName : string
}.

Record EnvX := {
  base : Env;
  mediasoup_createWebRtcTransport : Outcome WebRtcTransport;
  transport_connect : string -> string -> Outcome unit;
  transport_produce : string -> ProduceOptions -> Outcome Producer;
  consumer_resume : string -> Outcome unit
}.

(** The acknowledgements that only these handlers send. *)
Inductive AckX :=
| AckTransport (params : string)
| AckProduced (id : string)
| AckProducers (producers : list ProducerInfo).

Inductive EventX :=
| Old (e : Event)
| EvCreateWebRtcTransport
| EvTransportConnect (transportId dtlsParameters : string)
| EvTransportProduce (transportId : string) (options : ProduceOptions)
| EvConsumerResume (consumerId : string)
| EvAckX (a : AckX)
| EvEmitNewProducer (to : Address)
    (userId userName userRole producerId kind : string).

Definition Jx (A : Type) : Type :=
  EnvX -> RoomService -> Outcome A * RoomService * list EventX.

Definition Jx_ret {A} (a : A) : Jx A := fun _ s => (Normal a, s, []).

Definition Jx_bind {A B} (m : Jx A) (f : A -> Jx B) : Jx B :=
  fun env s =>
    match m env s with
    | (Normal a, s1, t1) =>
        match f a env s1 with
        | (o, s2, t2) => (o, s2, t1 ++ t2)
        end
    | (Throw e, s1, t1) => (Throw e, s1, t1)
    end.

Definition Jx_throw {A} (e : Exn) : Jx A := fun _ s => (Throw e, s, []).

Definition Jx_catch {A} (m : Jx A) (h : Exn -> Jx A) : Jx A :=
  fun env s =>
    match m env s with
    | (Normal a, s1, t1) => (Normal a, s1, t1)
    | (Throw e, s1, t1) =>
        match h e env s1 with
        | (o, s2, t2) => (o, s2, t1 ++ t2)
        end
    end.

#[global] Instance Monad_Jx : Monad Jx :=
  {| ret := @Jx_ret; bind := @Jx_bind |}.

#[global] Instance MonadExc_Jx : MonadExc Exn Jx :=
  {| raise := @Jx_throw; catch := @Jx_catch |}.

(** A computation of the handlers above, run in the base environment. *)
Definition liftJs {A} (m : Js A) : Jx A :=
  fun env s =>
    match m (base env) s with
    | (o, s', t) => (o, s', map Old t)
    end.

Definition externalX {A} (e : EventX) (answer : EnvX -> Outcome A) : Jx A :=
  fun env s => (answer env, s, [e]).

(** [callback(a)], for the acknowledgements of these handlers. *)
Definition callbackX (cb : Callback) (a : AckX) : Jx unit :=
  match cb with
  | AckFunction => fun _ s => (Normal tt, s, [EvAckX a])
  | NotAFunction _ => raise "TypeError: callback is not a function"
  end.

(** [socket.to(room).emit('newProducer', { userId, userName, userRole,
    producerId, kind })] *)
Definition emitNewProducer (to : Address)
    (userId userName userRole producerId kind : string) : Jx unit :=
  fun _ s =>
    (Normal tt, s, [EvEmitNewProducer to userId userName userRole producerId kind]).

Definition runX {A} (m : Jx A) (env : EnvX) (s : RoomService)
  : Outcome A * RoomService * list EventX := m env s.

(** [await createWebRtcTransport()] *)
Definition createWebRtcTransport : Jx WebRtcTransport :=
  externalX EvCreateWebRtcTransport mediasoup_createWebRtcTransport.

(** [await transport.connect({ dtlsParameters })] *)
Definition transportConnect (transportId dtlsParameters : string) : Jx unit :=
  externalX (EvTransportConnect transportId dtlsParameters)
            (fun env => transport_connect env transportId dtlsParameters).

(** [await transport.produce({ kind, rtpParameters, appData })] *)
Definition transportProduce (transportId : string) (options : ProduceOptions)
  : Jx Producer :=
  externalX (EvTransportProduce transportId options)
            (fun env => transport_produce env transportId options).

(** [await consumer.resume()] *)
Definition consumerResume (consumerId : string) : Jx unit :=
  externalX (EvConsumerResume consumerId)
            (fun env => consumer_resume env consumerId).

Record ConnectData := { ct_transportId : string; ct_dtlsParameters : string }.

Record ProduceData := {
  pd_transportId : string;
  pd_kind : string;
  pd_rtpParameters : string;
  pd_appData : option string
}.

(** [socket.on('createWebRtcTransport', async (data, callback) => ...)];
    the handler does not read [data]. *)
Definition on_createWebRtcTransport (socket : Socket) (cb : Callback) : Jx unit :=
  catch
    (s <- liftJs getService ;;
     match getUserBySocketId (socket_id socket) s with
     | None => liftJs (callback cb (AckError "User not found in any room"))
     | Some user =>
         created <- createWebRtcTransport ;;
         liftJs (addTransport (u_roomId user) (u_userId user)
                   (wt_transport created)) ;;
         callbackX cb (AckTransport (wt_params created))
     end)
    (fun error =>
       liftJs (consoleError "Error creating WebRTC transport:" error) ;;
       liftJs (callback cb (AckError "Failed to create WebRTC transport"))).

(** [socket.on('connectTransport', async (data, callback) => ...)] *)
Definition on_connectTransport (socket : Socket) (data : option ConnectData)
    (cb : Callback) : Jx unit :=
  catch
    (d <- liftJs (destructure data) ;;
     s <- liftJs getService ;;
     match getUserBySocketId (socket_id socket) s with
     | None => liftJs (callback cb (AckError "User not found in any room"))
     | Some user =>
         match getTransport (u_roomId user) (u_userId user) (ct_transportId d) s with
         | None => liftJs (callback cb (AckError "Transport not found"))
         | Some transport =>
             transportConnect (transport_id transport) (ct_dtlsParameters d) ;;
             liftJs (callback cb AckSuccess)
         end
     end)
    (fun error =>
       liftJs (consoleError "Error connecting transport:" error) ;;
       liftJs (callback cb (AckError "Failed to connect transport"))).

(** [socket.on('produce', async (data, callback) => ...)] *)
Definition on_produce (socket : Socket) (data : option ProduceData)
    (cb : Callback) : Jx unit :=
  catch
    (d <- liftJs (destructure data) ;;
     s <- liftJs getService ;;
     match getUserBySocketId (socket_id socket) s with
     | None => liftJs (callback cb (AckError "User not found in any room"))
     | Some user =>
         match getTransport (u_roomId user) (u_userId user) (pd_transportId d) s with
         | None => liftJs (callback cb (AckError "Transport not found"))
         | Some transport =>
             producer <- transportProduce (transport_id transport)
                           {| po_kind := pd_kind d;
                              po_rtpParameters := pd_rtpParameters d;
                              po_appData := pd_appData d;
                              po_userId := u_userId user;
                              po_userName := name (u_info user) |} ;;
             liftJs (addProducer (u_roomId user) (u_userId user) producer) ;;
             liftJs (consoleLog ("Producer created: " +++ producer_id producer
                                 +++ " (" +++ pd_kind d +++ ") by "
                                 +++ name (u_info user))) ;;
             callbackX cb (AckProduced (producer_id producer)) ;;
             emitNewProducer (SocketTo (u_roomId user))
               (u_userId user) (name (u_info user)) (role (u_info user))
               (producer_id producer) (pd_kind d)
         end
     end)
    (fun error =>
       liftJs (consoleError "Error creating producer:" error) ;;
       liftJs (callback cb (AckError "Failed to create producer"))).

(** [socket.on('resumeConsumer', async (data, callback) => ...)]; [data]
    is the payload with its [consumerId]. *)
Definition on_resumeConsumer (socket : Socket) (data : option string)
    (cb : Callback) : Jx unit :=
  catch
    (consumerId <- liftJs (destructure data) ;;
     s <- liftJs getService ;;
     match getUserBySocketId (socket_id socket) s with
     | None => liftJs (callback cb (AckError "User not found in any room"))
     | Some user =>
         match getConsumer (u_roomId user) (u_userId user) consumerId s with
         | None => liftJs (callback cb (AckError "Consumer not found"))
         | Some consumer =>
             consumerResume (consumer_id consumer) ;;
             liftJs (callback cb AckSuccess)
         end
     end)
    (fun error =>
       liftJs (consoleError "Error resuming consumer:" error) ;;
       liftJs (callback cb (AckError "Failed to resume consumer"))).

(** [socket.on('getProducers', (callback) => ...)] *)
Definition on_getProducers (socket : Socket) (cb : Callback) : Jx unit :=
  catch
    (s <- liftJs getService ;;
     match getUserBySocketId (socket_id socket) s with
     | None => liftJs (callback cb (AckError "User not found in any room"))
     | Some user =>
         callbackX cb (AckProducers
                      (getRoomProducers (u_roomId user) (Some (u_userId user)) s))
     end)
    (fun error =>
       liftJs (consoleError "Error getting producers:" error) ;;
       liftJs (callback cb (AckError "Failed to get producers"))).

(** [socket.on('setRtpCapabilities', (data, callback) => ...)]; [data] is
    the payload with its [rtpCapabilities], each possibly missing. *)
Definition on_setRtpCapabilities (socket : Socket)
    (data : option (option RtpCapabilities)) (cb : Callback) : Jx unit :=
  catch
    (caps <- liftJs (destructure data) ;;
     s <- liftJs getService ;;
     match getUserBySocketId (socket_id socket) s with
     | None => liftJs (callback cb (AckError "User not found in any room"))
     | Some user =>
         liftJs (setRtpCapabilities (u_roomId user) (u_userId user) caps) ;;
         liftJs (callback cb AckSuccess)
     end)
    (fun error =>
       liftJs (consoleError "Error setting RTP capabilities:" error) ;;
       liftJs (callback cb (AckError "Failed to set RTP capabilities"))).

(** Every request a client can send. *)
Inductive RequestX :=
| Basic (req : Request)
| ReqCreateWebRtcTransport (cb : Callback)
| ReqConnectTransport (data : option ConnectData) (cb : Callback)
| ReqProduce (data : option ProduceData) (cb : Callback)
| ReqResumeConsumer (data : option string) (cb : Callback)
| ReqGetProducers (cb : Callback)
| ReqSetRtpCapabilities (data : option (option RtpCapabilities)) (cb : Callback).

Definition handleX (socket : Socket) (req : RequestX) : Jx unit :=
  match req with
  | Basic r => liftJs (handle socket r)
  | ReqCreateWebRtcTransport cb => on_createWebRtcTransport socket cb
  | ReqConnectTransport data cb => on_connectTransport socket data cb
  | ReqProduce data cb => on_produce socket data cb
  | ReqResumeConsumer data cb => on_resumeConsumer socket data cb
  | ReqGetProducers cb => on_getProducers socket cb
  | ReqSetRtpCapabilities data cb => on_setRtpCapabilities socket data cb
  end.

Definition serveX (reqs : list (EnvX * Socket * RequestX)) (s : RoomService)
  : RoomService :=
  fold_left
    (fun s r => snd (fst (runX (handleX (snd (fst r)) (snd r)) (fst (fst r)) s)))
    reqs s.

(** The acknowledgements of a trace, of either kind, in order. *)
Definition replies (t : list EventX) : list (Ack + AckX) :=
  flat_map (fun e => match e with
                     | Old (EvAck a) => [inl a]
                     | EvAckX a => [inr a]
                     | _ => []
                     end) t.

(** The engine calls of a trace. *)
Definition engineCalls (t : list EventX) : list EventX :=
  filter (fun e => match e with
                   | EvCreateWebRtcTransport
                   | EvTransportConnect _ _
                   | EvTransportProduce _ _
                   | EvConsumerResume _
                   | Old (EvConsume _ _ _)
                   | Old (EvCanConsume _ _)
                   | Old EvGetRouter => true
                   | _ => false
                   end) t.

(** The requests that are refused when the socket is in no room: those
    whose handler looks the socket up first, with their payload present. *)
Definition needsRoom (req : RequestX) : bool :=
  match req with
  | Basic (ReqConsume (Some _) _) | Basic (ReqChatMessage (Some _) _)
  | ReqCreateWebRtcTransport _ | ReqConnectTransport (Some _) _
  | ReqProduce (Some _) _ | ReqResumeConsumer (Some _) _
  | ReqGetProducers _ | ReqSetRtpCapabilities (Some _) _ => true
  | _ => false
  end.

(** The [callback] argument of a request; disconnect has none. *)
Definition callbackOf (req : RequestX) : option Callback :=
  match req with
  | Basic (ReqCreateRoom _ cb) | Basic (ReqJoinRoom _ cb)
  | Basic (ReqConsume _ cb) | Basic (ReqChatMessage _ cb)
  | Basic (ReqLeaveRoom cb)
  | ReqCreateWebRtcTransport cb | ReqConnectTransport _ cb
  | ReqProduce _ cb | ReqResumeConsumer _ cb
  | ReqGetProducers cb | ReqSetRtpCapabilities _ cb => Some cb
  | Basic ReqDisconnect => None
  end.

(** The same request with another [callback] argument. *)
Definition withCallback (cb : Callback) (req : RequestX) : RequestX :=
  match req with
  | Basic (ReqCreateRoom data _) => Basic (ReqCreateRoom data cb)
  | Basic (ReqJoinRoom data _) => Basic (ReqJoinRoom data cb)
  | Basic (ReqConsume data _) => Basic (ReqConsume data cb)
  | Basic (ReqChatMessage data _) => Basic (ReqChatMessage data cb)
  | Basic (ReqLeaveRoom _) => Basic (ReqLeaveRoom cb)
  | Basic ReqDisconnect => Basic ReqDisconnect
  | ReqCreateWebRtcTransport _ => ReqCreateWebRtcTransport cb
  | ReqConnectTransport data _ => ReqConnectTransport data cb
  | ReqProduce data _ => ReqProduce data cb
  | ReqResumeConsumer data _ => ReqResumeConsumer data cb
  | ReqGetProducers _ => ReqGetProducers cb
  | ReqSetRtpCapabilities data _ => ReqSetRtpCapabilities data cb
  end.

(** An engine that allocates transport tw and producer pw and never fails. *)
Definition quietEnvX : EnvX :=
  {| base := quietEnv;
     mediasoup_createWebRtcTransport :=
       Normal {| wt_transport := {| transport_id := "tw" |}; wt_params := "ice" |};
     transport_connect := fun _ _ => Normal tt;
     transport_produce := fun _ o =>
       Normal {| producer_id := "pw"; producer_kind := po_kind o |};
     consumer_resume := fun _ => Normal tt |}.

(** An engine whose every call throws. *)
Definition brokenEnvX : EnvX :=
  {| base := quietEnv;
     mediasoup_createWebRtcTransport := Throw "no ports";
     transport_connect := fun _ _ => Throw "dtls";
     transport_produce := fun _ _ => Throw "codec";
     consumer_resume := fun _ => Throw "closed" |}.

End Media.

(** The newProducer emits of a trace. *)
Definition newProducerEmits (t : list Media.EventX) : list Media.EventX :=
  filter (fun e => match e with
                   | Media.EvEmitNewProducer _ _ _ _ _ _ => true
                   | _ => false
                   end) t.

(** The callback that the handler of a request calls, if it calls one:
    every handler calls its own on every path, except that leaveRoom calls
    it only for a socket that is in the index and when it is truthy, and
    that disconnect has none. *)
Definition calledBack (s : RoomService) (socket : Signaling.Socket)
    (req : Media.RequestX) : option Signaling.Callback :=
  match req with
  | Media.Basic (Signaling.ReqLeaveRoom cb) =>
      match getUserBySocketId (Signaling.socket_id socket) s with
      | Some _ => if Signaling.isTruthy cb then Some cb else None
      | None => None
      end
  | _ => Media.callbackOf req
  end.

(** The router's capabilities cannot be read. *)
Definition noRouterEnv : Env :=
  {| newDate := newDate quietEnv;
     dateNow := dateNow quietEnv;
     handle_close := handle_close quietEnv;
     schedule_canUserAccessRoom := schedule_canUserAccessRoom quietEnv;
     mediasoup_getRouterRtpCapabilities := Throw "Router not initialized";
     mediasoup_getRouter := Throw "Router not initialized";
     router_canConsume := router_canConsume quietEnv;
     transport_consume := transport_consume quietEnv;
     schedule_getScheduleByRoomId := schedule_getScheduleByRoomId quietEnv;
     messages_add := messages_add quietEnv |}.

(* ===================================================================== *)
(** ** [class ScheduleService]: access to a room

    [getScheduleByRoomId] and [canUserAccessRoom] of
    [backend/src/services/scheduleService.js], over the two Firestore
    collections they query. *)

Module ScheduleService.

(** A document of [schedules], with its id and the fields read here. *)
Record ScheduleDoc := {
  sd_id : string;
  sd_roomId : string;
  sd_teacherId : string;
  sd_courseId : string
}.

(** A document of [enrollments]. *)
Record EnrollmentDoc := { en_studentId : string; en_courseId : string }.

(** The database: a [get()] on a collection throws, or returns the
    documents that satisfy the [where] clauses of the query, in the order
    of the collection. *)
Record Firestore := {
  schedules : list ScheduleDoc;
  enrollments : list EnrollmentDoc;
  schedulesFailure : option Exn;
  enrollmentsFailure : option Exn
}.

(** [schedulesRef.where('roomId', '==', roomId).get()] *)
Definition whereRoomId (db : Firestore) (roomId : string)
  : Outcome (list ScheduleDoc) :=
  match schedulesFailure db with
  | Some e => Throw e
  | None => Normal (filter (fun d => String.eqb (sd_roomId d) roomId) (schedules db))
  end.

(** [enrollmentsRef.where('studentId', '==', userId)
      .where('courseId', '==', courseId).get()] *)
Definition whereStudentCourse (db : Firestore) (userId courseId : string)
  : Outcome (list EnrollmentDoc) :=
  match enrollmentsFailure db with
  | Some e => Throw e
  | None =>
      Normal (filter (fun d => String.eqb (en_studentId d) userId
                               && String.eqb (en_courseId d) courseId)
                     (enrollments db))
  end.

(** [getScheduleByRoomId(roomId)], with what it writes to the console: an
    error is logged and thrown again. *)
Definition getScheduleByRoomId (db : Firestore) (roomId : string)
  : Outcome ScheduleDoc * list Event :=
  match whereRoomId db roomId with
  | Normal (doc :: _) => (Normal doc, [])
  | Normal [] =>
      (Throw "Schedule not found",
       [EvConsole LError "Error getting schedule by room ID:"
          (Some "Schedule not found")])
  | Throw e =>
      (Throw e, [EvConsole LError "Error getting schedule by room ID:" (Some e)])
  end.

(** [canUserAccessRoom(userId, roomId, userRole)] *)
Definition canUserAccessRoom (db : Firestore) (userId roomId userRole : string)
  : bool * list Event :=
  match getScheduleByRoomId db roomId with
  | (Throw e, log) =>
      (false, log ++ [EvConsole LError "Error checking room access:" (Some e)])
  | (Normal schedule, log) =>
      if String.eqb userRole "teacher" && String.eqb (sd_teacherId schedule) userId
      then (true, log)
      else if String.eqb userRole "student" then
        match whereStudentCourse db userId (sd_courseId schedule) with
        | Normal docs =>
            (negb (Nat.eqb (length docs) 0), log)
        | Throw e =>
            (false, log ++ [EvConsole LError "Error checking room access:" (Some e)])
        end
      else (false, log)
  end.

(** The schedule of a room, as the service sees it: the first document of
    the collection with that room id. *)
Definition scheduleOf (db : Firestore) (roomId : string) : option ScheduleDoc :=
  find (fun d => String.eqb (sd_roomId d) roomId) (schedules db).

Definition enrolled (db : Firestore) (userId courseId : string) : Prop :=
  exists e, In e (enrollments db) /\ en_studentId e = userId
            /\ en_courseId e = courseId.

(** Who may enter the room of a schedule. *)
Definition authorized (db : Firestore) (userId roomId userRole : string) : Prop :=
  schedulesFailure db = None /\
  exists schedule,
    scheduleOf db roomId = Some schedule /\
    ((userRole = "teacher" /\ sd_teacherId schedule = userId) \/
     (userRole = "student" /\ enrollmentsFailure db = None /\
      enrolled db userId (sd_courseId schedule))).

(** An environment whose schedule service reads the database [db]. *)
Definition withFirestore (env : Env) (db : Firestore) : Env :=
  {| newDate := newDate env;
     dateNow := dateNow env;
     handle_close := handle_close env;
     schedule_canUserAccessRoom :=
       fun userId roomId userRole =>
         fst (canUserAccessRoom db userId roomId userRole);
     mediasoup_getRouterRtpCapabilities := mediasoup_getRouterRtpCapabilities env;
     mediasoup_getRouter := mediasoup_getRouter env;
     router_canConsume := router_canConsume env;
     transport_consume := transport_consume env;
     schedule_getScheduleByRoomId :=
       fun roomId =>
         match fst (getScheduleByRoomId db roomId) with
         | Normal doc => Normal (sd_id doc)
         | Throw e => Throw e
         end;
     messages_add := messages_add env |}.

(** One course taught by t1 in room r1, with student u1 enrolled. *)
Definition sampleDb : Firestore :=
  {| schedules := [{| sd_id := "sch1"; sd_roomId := "r1";
                      sd_teacherId := "t1"; sd_courseId := "c1" |}];
     enrollments := [{| en_studentId := "u1"; en_courseId := "c1" |}];
     schedulesFailure := None;
     enrollmentsFailure := None |}.

End ScheduleService.

(* ===================================================================== *)
(** ** The authentication middleware of [setupSignaling] *)

Module Auth.

(** The decoded Firebase token and the profile document of [users], with
    the fields that end up in [socket.user] and are read from it.  The
    profile is spread last into [socket.user], so a [uid] or [email] of its
    own replaces the token's, and a [userId] or [roomId] of its own becomes
    an own property of [socket.user]. *)
Record DecodedToken := { tok_uid : string; tok_email : string }.

Record UserData := {
  ud_name : string;
  ud_role : string;
  ud_uid : option string;
  ud_email : option string;
  ud_userId : option string;
  ud_roomId : option string
}.

Record AuthEnv := {
  verifyIdToken : string -> Outcome DecodedToken;
  getUserDoc : string -> Outcome (option UserData)
}.

(** What the middleware passes to [next]. *)
Inductive Next :=
| NextOk (user : UserInfo)
| NextError (message : string).

(** [io.use(async (socket, next) => ...)]; [token] is
    [socket.handshake.auth.token]. *)
Definition authenticate (auth : AuthEnv) (token : option string)
  : Next * list Event :=
  match token with
  | None => (NextError "No authentication token provided", [])
  | Some t =>
      if Nat.eqb (String.length t) 0
      then (NextError "No authentication token provided", [])
      else
        match verifyIdToken auth t with
        | Throw e =>
            (NextError "Authentication failed",
             [EvConsole LError "Socket authentication error:" (Some e)])
        | Normal decoded =>
            match getUserDoc auth (tok_uid decoded) with
            | Throw e =>
                (NextError "Authentication failed",
                 [EvConsole LError "Socket authentication error:" (Some e)])
            | Normal None => (NextError "User profile not found", [])
            | Normal (Some userData) =>
                (NextOk {| uid := match ud_uid userData with
                                  | Some u => u
                                  | None => tok_uid decoded
                                  end;
                           email := match ud_email userData with
                                    | Some m => m
                                    | None => tok_email decoded
                                    end;
                           name := ud_name userData;
                           role := ud_role userData;
                           prop_userId := ud_userId userData;
                           prop_roomId := ud_roomId userData |},
                 [])
            end
        end
  end.

(** A directory with one teacher, whose token is tok-t1. *)
Definition sampleAuth : AuthEnv :=
  {| verifyIdToken := fun t =>
       if String.eqb t "tok-t1"
       then Normal {| tok_uid := "t1"; tok_email := "t1@example.com" |}
       else Throw "auth/argument-error";
     getUserDoc := fun u =>
       if String.eqb u "t1"
       then Normal (Some {| ud_name := "Ada"; ud_role := "teacher";
                            ud_uid := None; ud_email := Some "ada@school.org";
                            ud_userId := None; ud_roomId := None |})
       else Normal None |}.

End Auth.

(* ===================================================================== *)
(** ** Facts about [Map] *)

Section JSMapFacts.
Context {V : Type}.
Implicit Types (m : JSMap.t V) (k : string) (v : V).

Lemma get_set_eq k v m : JSMap.get k (JSMap.set k v m) = Some v.
Proof.
  induction m as [|[k' v'] r IH]; simpl.
  - now rewrite String.eqb_refl.
  - destruct (String.eqb k k') eqn:E; simpl.
    + now rewrite String.eqb_refl.
    + now rewrite E.
Qed.

Lemma get_set_ne k k' v m : k' <> k -> JSMap.get k' (JSMap.set k v m) = JSMap.get k' m.
Proof.
  intros Hne. induction m as [|[k0 v0] r IH]; simpl.
  - destruct (String.eqb_spec k' k); [contradiction | reflexivity].
  - destruct (String.eqb_spec k k0) as [->|Hk]; simpl.
    + destruct (String.eqb_spec k' k0); [contradiction | reflexivity].
    + destruct (String.eqb k' k0); [reflexivity | exact IH].
Qed.

Lemma get_delete_eq k m : JSMap.get k (JSMap.delete k m) = None.
Proof.
  induction m as [|[k0 v0] r IH]; simpl; [reflexivity|].
  destruct (String.eqb_spec k k0) as [->|Hk]; simpl; [exact IH|].
  destruct (String.eqb_spec k k0); [contradiction | exact IH].
Qed.

Lemma get_delete_ne k k' m : k' <> k -> JSMap.get k' (JSMap.delete k m) = JSMap.get k' m.
Proof.
  intros Hne. induction m as [|[k0 v0] r IH]; simpl; [reflexivity|].
  destruct (String.eqb_spec k k0) as [->|Hk]; simpl.
  - destruct (String.eqb_spec k' k0); [contradiction | exact IH].
  - destruct (String.eqb k' k0); [reflexivity | exact IH].
Qed.

Lemma delete_absent k m : JSMap.get k m = None -> JSMap.delete k m = m.
Proof.
  induction m as [|[k0 v0] r IH]; simpl; [reflexivity|].
  destruct (String.eqb_spec k k0) as [->|Hk]; simpl.
  - discriminate.
  - intros H. now rewrite IH.
Qed.

Lemma set_set k v v' m : JSMap.set k v (JSMap.set k v' m) = JSMap.set k v m.
Proof.
  induction m as [|[k0 v0] r IH]; simpl.
  - now rewrite String.eqb_refl.
  - destruct (String.eqb k k0) eqn:E; simpl.
    + now rewrite String.eqb_refl.
    + now rewrite E, IH.
Qed.

Lemma delete_set k v m : JSMap.delete k (JSMap.set k v m) = JSMap.delete k m.
Proof.
  unfold JSMap.delete.
  induction m as [|[k0 v0] r IH]; simpl.
  - now rewrite String.eqb_refl.
  - destruct (String.eqb k k0) eqn:E; simpl.
    + now rewrite String.eqb_refl.
    + now rewrite E, IH.
Qed.

Lemma has_true k m : JSMap.has k m = true <-> exists v, JSMap.get k m = Some v.
Proof.
  unfold JSMap.has. destruct (JSMap.get k m) as [v|].
  - split; [intros _; now exists v | reflexivity].
  - split; [discriminate | intros [v H]; discriminate].
Qed.

Lemma get_In k v m : JSMap.get k m = Some v -> In (k, v) m.
Proof.
  induction m as [|[k0 v0] r IH]; simpl; [discriminate|].
  destruct (String.eqb_spec k k0) as [->|Hk].
  - intros [= ->]. now left.
  - intros H. right. now apply IH.
Qed.

Lemma get_Some_size k v m : JSMap.get k m = Some v -> JSMap.size m <> 0.
Proof. destruct m; simpl; [discriminate | intros _; discriminate]. Qed.

Lemma size_0_get k m : JSMap.size m = 0 -> JSMap.get k m = None.
Proof. destruct m; simpl; [reflexivity | discriminate]. Qed.

Lemma size_set_pos k v m : JSMap.size (JSMap.set k v m) <> 0.
Proof. destruct m as [|[k0 v0] r]; simpl; [|destruct (String.eqb k k0)]; discriminate. Qed.

End JSMapFacts.

(* ===================================================================== *)
(** ** Runs of the registry methods *)

#[local] Arguments JSMap.delete : simpl never.
#[local] Arguments JSMap.size : simpl never.
#[local] Arguments createRoom : simpl never.
#[local] Arguments cleanupParticipant : simpl never.
#[local] Arguments addUserToRoom : simpl never.
#[local] Arguments removeUserFromRoom : simpl never.
#[local] Arguments addConsumer : simpl never.
#[local] Arguments indexEntry : simpl never.

Lemma run_bind {A B} (m : Js A) (f : A -> Js B) env s :
  bind m f env s =
  match m env s with
  | (Normal a, s1, t1) =>
      match f a env s1 with (o, s2, t2) => (o, s2, t1 ++ t2) end
  | (Throw e, s1, t1) => (Throw e, s1, t1)
  end.
Proof. reflexivity. Qed.

Lemma createRoom_run env s roomId :
  createRoom roomId env s =
  (Normal (getRoom roomId (afterCreateRoom env roomId s)),
   afterCreateRoom env roomId s,
   [EvRegistry (MCreateRoom roomId)]).
Proof.
  unfold createRoom, afterCreateRoom, getRoom, freshRoom. cbn.
  destruct (JSMap.has roomId (rooms s)); cbn; [now destruct s | reflexivity].
Qed.

Lemma closeQuietly_run env s k id label :
  closeQuietly k id label env s = (Normal tt, s, closeTrace env k label [id]).
Proof.
  unfold closeQuietly, closeTrace. cbn.
  unfold Js_catch, external.
  destruct (handle_close env k id) as [[]|e]; reflexivity.
Qed.

Lemma forOf_close {A} env s k label (f : A -> string) (l : list A) :
  forOf l (fun x => closeQuietly k (f x) label) env s =
  (Normal tt, s, closeTrace env k label (map f l)).
Proof.
  induction l as [|x r IH]; [reflexivity|].
  cbn [forOf map]. rewrite run_bind, closeQuietly_run, IH.
  unfold closeTrace. cbn [flat_map]. now rewrite app_nil_r.
Qed.

Lemma cleanupParticipant_run env s p :
  cleanupParticipant p env s = (Normal (cleared p), s, cleanupTrace env p).
Proof.
  unfold cleanupParticipant, cleanupTrace.
  rewrite run_bind, forOf_close, run_bind, forOf_close, run_bind, forOf_close.
  cbn. now rewrite app_nil_r.
Qed.

Lemma addUserToRoom_run env s roomId userId socketId userInfo :
  addUserToRoom roomId userId socketId userInfo env s =
  (Normal (freshParticipant env userId socketId userInfo),
   afterAddUserToRoom env roomId userId socketId userInfo s,
   [EvRegistry (MAddUserToRoom roomId userId socketId);
    EvRegistry (MCreateRoom roomId)]).
Proof.
  unfold addUserToRoom.
  rewrite run_bind. cbn [tell]. rewrite run_bind, createRoom_run.
  unfold afterCreateRoom, afterAddUserToRoom, getRoom, JSMap.has, freshParticipant.
  destruct (JSMap.get roomId (rooms s)) as [room|] eqn:E; cbn.
  - rewrite E. reflexivity.
  - rewrite get_set_eq. cbn. now rewrite set_set.
Qed.

Lemma removeUserFromRoom_run env s socketId :
  removeUserFromRoom socketId env s =
  (Normal (getUserBySocketId socketId s),
   afterRemoveUserFromRoom socketId s,
   EvRegistry (MRemoveUserFromRoom socketId) :: removeTrace env socketId s).
Proof.
  unfold removeUserFromRoom, afterRemoveUserFromRoom, removeTrace,
    getUserBySocketId, getParticipant.
  rewrite run_bind. cbn [tell]. rewrite run_bind. cbn [getService].
  destruct (JSMap.get socketId (users s)) as [user|] eqn:Eu; [|reflexivity].
  rewrite run_bind.
  destruct (getRoom (u_roomId user) s) as [room|] eqn:Er; [|reflexivity].
  rewrite run_bind.
  destruct (JSMap.get (u_userId user) (room_participants room)) as [p|] eqn:Ep.
  - rewrite run_bind, cleanupParticipant_run. cbn.
    destruct (Nat.eqb _ 0); cbn; rewrite ?delete_set, ?app_nil_r; reflexivity.
  - cbn. destruct (Nat.eqb _ 0); cbn; [reflexivity | now destruct s].
Qed.

Lemma run_Js_bind {A B} (m : Js A) (f : A -> Js B) env s :
  Js_bind m f env s =
  match m env s with
  | (Normal a, s1, t1) =>
      match f a env s1 with (o, s2, t2) => (o, s2, t1 ++ t2) end
  | (Throw e, s1, t1) => (Throw e, s1, t1)
  end.
Proof. reflexivity. Qed.

Lemma addConsumer_run env s roomId userId consumer :
  addConsumer roomId userId consumer env s =
  (Normal tt, afterAddConsumer roomId userId consumer s,
   [EvRegistry (MAddConsumer roomId userId (consumer_id consumer))]).
Proof.
  unfold addConsumer, mutateParticipant, afterAddConsumer.
  rewrite run_bind. cbn [tell]. rewrite run_bind. cbn [getService].
  destruct (getRoom roomId s) as [room|];
    [destruct (JSMap.get userId (room_participants room)) as [p|]|];
    cbn; try reflexivity; now destruct s.
Qed.

(* ===================================================================== *)
(** ** The unit tests of the room service, on the model *)

(** 'should create a room' *)
Example test_create_room :
  outcomeOf (run (createRoom "test-room") quietEnv emptyService)
  = Normal (Some {| room_id := "test-room";
                    room_participants := JSMap.empty;
                    room_createdAt := 7 |}).
Proof. reflexivity. Qed.

(** 'should add user to room' *)
Example test_add_user :
  outcomeOf (run (addUserToRoom "test-room" "test-user" "test-socket" studentInfo)
               quietEnv emptyService)
  = Normal (freshParticipant quietEnv "test-user" "test-socket" studentInfo).
Proof. reflexivity. Qed.

(** 'should remove user from room' *)
Example test_remove_user :
  let r := run (addUserToRoom "test-room" "test-user" "test-socket" studentInfo ;;
                removeUserFromRoom "test-socket") quietEnv emptyService in
  outcomeOf r
  = Normal (Some {| u_userId := "test-user"; u_roomId := "test-room";
                    u_info := studentInfo |})
  /\ getRoom "test-room" (serviceOf r) = None.
Proof. split; reflexivity. Qed.

(** 'should get room participants' *)
Example test_get_participants :
  map p_userId
    (getRoomParticipants "test-room"
       (serviceOf
          (run (addUserToRoom "test-room" "user1" "socket1" studentInfo ;;
                addUserToRoom "test-room" "user2" "socket2" teacherInfo)
             quietEnv emptyService)))
  = ["user1"; "user2"].
Proof. reflexivity. Qed.

(** A teacher creates r1, a student joins and drops: r1 stays, with the
    teacher; the teacher leaves: r1 is gone. *)
Example session_disconnect_then_leave :
  let s1 := Signaling.serve
              [(quietEnv, teacherSocket,
                Signaling.ReqCreateRoom (Some "r1") Signaling.AckFunction);
               (quietEnv, studentSocket,
                Signaling.ReqJoinRoom (Some "r1") Signaling.AckFunction);
               (quietEnv, studentSocket, Signaling.ReqDisconnect)]
              emptyService in
  map p_userId (getRoomParticipants "r1" s1) = ["t1"]
  /\ emits (traceOf (run (Signaling.on_disconnect studentSocket) quietEnv
                       (Signaling.serve
                          [(quietEnv, teacherSocket,
                            Signaling.ReqCreateRoom (Some "r1") Signaling.AckFunction);
                           (quietEnv, studentSocket,
                            Signaling.ReqJoinRoom (Some "r1") Signaling.AckFunction)]
                          emptyService)))
     = [(SocketTo "r1", UserLeft "u1" "Bob" "student")]
  /\ Signaling.serve
       [(quietEnv, teacherSocket, Signaling.ReqLeaveRoom Signaling.AckFunction)] s1
     = emptyService.
Proof. repeat split. Qed.

(** Symbolic evaluation of a handler body, one monadic step at a time. *)
#[local] Arguments String.append : simpl never.
#[local] Arguments textMissing : simpl never.
#[local] Arguments trim : simpl never.
#[local] Arguments toString : simpl never.

Ltac js_eval :=
  repeat (cbn;
          first [ rewrite run_Js_bind
                | rewrite createRoom_run
                | rewrite addUserToRoom_run
                | rewrite removeUserFromRoom_run
                | progress unfold Js_catch ]);
  cbn.

(* ===================================================================== *)
(** ** Rooms after [addUserToRoom] and [removeUserFromRoom] *)

Lemma getRoom_afterCreate_other env s roomId roomId' :
  roomId' <> roomId ->
  getRoom roomId' (afterCreateRoom env roomId s) = getRoom roomId' s.
Proof.
  intros Hne. unfold afterCreateRoom, getRoom.
  destruct (JSMap.has roomId (rooms s)); cbn; [reflexivity|].
  now apply get_set_ne.
Qed.

Lemma getRoom_afterCreate_same env s roomId :
  exists room, getRoom roomId (afterCreateRoom env roomId s) = Some room.
Proof.
  unfold afterCreateRoom, getRoom, JSMap.has.
  destruct (JSMap.get roomId (rooms s)) as [room|] eqn:E; cbn.
  - now exists room.
  - rewrite get_set_eq. now eexists.
Qed.

Lemma getRoom_afterAdd_same env s roomId userId socketId userInfo :
  exists room,
    getRoom roomId (afterAddUserToRoom env roomId userId socketId userInfo s)
    = Some room
    /\ JSMap.get userId (room_participants room)
       = Some (freshParticipant env userId socketId userInfo)
    /\ forall userId',
         userId' <> userId ->
         JSMap.get userId' (room_participants room)
         = match getRoom roomId s with
           | Some old => JSMap.get userId' (room_participants old)
           | None => None
           end.
Proof.
  unfold afterAddUserToRoom, getRoom. cbn. rewrite get_set_eq.
  eexists. split; [reflexivity|]. cbn. split; [apply get_set_eq|].
  intros userId' Hne. rewrite get_set_ne by assumption.
  now destruct (JSMap.get roomId (rooms s)).
Qed.

Lemma getRoom_afterAdd_other env s roomId userId socketId userInfo roomId' :
  roomId' <> roomId ->
  getRoom roomId' (afterAddUserToRoom env roomId userId socketId userInfo s)
  = getRoom roomId' s.
Proof. intros Hne. unfold afterAddUserToRoom, getRoom. cbn. now apply get_set_ne. Qed.

Lemma getRoom_afterRemove_other s socketId user roomId' :
  getUserBySocketId socketId s = Some user ->
  roomId' <> u_roomId user ->
  getRoom roomId' (afterRemoveUserFromRoom socketId s) = getRoom roomId' s.
Proof.
  unfold getUserBySocketId, afterRemoveUserFromRoom. intros -> Hne.
  unfold getRoom at 1. cbn.
  destruct (getRoom (u_roomId user) s) as [room|]; [|reflexivity].
  destruct (JSMap.get (u_userId user) (room_participants room));
    destruct (Nat.eqb _ 0); unfold getRoom;
    rewrite ?get_delete_ne, ?get_set_ne by assumption; reflexivity.
Qed.

(** The room a connection leaves is afterwards gone, or is the same room
    object without the participant and with somebody left. *)
Lemma getRoom_afterRemove_same s socketId user :
  getUserBySocketId socketId s = Some user ->
  match getRoom (u_roomId user) (afterRemoveUserFromRoom socketId s) with
  | None => True
  | Some room' =>
      JSMap.size (room_participants room') <> 0 /\
      exists room,
        getRoom (u_roomId user) s = Some room /\
        room_participants room'
        = JSMap.delete (u_userId user) (room_participants room)
  end.
Proof.
  unfold getUserBySocketId, afterRemoveUserFromRoom. intros ->.
  unfold getRoom at 1. cbn.
  destruct (getRoom (u_roomId user) s) as [room|] eqn:Er.
  - destruct (JSMap.get (u_userId user) (room_participants room)) eqn:Ep.
    + destruct (Nat.eqb_spec
        (JSMap.size (JSMap.delete (u_userId user) (room_participants room))) 0)
        as [Hz|Hz].
      * now rewrite get_delete_eq.
      * rewrite get_set_eq. cbn. split; [exact Hz|]. now exists room.
    + destruct (Nat.eqb_spec (JSMap.size (room_participants room)) 0) as [Hz|Hz].
      * now rewrite get_delete_eq.
      * unfold getRoom in Er. rewrite Er. split; [exact Hz|].
        exists room. split; [reflexivity|].
        symmetry. now apply delete_absent.
  - unfold getRoom in Er. now rewrite Er.
Qed.

(* ===================================================================== *)
(** ** No room without participants *)

Lemma noEmptyRoom_afterAdd_gen env s roomId userId socketId userInfo :
  (forall roomId' room,
     roomId' <> roomId -> getRoom roomId' s = Some room ->
     JSMap.size (room_participants room) <> 0) ->
  noEmptyRoom (afterAddUserToRoom env roomId userId socketId userInfo s).
Proof.
  intros H roomId' room' Hget.
  destruct (String.eqb_spec roomId' roomId) as [->|Hne].
  - destruct (getRoom_afterAdd_same env s roomId userId socketId userInfo)
      as (room & Hroom & Hp & _).
    rewrite Hroom in Hget. injection Hget as <-.
    eapply get_Some_size, Hp.
  - rewrite getRoom_afterAdd_other in Hget by assumption. eauto.
Qed.

Lemma noEmptyRoom_afterAdd env s roomId userId socketId userInfo :
  noEmptyRoom s ->
  noEmptyRoom (afterAddUserToRoom env roomId userId socketId userInfo s).
Proof. intros H. apply noEmptyRoom_afterAdd_gen. intros ? ? _. apply H. Qed.

Lemma noEmptyRoom_afterCreate_afterAdd env env' s roomId userId socketId userInfo :
  noEmptyRoom s ->
  noEmptyRoom (afterAddUserToRoom env roomId userId socketId userInfo
                 (afterCreateRoom env' roomId s)).
Proof.
  intros H. apply noEmptyRoom_afterAdd_gen. intros roomId' room Hne Hget.
  rewrite getRoom_afterCreate_other in Hget by assumption. eauto.
Qed.

Lemma noEmptyRoom_afterRemove s socketId :
  noEmptyRoom s -> noEmptyRoom (afterRemoveUserFromRoom socketId s).
Proof.
  intros H roomId room' Hget.
  destruct (getUserBySocketId socketId s) as [user|] eqn:Eu.
  - destruct (String.eqb_spec roomId (u_roomId user)) as [->|Hne].
    + pose proof (getRoom_afterRemove_same s socketId Eu) as Hs.
      rewrite Hget in Hs. apply Hs.
    + rewrite (getRoom_afterRemove_other s socketId Eu) in Hget by assumption.
      eauto.
  - unfold afterRemoveUserFromRoom in Hget. unfold getUserBySocketId in Eu.
    rewrite Eu in Hget. eauto.
Qed.

Lemma noEmptyRoom_afterAddConsumer s roomId userId consumer :
  noEmptyRoom s -> noEmptyRoom (afterAddConsumer roomId userId consumer s).
Proof.
  intros H. unfold afterAddConsumer.
  destruct (getRoom roomId s) as [room|] eqn:Er; [|exact H].
  destruct (JSMap.get userId (room_participants room)) as [p|] eqn:Ep; [|exact H].
  intros roomId' room' Hget. unfold getRoom in Hget. cbn in Hget.
  destruct (String.eqb_spec roomId' roomId) as [->|Hne].
  - rewrite get_set_eq in Hget. injection Hget as <-. cbn. apply size_set_pos.
  - rewrite get_set_ne in Hget by assumption. eauto.
Qed.

Lemma noEmptyRoom_emptyService : noEmptyRoom emptyService.
Proof. intros roomId room H. discriminate H. Qed.

Lemma perform_service env op s :
  serviceOf (run (perform op) env s) =
  match op with
  | CreateRoom roomId => afterCreateRoom env roomId s
  | AddUserToRoom roomId userId socketId userInfo =>
      afterAddUserToRoom env roomId userId socketId userInfo s
  | RemoveUserFromRoom socketId => afterRemoveUserFromRoom socketId s
  end.
Proof.
  unfold run. destruct op; cbn [perform]; rewrite run_bind.
  - now rewrite createRoom_run.
  - now rewrite addUserToRoom_run.
  - now rewrite removeUserFromRoom_run.
Qed.

(* ===================================================================== *)
(** ** The registry after each handler *)

Import Signaling.

Lemma on_createRoom_service env s socket data cb :
  let s' := serviceOf (run (on_createRoom socket data cb) env s) in
  s' = s \/
  exists roomId,
    data = Some roomId /\
    s' = afterAddUserToRoom env roomId (uid (socket_user socket))
           (socket_id socket) (socket_user socket)
           (afterCreateRoom env roomId s).
Proof.
  unfold run, on_createRoom.
  destruct cb as [|truthy];
    (destruct data as [roomId|]; js_eval; [|now left];
     destruct (String.eqb (role (socket_user socket)) "teacher"); js_eval;
       [|now left];
     destruct (schedule_canUserAccessRoom env _ _ _); js_eval; [|now left];
     right; exists roomId; split; [reflexivity|];
     destruct (mediasoup_getRouterRtpCapabilities env); reflexivity).
Qed.

Lemma on_joinRoom_service env s socket data cb :
  let s' := serviceOf (run (on_joinRoom socket data cb) env s) in
  s' = s \/
  exists roomId,
    data = Some roomId /\
    roomExists roomId s = true /\
    s' = afterAddUserToRoom env roomId (uid (socket_user socket))
           (socket_id socket) (socket_user socket) s.
Proof.
  unfold run, on_joinRoom.
  destruct cb as [|truthy];
    (destruct data as [roomId|]; js_eval; [|now left];
     destruct (schedule_canUserAccessRoom env _ _ _); js_eval; [|now left];
     destruct (roomExists roomId s) eqn:Ex; js_eval; [|now left];
     right; exists roomId; split; [reflexivity|]; split; [exact Ex|];
     destruct (mediasoup_getRouterRtpCapabilities env); reflexivity).
Qed.

Lemma on_leaveRoom_service env s socket cb :
  serviceOf (run (on_leaveRoom socket cb) env s)
  = afterRemoveUserFromRoom (socket_id socket) s.
Proof.
  unfold run, on_leaveRoom. js_eval.
  destruct (getUserBySocketId (socket_id socket) s); js_eval; [|reflexivity].
  now destruct cb as [|[|]].
Qed.

Lemma on_disconnect_service env s socket :
  serviceOf (run (on_disconnect socket) env s)
  = afterRemoveUserFromRoom (socket_id socket) s.
Proof.
  unfold run, on_disconnect. js_eval.
  now destruct (getUserBySocketId (socket_id socket) s).
Qed.

Lemma on_consume_service env s socket data cb :
  let s' := serviceOf (run (on_consume socket data cb) env s) in
  s' = s \/
  exists d user consumer,
    data = Some d /\
    router_canConsume env (cd_producerId d) (cd_rtpCapabilities d) = Normal true /\
    s' = afterAddConsumer (u_roomId user) (u_userId user) consumer s.
Proof.
  unfold run, on_consume.
  destruct cb as [|truthy];
    (destruct data as [d|]; js_eval; [|now left];
     destruct (getUserBySocketId (socket_id socket) s) as [user|]; js_eval;
       [|now left];
     destruct (getTransport _ _ _ s) as [transport|]; js_eval; [|now left];
     unfold getRouter, external;
     destruct (mediasoup_getRouter env) as [[]|e]; js_eval; [|now left];
     unfold canConsume, external;
     destruct (router_canConsume env _ _) as [[|]|e] eqn:Ec; js_eval;
       [|now left|now left];
     unfold transportConsume, external;
     destruct (transport_consume env _ _ _) as [consumer|e]; js_eval; [|now left];
     rewrite addConsumer_run; js_eval;
     right; now exists d, user, consumer).
Qed.

Lemma on_chat_message_service env s socket data cb :
  serviceOf (run (on_chat_message socket data cb) env s) = s.
Proof.
  unfold run, on_chat_message.
  destruct cb as [|truthy];
    (destruct data as [text|]; js_eval; [|reflexivity];
     destruct (getUserBySocketId (socket_id socket) s) as [user|]; js_eval;
       [|reflexivity];
     destruct (textMissing text); js_eval; [reflexivity|];
     unfold getScheduleByRoomId, external;
     destruct (schedule_getScheduleByRoomId env _) as [sch|e]; js_eval;
       [|reflexivity];
     unfold messagesAdd, external;
     now destruct (messages_add env _ _) as [[]|e]).
Qed.

Lemma noEmptyRoom_handle env s socket req :
  noEmptyRoom s -> noEmptyRoom (serviceOf (run (handle socket req) env s)).
Proof.
  intros H. destruct req as [data cb|data cb|data cb|data cb|cb|]; cbn [handle].
  - destruct (on_createRoom_service env s socket data cb) as [->|(r & _ & ->)];
      [exact H | now apply noEmptyRoom_afterCreate_afterAdd].
  - destruct (on_joinRoom_service env s socket data cb) as [->|(r & _ & _ & ->)];
      [exact H | now apply noEmptyRoom_afterAdd].
  - destruct (on_consume_service env s socket data cb)
      as [->|(d & u & c & _ & _ & ->)];
      [exact H | now apply noEmptyRoom_afterAddConsumer].
  - now rewrite on_chat_message_service.
  - rewrite on_leaveRoom_service. now apply noEmptyRoom_afterRemove.
  - rewrite on_disconnect_service. now apply noEmptyRoom_afterRemove.
Qed.

Lemma noEmptyRoom_performAll ops s :
  forallb (fun eo : Env * Op => isAddOrRemove (snd eo)) ops = true ->
  noEmptyRoom s -> noEmptyRoom (performAll ops s).
Proof.
  revert s. induction ops as [|[env op] ops IH]; intros s Hops Hs; [exact Hs|].
  cbn in Hops. apply andb_prop in Hops as [Hop Hops].
  cbn. apply IH; [exact Hops|]. rewrite perform_service.
  destruct op as [r|r u k i|k]; [discriminate Hop| |].
  - now apply noEmptyRoom_afterAdd.
  - now apply noEmptyRoom_afterRemove.
Qed.

Lemma noEmptyRoom_serve reqs s :
  noEmptyRoom s -> noEmptyRoom (serve reqs s).
Proof.
  revert s. induction reqs as [|[[env socket] req] reqs IH]; intros s Hs;
    [exact Hs|].
  cbn. apply IH. now apply noEmptyRoom_handle.
Qed.

Lemma removeUserFromRoom_last env s socketId user room participant :
  getUserBySocketId socketId s = Some user ->
  getRoom (u_roomId user) s = Some room ->
  JSMap.get (u_userId user) (room_participants room) = Some participant ->
  JSMap.size (room_participants room) = 1 ->
  getRoom (u_roomId user) (serviceOf (run (removeUserFromRoom socketId) env s))
  = None.
Proof.
  intros Hu Hr Hp Hsize. unfold run. rewrite removeUserFromRoom_run.
  pose proof (getRoom_afterRemove_same s socketId Hu) as Hs.
  cbn [serviceOf fst snd].
  destruct (getRoom (u_roomId user) (afterRemoveUserFromRoom socketId s))
    as [room'|]; [|reflexivity].
  destruct Hs as (Hne & room0 & Hr0 & Hps). exfalso. apply Hne.
  rewrite Hr in Hr0. injection Hr0 as <-. rewrite Hps.
  destruct (room_participants room) as [|[k p] [|]]; try discriminate Hsize.
  cbn in Hp. unfold JSMap.delete. cbn.
  destruct (String.eqb (u_userId user) k); [reflexivity | discriminate Hp].
Qed.

(** C1, as stated, fails: when the registry method [createRoom] completes on
    a registry that has no room r1, a room with zero participants is in
    the registry. *)
Lemma createRoom_leaves_empty_room :
  ~ noEmptyRoom (serviceOf (run (createRoom "r1") quietEnv emptyService)).
Proof.
  intros H.
  apply (H "r1" (freshRoom quietEnv "r1")); reflexivity.
Qed.

(** C1 (amended): a room exists in the registry after every [addUserToRoom]
    into it, that is after every successful create or join; after a
    [removeUserFromRoom] that removes the last participant of a room,
    [getRoom] returns absent for it; and no room with zero participants is in
    the registry after any [addUserToRoom] or [removeUserFromRoom], nor
    after any handled request, completes. *)
Theorem room_lifecycle :
  (forall env s roomId userId socketId userInfo,
     let s' := serviceOf (run (addUserToRoom roomId userId socketId userInfo) env s) in
     roomExists roomId s' = true /\
     getParticipant roomId userId s'
     = Some (freshParticipant env userId socketId userInfo))
  /\
  (forall env s socket roomId cb caps,
     In (EvAck (AckCreated roomId caps))
        (traceOf (run (on_createRoom socket (Some roomId) cb) env s)) ->
     roomExists roomId
       (serviceOf (run (on_createRoom socket (Some roomId) cb) env s))
     = true)
  /\
  (forall env s socket roomId cb caps producers,
     In (EvAck (AckJoined roomId caps producers))
        (traceOf (run (on_joinRoom socket (Some roomId) cb) env s)) ->
     roomExists roomId
       (serviceOf (run (on_joinRoom socket (Some roomId) cb) env s))
     = true)
  /\
  (forall env s socketId user room participant,
     getUserBySocketId socketId s = Some user ->
     getRoom (u_roomId user) s = Some room ->
     JSMap.get (u_userId user) (room_participants room) = Some participant ->
     JSMap.size (room_participants room) = 1 ->
     getRoom (u_roomId user)
       (serviceOf (run (removeUserFromRoom socketId) env s)) = None)
  /\
  (forall ops s,
     forallb (fun eo : Env * Op => isAddOrRemove (snd eo)) ops = true ->
     noEmptyRoom s -> noEmptyRoom (performAll ops s))
  /\
  (forall reqs s, noEmptyRoom s -> noEmptyRoom (serve reqs s)).
Proof.
  assert (Hadd : forall env s roomId userId socketId userInfo,
             roomExists roomId
               (afterAddUserToRoom env roomId userId socketId userInfo s) = true).
  { intros. unfold roomExists. fold (getRoom roomId
      (afterAddUserToRoom env roomId userId socketId userInfo s)).
    apply has_true.
    destruct (getRoom_afterAdd_same env s roomId userId socketId userInfo)
      as (room & Hroom & _). now exists room. }
  repeat split.
  - unfold run. rewrite addUserToRoom_run. apply Hadd.
  - unfold run. rewrite addUserToRoom_run. cbn [serviceOf fst snd].
    unfold getParticipant.
    destruct (getRoom_afterAdd_same env s roomId userId socketId userInfo)
      as (room & -> & Hp & _). exact Hp.
  - intros env s socket roomId cb caps. unfold run, on_createRoom.
    destruct cb as [|truthy]; js_eval;
      (destruct (String.eqb (role (socket_user socket)) "teacher"); js_eval;
       [destruct (schedule_canUserAccessRoom env _ _ _); js_eval;
        [intros _; destruct (mediasoup_getRouterRtpCapabilities env); apply Hadd
        |intros H; cbn in H; intuition discriminate]
       |intros H; cbn in H; intuition discriminate]).
  - intros env s socket roomId cb caps producers. unfold run, on_joinRoom.
    destruct cb as [|truthy]; js_eval;
      (destruct (schedule_canUserAccessRoom env _ _ _); js_eval;
       [destruct (roomExists roomId s) eqn:Ex; js_eval;
        [intros _; destruct (mediasoup_getRouterRtpCapabilities env); apply Hadd
        |intros H; cbn in H; intuition discriminate]
       |intros H; cbn in H; intuition discriminate]).
  - intros. eapply removeUserFromRoom_last; eassumption.
  - apply noEmptyRoom_performAll.
  - apply noEmptyRoom_serve.
Qed.

Lemma room_lifecycle_witness :
  (getUserBySocketId "s1" oneTeacher
   = Some {| u_userId := "t1"; u_roomId := "r1"; u_info := teacherInfo |}
   /\ getRoom "r1" (serviceOf (run (removeUserFromRoom "s1") quietEnv oneTeacher))
      = None)
  /\ noEmptyRoom (performAll sampleOps emptyService)
  /\ noEmptyRoom (serve sampleSession emptyService).
Proof.
  split; [split; [reflexivity|]|split].
  - exact (proj1 (proj2 (proj2 (proj2 room_lifecycle)))
             quietEnv oneTeacher "s1" _ _ _ eq_refl eq_refl eq_refl eq_refl).
  - exact (proj1 (proj2 (proj2 (proj2 (proj2 room_lifecycle))))
             sampleOps emptyService eq_refl noEmptyRoom_emptyService).
  - exact (proj2 (proj2 (proj2 (proj2 (proj2 room_lifecycle))))
             sampleSession emptyService noEmptyRoom_emptyService).
Defined.

(* ===================================================================== *)
(** ** Cleanup of a participant *)

Lemma closes_app t1 t2 : closes (t1 ++ t2) = closes t1 ++ closes t2.
Proof. unfold closes. apply flat_map_app. Qed.

Lemma closes_closeTrace env k label ids :
  closes (closeTrace env k label ids) = map (pair k) ids.
Proof.
  induction ids as [|id r IH]; [reflexivity|].
  unfold closeTrace in *. cbn [flat_map map].
  rewrite closes_app, IH.
  now destruct (handle_close env k id).
Qed.

Lemma closeTrace_In_close env k label ids k' id :
  In (EvClose k' id) (closeTrace env k label ids) -> k' = k /\ In id ids.
Proof.
  induction ids as [|id0 r IH]; cbn; [contradiction|].
  intros [H|H].
  - injection H as <- <-. split; [reflexivity | now left].
  - apply in_app_or in H as [H|H].
    + destruct (handle_close env k id0); cbn in H; intuition discriminate.
    + destruct (IH H) as [-> Hin]. split; [reflexivity | now right].
Qed.

Lemma closeTrace_logged env k label ids id e :
  In id ids -> handle_close env k id = Throw e ->
  In (EvConsole LError label (Some e)) (closeTrace env k label ids).
Proof.
  intros Hin Hthrow. induction ids as [|id0 r IH]; [contradiction|].
  cbn. right. apply in_or_app. destruct Hin as [->|Hin].
  - left. rewrite Hthrow. now left.
  - right. now apply IH.
Qed.

(** C3: [cleanupParticipant] calls [close] on every consumer, then on every
    producer, then on every transport of the participant; a [close] that
    throws is caught and logged and the loop goes on; the call returns
    normally, with the three maps of the participant empty. *)
Theorem cleanup_contract env s participant :
  let r := run (cleanupParticipant participant) env s in
  (exists p',
      outcomeOf r = Normal p' /\
      p_consumers p' = JSMap.empty /\
      p_producers p' = JSMap.empty /\
      p_transports p' = JSMap.empty)
  /\ closes (traceOf r) = handlesOf participant
  /\ (forall k id e,
        In (EvClose k id) (traceOf r) ->
        handle_close env k id = Throw e ->
        In (EvConsole LError (closeLabel k) (Some e)) (traceOf r))
  /\ serviceOf r = s.
Proof.
  unfold run. rewrite cleanupParticipant_run. cbn [outcomeOf serviceOf traceOf fst snd].
  split; [now exists (cleared participant)|]. split; [|split; [|reflexivity]].
  - unfold cleanupTrace, handlesOf.
    rewrite !closes_app, !closes_closeTrace, !map_map. reflexivity.
  - intros k id e Hin Hthrow. unfold cleanupTrace in *.
    apply in_app_or in Hin as [Hin|Hin]; [|apply in_app_or in Hin as [Hin|Hin]];
      apply closeTrace_In_close in Hin as [-> Hin]; cbn [closeLabel].
    + apply in_or_app. left. eapply closeTrace_logged; eassumption.
    + apply in_or_app. right. apply in_or_app. left. eapply closeTrace_logged; eassumption.
    + apply in_or_app. right. apply in_or_app. right. eapply closeTrace_logged; eassumption.
Qed.

(* ===================================================================== *)
(** ** Removal of a connection that is not in the index *)

Lemma getUser_afterRemove s socketId :
  getUserBySocketId socketId (afterRemoveUserFromRoom socketId s) = None.
Proof.
  unfold afterRemoveUserFromRoom, getUserBySocketId.
  destruct (JSMap.get socketId (users s)) eqn:E; [|exact E].
  cbn. apply get_delete_eq.
Qed.

Lemma afterRemove_absent s socketId :
  getUserBySocketId socketId s = None -> afterRemoveUserFromRoom socketId s = s.
Proof.
  unfold afterRemoveUserFromRoom, getUserBySocketId. now intros ->.
Qed.

(** C5: once [removeUserFromRoom] has run for a socket id, the connection
    index has no entry for it; and for a socket id without entry,
    [removeUserFromRoom] returns null and leaves the registry as it is, and
    the leaveRoom handler, whatever its callback, and the disconnect handler
    end normally having emitted nothing, acknowledged nothing and logged
    nothing. *)
Theorem double_removal_is_silent :
  (forall env s socketId,
     getUserBySocketId socketId
       (serviceOf (run (removeUserFromRoom socketId) env s)) = None)
  /\
  (forall env s socket,
     getUserBySocketId (socket_id socket) s = None ->
     run (removeUserFromRoom (socket_id socket)) env s
     = (Normal None, s, [EvRegistry (MRemoveUserFromRoom (socket_id socket))])
     /\ (forall cb,
           run (on_leaveRoom socket cb) env s
           = (Normal tt, s, [EvRegistry (MRemoveUserFromRoom (socket_id socket))]))
     /\ run (on_disconnect socket) env s
        = (Normal tt, s, [EvRegistry (MRemoveUserFromRoom (socket_id socket))])).
Proof.
  split.
  - intros. unfold run. rewrite removeUserFromRoom_run. apply getUser_afterRemove.
  - intros env s socket Habsent.
    assert (Hrun : removeUserFromRoom (socket_id socket) env s
                   = (Normal None, s,
                      [EvRegistry (MRemoveUserFromRoom (socket_id socket))])).
    { rewrite removeUserFromRoom_run, afterRemove_absent, Habsent by assumption.
      unfold removeTrace. unfold getUserBySocketId in Habsent.
      now rewrite Habsent. }
    split; [exact Hrun|]. split; [intros cb|].
    + unfold run, on_leaveRoom. cbn. unfold Js_catch.
      rewrite run_Js_bind, Hrun. reflexivity.
    + unfold run, on_disconnect. cbn. unfold Js_catch.
      rewrite run_Js_bind, Hrun. reflexivity.
Qed.

Lemma double_removal_is_silent_witness :
  getUserBySocketId "s1"
    (serviceOf (run (on_leaveRoom teacherSocket AckFunction) quietEnv oneTeacher))
  = None
  /\ run (on_leaveRoom teacherSocket AckFunction) quietEnv
       (serviceOf (run (on_leaveRoom teacherSocket AckFunction) quietEnv oneTeacher))
     = (Normal tt,
        serviceOf (run (on_leaveRoom teacherSocket AckFunction) quietEnv oneTeacher),
        [EvRegistry (MRemoveUserFromRoom "s1")]).
Proof.
  split; [reflexivity|].
  exact (proj1 (proj2 (proj2 double_removal_is_silent quietEnv
           (serviceOf (run (on_leaveRoom teacherSocket AckFunction) quietEnv
                         oneTeacher))
           teacherSocket eq_refl)) AckFunction).
Defined.

(* ===================================================================== *)
(** ** The producers a participant may consume *)

Lemma get_In_values {V} k (v : V) m :
  JSMap.get k m = Some v -> In v (JSMap.values m).
Proof.
  intros H. apply get_In in H. unfold JSMap.values.
  change v with (snd (k, v)). now apply in_map.
Qed.

Lemma differs_true_iff userId x : differs userId (Some x) = true <-> userId <> x.
Proof.
  cbn. destruct (String.eqb_spec userId x); cbn; split; intros; congruence.
Qed.

(** C6: in a room of the registry, [getRoomProducers(roomId, X)] holds no
    entry whose owner is X; it holds, for every producer of every participant
    of the room other than X, the entry made of the producer's id and kind
    and of the owner's id, name and role; and it holds nothing else. *)
Theorem producers_exclude_requester s roomId room X :
  getRoom roomId s = Some room ->
  (forall info, In info (getRoomProducers roomId (Some X) s) -> pi_userId info <> X)
  /\
  (forall userId participant producerId producer,
     JSMap.get userId (room_participants room) = Some participant ->
     userId <> X ->
     JSMap.get producerId (p_producers participant) = Some producer ->
     In {| pi_id := producer_id producer;
           pi_kind := producer_kind producer;
           pi_userId := userId;
           pi_userName := p_name participant;
           pi_userRole := p_role participant |}
        (getRoomProducers roomId (Some X) s))
  /\
  (forall info,
     In info (getRoomProducers roomId (Some X) s) ->
     exists participant producer,
       In (pi_userId info, participant) (JSMap.entries (room_participants room)) /\
       In producer (JSMap.values (p_producers participant)) /\
       info = {| pi_id := producer_id producer;
                 pi_kind := producer_kind producer;
                 pi_userId := pi_userId info;
                 pi_userName := p_name participant;
                 pi_userRole := p_role participant |}).
Proof.
  intros Hroom. unfold getRoomProducers. rewrite Hroom.
  assert (Hall : forall info,
             In info
               (flat_map
                  (fun entry : string * Participant =>
                     let (userId, participant) := entry in
                     if differs userId (Some X)
                     then map (fun producer =>
                                 {| pi_id := producer_id producer;
                                    pi_kind := producer_kind producer;
                                    pi_userId := userId;
                                    pi_userName := p_name participant;
                                    pi_userRole := p_role participant |})
                              (JSMap.values (p_producers participant))
                     else [])
                  (JSMap.entries (room_participants room))) ->
             pi_userId info <> X /\
             exists participant producer,
               In (pi_userId info, participant)
                  (JSMap.entries (room_participants room)) /\
               In producer (JSMap.values (p_producers participant)) /\
               info = {| pi_id := producer_id producer;
                         pi_kind := producer_kind producer;
                         pi_userId := pi_userId info;
                         pi_userName := p_name participant;
                         pi_userRole := p_role participant |}).
  { intros info Hin. apply in_flat_map in Hin as ([userId participant] & He & Hin).
    destruct (differs userId (Some X)) eqn:Hd; [|contradiction].
    apply in_map_iff in Hin as (producer & <- & Hp). cbn.
    split; [now apply differs_true_iff|]. now exists participant, producer. }
  split; [|split].
  - intros info Hin. now apply Hall.
  - intros userId participant producerId producer Hp Hne Hprod.
    apply in_flat_map. exists (userId, participant).
    split; [now apply get_In|].
    rewrite (proj2 (differs_true_iff userId X) Hne).
    apply in_map_iff. exists producer. split; [reflexivity|].
    eapply get_In_values, Hprod.
  - intros info Hin. now apply Hall.
Qed.

Lemma producers_exclude_requester_witness :
  (exists room, getRoom "r1" classroom = Some room)
  /\ getRoomProducers "r1" (Some "u1") classroom
     = [{| pi_id := "p1"; pi_kind := "video"; pi_userId := "t1";
           pi_userName := "Ada"; pi_userRole := "teacher" |}]
  /\ forall info,
       In info (getRoomProducers "r1" (Some "t1") classroom) ->
       pi_userId info <> "t1".
Proof.
  split; [eexists; reflexivity|]. split; [reflexivity|].
  eapply (producers_exclude_requester classroom "r1"). reflexivity.
Defined.

(* ===================================================================== *)
(** ** A second join of the same participant *)

(** C8: when the room already holds a participant with id P,
    [addUserToRoom] for P stores a fresh participant object in its place,
    with the new socket id and empty transports, producers and consumers,
    and calls [close] on no handle of the replaced object: the call records
    its own two method calls and nothing else. *)
Theorem duplicate_join_overwrites env s roomId P socketId userInfo old :
  getParticipant roomId P s = Some old ->
  let r := run (addUserToRoom roomId P socketId userInfo) env s in
  exists fresh,
    outcomeOf r = Normal fresh
    /\ getParticipant roomId P (serviceOf r) = Some fresh
    /\ p_socketId fresh = socketId
    /\ p_transports fresh = JSMap.empty
    /\ p_producers fresh = JSMap.empty
    /\ p_consumers fresh = JSMap.empty
    /\ (forall k id, In (k, id) (handlesOf old) -> ~ In (EvClose k id) (traceOf r))
    /\ closes (traceOf r) = []
    /\ traceOf r = [EvRegistry (MAddUserToRoom roomId P socketId);
                    EvRegistry (MCreateRoom roomId)].
Proof.
  intros _. unfold run. rewrite addUserToRoom_run.
  exists (freshParticipant env P socketId userInfo).
  cbn [outcomeOf serviceOf traceOf fst snd].
  repeat split.
  - unfold getParticipant.
    destruct (getRoom_afterAdd_same env s roomId P socketId userInfo)
      as (room & -> & Hp & _). exact Hp.
  - intros k id _ [H|[H|[]]]; discriminate H.
Qed.

Lemma duplicate_join_overwrites_witness :
  getTransport "r1" "t1" "tr1" classroom = Some {| transport_id := "tr1" |}
  /\ exists fresh,
       getParticipant "r1" "t1"
         (serviceOf (run (addUserToRoom "r1" "t1" "s9" teacherInfo) quietEnv classroom))
       = Some fresh
       /\ p_socketId fresh = "s9"
       /\ p_transports fresh = JSMap.empty
       /\ closes (traceOf (run (addUserToRoom "r1" "t1" "s9" teacherInfo)
                             quietEnv classroom)) = [].
Proof.
  split; [reflexivity|].
  destruct (duplicate_join_overwrites quietEnv classroom "r1" "t1" "s9" teacherInfo
              (old := {| p_userId := "t1"; p_socketId := "s1"; p_name := "Ada";
                         p_role := "teacher"; p_joinedAt := 7;
                         p_transports := [("tr1", {| transport_id := "tr1" |})];
                         p_producers := [("p1", {| producer_id := "p1";
                                                   producer_kind := "video" |})];
                         p_consumers := [];
                         p_rtpCapabilities := None |})
              eq_refl)
    as (fresh & _ & Hget & Hsock & Htr & _ & _ & _ & Hcl & _).
  exists fresh. repeat split; assumption.
Defined.

(* ===================================================================== *)
(** ** The connection index and the rooms *)

Lemma getUser_afterAdd env s roomId userId socketId userInfo socketId' :
  getUserBySocketId socketId'
    (afterAddUserToRoom env roomId userId socketId userInfo s)
  = if String.eqb socketId' socketId
    then Some (indexEntry roomId userId userInfo)
    else getUserBySocketId socketId' s.
Proof.
  unfold getUserBySocketId, afterAddUserToRoom. cbn.
  destruct (String.eqb_spec socketId' socketId) as [->|Hne].
  - apply get_set_eq.
  - now apply get_set_ne.
Qed.

Lemma getParticipant_afterAdd env s roomId userId socketId userInfo roomId' userId' :
  getParticipant roomId' userId'
    (afterAddUserToRoom env roomId userId socketId userInfo s)
  = if String.eqb roomId' roomId && String.eqb userId' userId
    then Some (freshParticipant env userId socketId userInfo)
    else getParticipant roomId' userId' s.
Proof.
  unfold getParticipant.
  destruct (String.eqb_spec roomId' roomId) as [->|Hr]; cbn [andb].
  - destruct (getRoom_afterAdd_same env s roomId userId socketId userInfo)
      as (room & -> & Hp & Hother).
    destruct (String.eqb_spec userId' userId) as [->|Hu]; [exact Hp|].
    now apply Hother.
  - now rewrite getRoom_afterAdd_other.
Qed.

Lemma getUser_afterRemove_other s socketId socketId' :
  socketId' <> socketId ->
  getUserBySocketId socketId' (afterRemoveUserFromRoom socketId s)
  = getUserBySocketId socketId' s.
Proof.
  intros Hne. unfold afterRemoveUserFromRoom, getUserBySocketId.
  destruct (JSMap.get socketId (users s)); [|reflexivity].
  cbn. now apply get_delete_ne.
Qed.

Lemma getParticipant_afterRemove s socketId user roomId' userId' :
  getUserBySocketId socketId s = Some user ->
  getParticipant roomId' userId' (afterRemoveUserFromRoom socketId s)
  = if String.eqb roomId' (u_roomId user) && String.eqb userId' (u_userId user)
    then None
    else getParticipant roomId' userId' s.
Proof.
  intros Hu. unfold getParticipant.
  destruct (String.eqb_spec roomId' (u_roomId user)) as [->|Hr]; cbn [andb].
  2:{ now rewrite (getRoom_afterRemove_other s socketId Hu). }
  unfold getUserBySocketId in Hu. unfold afterRemoveUserFromRoom. rewrite Hu.
  unfold getRoom at 1. cbn [rooms].
  destruct (getRoom (u_roomId user) s) as [room|] eqn:Er.
  2:{ unfold getRoom in Er. rewrite Er. now destruct (String.eqb _ _). }
  assert (Hdel : forall ps : JSMap.t Participant,
             JSMap.get userId' (JSMap.delete (u_userId user) ps)
             = if String.eqb userId' (u_userId user) then None
               else JSMap.get userId' ps).
  { intros ps. destruct (String.eqb_spec userId' (u_userId user)) as [->|Hne].
    - apply get_delete_eq.
    - now apply get_delete_ne. }
  destruct (JSMap.get (u_userId user) (room_participants room)) eqn:Ep.
  - destruct (Nat.eqb_spec
      (JSMap.size (JSMap.delete (u_userId user) (room_participants room))) 0)
      as [Hz|Hz].
    + rewrite get_delete_eq.
      specialize (Hdel (room_participants room)).
      rewrite (size_0_get userId' _ Hz) in Hdel.
      now destruct (String.eqb userId' (u_userId user)).
    + rewrite get_set_eq. cbn. apply Hdel.
  - destruct (Nat.eqb_spec (JSMap.size (room_participants room)) 0) as [Hz|Hz].
    + rewrite get_delete_eq, (size_0_get userId' _ Hz).
      now destruct (String.eqb _ _).
    + unfold getRoom in Er. rewrite Er.
      destruct (String.eqb_spec userId' (u_userId user)) as [->|Hne];
        [exact Ep | reflexivity].
Qed.

Lemma participant_exists s roomId userId :
  (exists room participant,
      getRoom roomId s = Some room /\
      JSMap.get userId (room_participants room) = Some participant)
  <-> exists participant, getParticipant roomId userId s = Some participant.
Proof.
  unfold getParticipant. split.
  - intros (room & p & -> & Hp). now exists p.
  - intros (p & Hp). destruct (getRoom roomId s) as [room|]; [|discriminate].
    now exists room, p.
Qed.

Lemma consistent_emptyService : consistent emptyService.
Proof.
  split.
  - intros socketId user H. discriminate H.
  - intros roomId userId p H. discriminate H.
Qed.

(** The two parts of [consistent], over [refersTo]. *)
Lemma consistent_alt s :
  consistent s <->
  (forall r u k, refersTo s r u k -> exists p, getParticipant r u s = Some p)
  /\ (forall r u p, getParticipant r u s = Some p -> exists! k, refersTo s r u k).
Proof.
  unfold consistent, indexSound, indexComplete. split.
  - intros [Hsound Hcomplete]. split; [|exact Hcomplete].
    intros r u k (user & Hu & <- & <-).
    apply participant_exists. eapply Hsound, Hu.
  - intros [Hsound Hcomplete]. split; [|exact Hcomplete].
    intros k user Hu. apply participant_exists.
    apply (Hsound _ _ k). now exists user.
Qed.

Lemma refersTo_functional s r u r' u' k :
  refersTo s r u k -> refersTo s r' u' k -> r = r' /\ u = u'.
Proof.
  intros (user & Hu & <- & <-) (user' & Hu' & <- & <-).
  rewrite Hu in Hu'. injection Hu' as <-. now split.
Qed.

Lemma refersTo_afterAdd env s roomId userId socketId userInfo r u k :
  refersTo (afterAddUserToRoom env roomId userId socketId userInfo s) r u k <->
  (k = socketId /\ r = u_roomId (indexEntry roomId userId userInfo)
   /\ u = u_userId (indexEntry roomId userId userInfo))
  \/ (k <> socketId /\ refersTo s r u k).
Proof.
  unfold refersTo. rewrite getUser_afterAdd.
  destruct (String.eqb_spec k socketId) as [->|Hne]; split.
  - intros (user & [= <-] & <- & <-). now left.
  - intros [(_ & -> & ->)|[Hne _]]; [|contradiction]. now eexists.
  - intros H. now right.
  - intros [[Heq _]|[_ H]]; [contradiction | exact H].
Qed.

Lemma participant_afterAdd env s roomId userId socketId userInfo r u :
  (exists p,
     getParticipant r u (afterAddUserToRoom env roomId userId socketId userInfo s)
     = Some p)
  <-> (r = roomId /\ u = userId) \/ exists p, getParticipant r u s = Some p.
Proof.
  rewrite getParticipant_afterAdd.
  destruct (String.eqb_spec r roomId) as [->|Hr];
    [destruct (String.eqb_spec u userId) as [->|Hu]|]; cbn [andb]; split.
  - intros _. now left.
  - intros _. now eexists.
  - intros H. now right.
  - intros [[_ H]|H]; [contradiction | exact H].
  - intros H. now right.
  - intros [[H _]|H]; [contradiction | exact H].
Qed.

(** [joinKeepsIndex] is enough. *)
Lemma consistent_afterAdd env s roomId userId socketId userInfo :
  consistent s ->
  joinKeepsIndex s roomId userId socketId userInfo ->
  consistent (afterAddUserToRoom env roomId userId socketId userInfo s).
Proof.
  intros Hs Hkeeps. apply consistent_alt in Hs as [Hsound Hcomplete].
  apply consistent_alt.
  set (s' := afterAddUserToRoom env roomId userId socketId userInfo s).
  destruct Hkeeps as [(Hfresh & Habsent & Hr & Hu)|[Hold (q & Hq)]].
  - assert (Hno : forall r u, ~ refersTo s r u socketId).
    { intros r u (user & Huser & _). congruence. }
    split.
    + intros r u k Hk. apply participant_afterAdd.
      apply refersTo_afterAdd in Hk as [(_ & -> & ->)|[_ Hk]].
      * left. now split.
      * right. eapply Hsound, Hk.
    + intros r u p Hp.
      assert (Hex : exists p0, getParticipant r u s' = Some p0) by now exists p.
      apply participant_afterAdd in Hex as [[-> ->]|(p0 & Hp0)].
      * exists socketId. split.
        -- apply refersTo_afterAdd. left. now rewrite Hr, Hu.
        -- intros k Hk. apply refersTo_afterAdd in Hk as [(-> & _)|[_ Hk]];
             [reflexivity|].
           destruct (Hsound _ _ _ Hk) as (p0 & Hp0). congruence.
      * destruct (Hcomplete r u p0 Hp0) as (k0 & Hk0 & Huniq).
        assert (Hne : k0 <> socketId) by (intros ->; exact (Hno _ _ Hk0)).
        exists k0. split; [apply refersTo_afterAdd; now right|].
        intros k Hk. apply refersTo_afterAdd in Hk as [(_ & -> & ->)|[_ Hk]];
          [|now apply Huniq].
        exfalso. rewrite Hr, Hu in Hp0. congruence.
  - assert (Hsame : forall r u k, refersTo s' r u k <-> refersTo s r u k).
    { intros r u k. unfold s'. rewrite refersTo_afterAdd. split.
      - intros [(-> & -> & ->)|[_ H]]; assumption.
      - intros H. destruct (String.eqb_spec k socketId) as [->|Hne];
          [left | now right].
        destruct (refersTo_functional H Hold) as [-> ->]. now repeat split. }
    assert (Hpart : forall r u,
               (exists p, getParticipant r u s' = Some p)
               <-> exists p, getParticipant r u s = Some p).
    { intros r u. unfold s'. rewrite participant_afterAdd. split.
      - intros [[-> ->]|H]; [now exists q | exact H].
      - intros H. now right. }
    split.
    + intros r u k Hk. apply Hpart. apply Hsame in Hk. eapply Hsound, Hk.
    + intros r u p Hp.
      assert (Hex : exists p0, getParticipant r u s' = Some p0) by now exists p.
      apply Hpart in Hex as (p0 & Hp0).
      destruct (Hcomplete r u p0 Hp0) as (k0 & Hk0 & Huniq).
      exists k0. split; [now apply Hsame|].
      intros k Hk. apply Huniq. now apply Hsame.
Qed.

(** [joinKeepsIndex] is needed. *)
Lemma consistent_afterAdd_only env s roomId userId socketId userInfo :
  consistent s ->
  consistent (afterAddUserToRoom env roomId userId socketId userInfo s) ->
  joinKeepsIndex s roomId userId socketId userInfo.
Proof.
  intros Hs Hs'. apply consistent_alt in Hs as [Hsound Hcomplete].
  apply consistent_alt in Hs' as [Hsound' Hcomplete'].
  set (s' := afterAddUserToRoom env roomId userId socketId userInfo s) in *.
  set (entry := indexEntry roomId userId userInfo).
  assert (Hnew : refersTo s' (u_roomId entry) (u_userId entry) socketId).
  { apply refersTo_afterAdd. left. now repeat split. }
  assert (Hjoined : exists p, getParticipant roomId userId s' = Some p).
  { apply participant_afterAdd. left. now split. }
  destruct Hjoined as (fresh & Hfresh).
  destruct (Hcomplete' _ _ _ Hfresh) as (k & Hk & Huniq).
  destruct (getUserBySocketId socketId s) as [old|] eqn:Hold.
  - right.
    assert (Holdref : refersTo s (u_roomId old) (u_userId old) socketId)
      by now exists old.
    assert (Hnames : u_roomId old = u_roomId entry /\ u_userId old = u_userId entry).
    { destruct (Hsound _ _ _ Holdref) as (p & Hp).
      assert (Hex : exists p0,
                 getParticipant (u_roomId old) (u_userId old) s' = Some p0).
      { apply participant_afterAdd. right. now exists p. }
      destruct Hex as (p0 & Hp0).
      destruct (Hcomplete' _ _ _ Hp0) as (k1 & Hk1 & Huniq1).
      pose proof Hk1 as Hk1'.
      apply refersTo_afterAdd in Hk1' as [(_ & Hr & Hu)|[Hne Hk1']].
      - now split.
      - exfalso. apply Hne.
        destruct (Hcomplete _ _ _ Hp) as (k2 & _ & Huniq2).
        now rewrite <- (Huniq2 _ Hk1'), <- (Huniq2 _ Holdref). }
    destruct Hnames as [Hr Hu]. split.
    + exists old. now repeat split.
    + apply refersTo_afterAdd in Hk as [(_ & Hr' & Hu')|[_ Hk]].
      * apply (Hsound (u_roomId old) (u_userId old) socketId) in Holdref.
        unfold entry in Hr, Hu.
        now rewrite Hr, Hu, <- Hr', <- Hu' in Holdref.
      * eapply Hsound, Hk.
  - left.
    assert (Hno : forall r u, ~ refersTo s r u socketId).
    { intros r u (user & Huser & _). congruence. }
    assert (Hcall : u_roomId entry = roomId /\ u_userId entry = userId).
    { pose proof Hk as Hk'.
      apply refersTo_afterAdd in Hk' as [(_ & Hr & Hu)|[Hne Hk']];
        [now split|].
      exfalso.
      destruct (Hsound' _ _ _ Hnew) as (p & Hp).
      destruct (Hcomplete' _ _ _ Hp) as (k1 & Hk1 & Huniq1).
      assert (Hex : exists p0,
                 getParticipant (u_roomId entry) (u_userId entry) s' = Some p0)
        by now exists p.
      apply participant_afterAdd in Hex as [[Hr Hu]|(p0 & Hp0)].
      - apply Hne. apply Huniq. now rewrite <- Hr, <- Hu.
      - destruct (Hcomplete _ _ _ Hp0) as (k2 & Hk2 & _).
        assert (Hne2 : k2 <> socketId) by (intros ->; exact (Hno _ _ Hk2)).
        apply Hne2.
        rewrite <- (Huniq1 socketId Hnew). symmetry. apply Huniq1.
        apply refersTo_afterAdd. now right. }
    destruct Hcall as [Hr Hu].
    split; [exact Hold|]. split; [|now split].
    destruct (getParticipant roomId userId s) as [p|] eqn:Hp; [|reflexivity].
    exfalso.
    destruct (Hcomplete _ _ _ Hp) as (k2 & Hk2 & _).
    assert (Hne2 : k2 <> socketId) by (intros ->; exact (Hno _ _ Hk2)).
    apply Hne2.
    assert (Hsock : k = socketId).
    { apply Huniq. now rewrite <- Hr, <- Hu. }
    rewrite <- Hsock. symmetry. apply Huniq. apply refersTo_afterAdd. now right.
Qed.

Lemma consistent_afterRemove s socketId :
  consistent s -> consistent (afterRemoveUserFromRoom socketId s).
Proof.
  intros [Hsound Hcomplete].
  destruct (getUserBySocketId socketId s) as [user|] eqn:Huser.
  2:{ rewrite afterRemove_absent by assumption. now split. }
  set (s' := afterRemoveUserFromRoom socketId s).
  assert (Hrefers : forall r u k,
             refersTo s' r u k <-> k <> socketId /\ refersTo s r u k).
  { intros r u k. unfold refersTo, s'.
    destruct (String.eqb_spec k socketId) as [->|Hne].
    - rewrite getUser_afterRemove. split.
      + intros (u0 & H & _). discriminate H.
      + intros [H _]. contradiction.
    - rewrite getUser_afterRemove_other by assumption. tauto. }
  assert (Hself : refersTo s (u_roomId user) (u_userId user) socketId).
  { now exists user. }
  assert (Hkept : forall r u k p,
             k <> socketId -> refersTo s r u k ->
             getParticipant r u s = Some p ->
             getParticipant r u s' = Some p).
  { intros r u k p Hne Hk Hp. unfold s'.
    rewrite (getParticipant_afterRemove s socketId r u Huser).
    destruct (String.eqb_spec r (u_roomId user)) as [->|Hr]; [|exact Hp].
    destruct (String.eqb_spec u (u_userId user)) as [->|Hu]; [|exact Hp].
    exfalso. destruct (Hcomplete _ _ _ Hp) as (k0 & _ & Huniq).
    apply Hne. now rewrite <- (Huniq k Hk), <- (Huniq socketId Hself). }
  split.
  - intros k u Hu. apply participant_exists.
    assert (Hne : k <> socketId).
    { intros ->. unfold s' in Hu. rewrite getUser_afterRemove in Hu. discriminate. }
    unfold s' in Hu. rewrite getUser_afterRemove_other in Hu by assumption.
    destruct (proj1 (participant_exists s (u_roomId u) (u_userId u))
                (Hsound k u Hu)) as (p & Hp).
    exists p. apply (Hkept _ _ k); [assumption | now exists u | assumption].
  - intros r u p Hp. unfold s' in Hp.
    rewrite (getParticipant_afterRemove s socketId r u Huser) in Hp.
    destruct (String.eqb r (u_roomId user) && String.eqb u (u_userId user))
      eqn:Hsame; [discriminate|].
    destruct (Hcomplete r u p Hp) as (k0 & Hk0 & Huniq).
    assert (Hne : k0 <> socketId).
    { intros ->. destruct Hk0 as (u0 & Hu0 & <- & <-).
      rewrite Huser in Hu0. injection Hu0 as <-.
      now rewrite !String.eqb_refl in Hsame. }
    exists k0. split; [now apply Hrefers|].
    intros k Hk. apply Hrefers in Hk as [_ Hk]. now apply Huniq.
Qed.

(** Room r1 after the same user id has joined it from sockets s1 and s2. *)
Lemma twoSockets_eq :
  performAll [(quietEnv, AddUserToRoom "r1" "u1" "s1" studentInfo);
              (quietEnv, AddUserToRoom "r1" "u1" "s2" studentInfo)] emptyService
  = {| rooms :=
         [("r1", {| room_id := "r1";
                    room_participants :=
                      [("u1", freshParticipant quietEnv "u1" "s2" studentInfo)];
                    room_createdAt := 7 |})];
       users :=
         [("s1", {| u_userId := "u1"; u_roomId := "r1"; u_info := studentInfo |});
          ("s2", {| u_userId := "u1"; u_roomId := "r1"; u_info := studentInfo |})] |}.
Proof. reflexivity. Qed.

(** C4, as stated, fails: after [addUserToRoom] of user u1 into r1 from
    socket s1 and again from socket s2, the one participant u1 of r1 has
    two entries of the connection index. *)
Lemma duplicate_join_breaks_index :
  ~ consistent
      (performAll [(quietEnv, AddUserToRoom "r1" "u1" "s1" studentInfo);
                   (quietEnv, AddUserToRoom "r1" "u1" "s2" studentInfo)]
         emptyService).
Proof.
  rewrite twoSockets_eq. intros [_ Hcomplete].
  destruct (Hcomplete "r1" "u1" (freshParticipant quietEnv "u1" "s2" studentInfo)
              eq_refl) as (k & _ & Huniq).
  assert (H1 : k = "s1") by (apply Huniq; eexists; repeat split; reflexivity).
  assert (H2 : k = "s2") by (apply Huniq; eexists; repeat split; reflexivity).
  rewrite H1 in H2. discriminate H2.
Qed.

(** C4 (amended): after every sequence of [addUserToRoom] and
    [removeUserFromRoom] from the empty registry in which each
    [addUserToRoom] is new (the socket id has no entry in the connection
    index, the user id is not in the room, and the entry written names the
    room and the user of the call) or repeats what the index records (the
    socket's entry already names the participant that the new entry names,
    and the user of the call is in the room), every entry of the index leads
    to a participant of an existing room and every participant of every room
    has exactly one entry.  From a registry where this holds,
    [addUserToRoom] keeps it exactly when the call is of one of these two
    kinds, and [removeUserFromRoom] always keeps it. *)
Theorem index_consistent_iff_joins_keep_it :
  (forall s, ReachedKeepingIndex s -> consistent s)
  /\ (forall env s roomId userId socketId userInfo,
        consistent s ->
        (consistent
           (serviceOf (run (addUserToRoom roomId userId socketId userInfo) env s))
         <-> joinKeepsIndex s roomId userId socketId userInfo))
  /\ (forall env s socketId,
        consistent s ->
        consistent (serviceOf (run (removeUserFromRoom socketId) env s))).
Proof.
  split; [|split].
  - induction 1 as [|env s roomId userId socketId userInfo _ IH Hkeeps
                    |env s socketId _ IH].
    + exact consistent_emptyService.
    + unfold run. rewrite addUserToRoom_run. now apply consistent_afterAdd.
    + unfold run. rewrite removeUserFromRoom_run. now apply consistent_afterRemove.
  - intros env s roomId userId socketId userInfo Hs.
    unfold run. rewrite addUserToRoom_run. cbn [serviceOf fst snd]. split.
    + now apply consistent_afterAdd_only.
    + now apply consistent_afterAdd.
  - intros env s socketId Hs.
    unfold run. rewrite removeUserFromRoom_run. now apply consistent_afterRemove.
Qed.

(** The teacher joins, the student joins, the teacher joins again from the
    same socket, the student leaves. *)
Lemma index_consistent_iff_joins_keep_it_witness :
  ReachedKeepingIndex
    (serviceOf (run (removeUserFromRoom "s2") quietEnv
       (serviceOf (run (addUserToRoom "r1" "t1" "s1" teacherInfo) quietEnv
          (serviceOf (run (addUserToRoom "r1" "u1" "s2" studentInfo) quietEnv
                        oneTeacher))))))
  /\ consistent
       (serviceOf (run (removeUserFromRoom "s2") quietEnv
          (serviceOf (run (addUserToRoom "r1" "t1" "s1" teacherInfo) quietEnv
             (serviceOf (run (addUserToRoom "r1" "u1" "s2" studentInfo) quietEnv
                           oneTeacher))))))
  /\ ~ joinKeepsIndex oneTeacher "r1" "u2" "s3" taggedInfo
  /\ ~ consistent
         (serviceOf (run (addUserToRoom "r1" "u2" "s3" taggedInfo) quietEnv
                       oneTeacher)).
Proof.
  assert (H : ReachedKeepingIndex
    (serviceOf (run (removeUserFromRoom "s2") quietEnv
       (serviceOf (run (addUserToRoom "r1" "t1" "s1" teacherInfo) quietEnv
          (serviceOf (run (addUserToRoom "r1" "u1" "s2" studentInfo) quietEnv
                        oneTeacher))))))).
  { apply reached_remove. apply reached_add.
    - apply reached_add.
      + apply reached_add; [apply reached_empty|].
        left. repeat split; reflexivity.
      + left. repeat split; reflexivity.
    - right. split; [eexists; repeat split; reflexivity | eexists; reflexivity]. }
  assert (Hone : consistent oneTeacher).
  { apply (proj1 index_consistent_iff_joins_keep_it).
    apply reached_add; [apply reached_empty|]. left. repeat split; reflexivity. }
  assert (Hnot : ~ joinKeepsIndex oneTeacher "r1" "u2" "s3" taggedInfo).
  { intros [(_ & _ & Hroom & _)|[(user & Huser & _) _]]; discriminate. }
  split; [exact H|]. split; [|split; [exact Hnot|]].
  - exact (proj1 index_consistent_iff_joins_keep_it _ H).
  - intros Hc. apply Hnot.
    exact (proj1 (proj1 (proj2 index_consistent_iff_joins_keep_it)
                    quietEnv oneTeacher "r1" "u2" "s3" taggedInfo Hone) Hc).
Defined.

(* ===================================================================== *)
(** ** The authorization gate of createRoom and joinRoom *)

Lemma gatedByOracleb_sound t : gatedByOracleb t = true -> gatedByOracle t.
Proof.
  induction t as [|e t IH]; intros Hb pre m post Heq.
  - now destruct pre.
  - destruct pre as [|e' pre]; cbn in Heq.
    + injection Heq as -> _. discriminate Hb.
    + injection Heq as <- Ht.
      destruct e; try discriminate Hb;
        try (destruct (IH Hb pre m post Ht) as (u & r & ro & Hin);
             exists u, r, ro; now right).
      do 3 eexists. left. reflexivity.
Qed.

(** C10: a createRoom request from a socket whose role is not teacher is
    answered with an error acknowledgement; the schedule service is not
    asked, no method of the registry is called and the registry is as
    before.  The acknowledgement goes through the callback of the request
    when it is a function ([answered], [acked]); when it is not, nothing is
    acknowledged, the handler ends by the exception of the call, and the
    rest holds all the same. *)
Theorem only_teachers_create env s socket data cb :
  role (socket_user socket) <> "teacher" ->
  let r := run (on_createRoom socket data cb) env s in
  outcomeOf r = answered cb
  /\ (exists error, acks (traceOf r) = acked cb (AckError error))
  /\ (forall roomId,
        data = Some roomId ->
        traceOf r
        = match cb with
          | AckFunction => [EvAck (AckError "Only teachers can create rooms")]
          | NotAFunction _ =>
              [EvConsole LError "Error creating room:"
                 (Some "TypeError: callback is not a function")]
          end)
  /\ oracleCalls (traceOf r) = []
  /\ mutations (traceOf r) = []
  /\ serviceOf r = s.
Proof.
  intros Hrole. unfold run, on_createRoom.
  destruct cb as [|truthy];
    (destruct data as [roomId|]; js_eval;
     [destruct (String.eqb_spec (role (socket_user socket)) "teacher") as [E|_];
        [contradiction|]; js_eval;
      repeat split; first [now eexists | exact EmptyString]
     |repeat split; first [now eexists | discriminate | exact EmptyString]]).
Qed.

Lemma only_teachers_create_witness :
  role (socket_user studentSocket) <> "teacher"
  /\ run (on_createRoom studentSocket (Some "r1") AckFunction) quietEnv emptyService
     = (Normal tt, emptyService,
        [EvAck (AckError "Only teachers can create rooms")]).
Proof.
  split; [discriminate|].
  pose proof (only_teachers_create quietEnv emptyService studentSocket (Some "r1")
                AckFunction) as H.
  assert (Hrole : role (socket_user studentSocket) <> "teacher") by discriminate.
  destruct (H Hrole) as (Ho & _ & Ht & _ & _ & Hs).
  specialize (Ht "r1" eq_refl).
  destruct (run (on_createRoom studentSocket (Some "r1") AckFunction)
              quietEnv emptyService)
    as [[o s'] t].
  cbn in Ho, Ht, Hs. now subst.
Defined.

(** C2: in every run of the createRoom and joinRoom handlers, no mutating
    method of the registry is called before the schedule service has been
    asked; and when the service answers no, the handler ends with one
    acknowledgement, an error, having called no mutating method, and the
    rooms and the connection index are as before.  The acknowledgement goes
    through the callback of the request when it is a function ([answered],
    [acked]); when it is not, nothing is acknowledged, the handler ends by
    the exception of the call, and the rest holds all the same. *)
Theorem authorization_gate env s socket cb :
  (forall data, gatedByOracle (traceOf (run (on_createRoom socket data cb) env s)))
  /\ (forall data, gatedByOracle (traceOf (run (on_joinRoom socket data cb) env s)))
  /\ (forall roomId,
        schedule_canUserAccessRoom env (uid (socket_user socket)) roomId
          (role (socket_user socket)) = false ->
        forall r,
          r = run (on_createRoom socket (Some roomId) cb) env s \/
          r = run (on_joinRoom socket (Some roomId) cb) env s ->
          outcomeOf r = answered cb
          /\ (exists error, acks (traceOf r) = acked cb (AckError error))
          /\ mutations (traceOf r) = []
          /\ serviceOf r = s).
Proof.
  split; [|split].
  - intros data. apply gatedByOracleb_sound. unfold run, on_createRoom.
    destruct cb as [|truthy];
      (destruct data as [roomId|]; js_eval; [|reflexivity];
       destruct (String.eqb (role (socket_user socket)) "teacher"); js_eval;
         [|reflexivity];
       destruct (schedule_canUserAccessRoom env _ _ _); js_eval; [|reflexivity];
       destruct (mediasoup_getRouterRtpCapabilities env); reflexivity).
  - intros data. apply gatedByOracleb_sound. unfold run, on_joinRoom.
    destruct cb as [|truthy];
      (destruct data as [roomId|]; js_eval; [|reflexivity];
       destruct (schedule_canUserAccessRoom env _ _ _); js_eval; [|reflexivity];
       destruct (roomExists roomId s); js_eval; [|reflexivity];
       destruct (mediasoup_getRouterRtpCapabilities env); reflexivity).
  - intros roomId Hno r [ -> | -> ].
    + unfold run, on_createRoom.
      destruct cb as [|truthy]; js_eval;
        (destruct (String.eqb (role (socket_user socket)) "teacher"); js_eval;
         [rewrite Hno; js_eval; repeat split;
          first [now eexists | exact EmptyString]
         |repeat split; first [now eexists | exact EmptyString]]).
    + unfold run, on_joinRoom.
      destruct cb as [|truthy]; js_eval; rewrite Hno; js_eval;
        repeat split; first [now eexists | exact EmptyString].
Qed.

Lemma authorization_gate_witness :
  schedule_canUserAccessRoom refusingEnv "t1" "r1" "teacher" = false
  /\ serviceOf (run (on_createRoom teacherSocket (Some "r1") AckFunction)
                  refusingEnv emptyService)
     = emptyService
  /\ serviceOf (run (on_joinRoom studentSocket (Some "r1") AckFunction)
                  refusingEnv oneTeacher)
     = oneTeacher.
Proof.
  split; [reflexivity|]. split.
  - exact (proj2 (proj2 (proj2
      (proj2 (proj2 (authorization_gate refusingEnv emptyService teacherSocket
                       AckFunction))
         "r1" eq_refl _ (or_introl eq_refl))))).
  - exact (proj2 (proj2 (proj2
      (proj2 (proj2 (authorization_gate refusingEnv oneTeacher studentSocket
                       AckFunction))
         "r1" eq_refl _ (or_intror eq_refl))))).
Defined.

(* ===================================================================== *)
(** ** The consume handler *)

(** C7: when the router answers that the producer of a consume request
    cannot be consumed with the capabilities of the request, the handler ends
    with one acknowledgement, an error; [transport.consume] is not called,
    no method of the registry is called and the registry, with the
    consumers of every participant, is as before.  When the connection is
    in a room, the transport exists and the router is available, the error
    is the one of the capability check.  The acknowledgement goes through
    the callback of the request when it is a function ([answered],
    [acked]); when it is not, nothing is acknowledged, the handler ends by
    the exception of the call, and the rest holds all the same. *)
Theorem consume_needs_canConsume env s socket d cb :
  router_canConsume env (cd_producerId d) (cd_rtpCapabilities d) = Normal false ->
  let r := run (on_consume socket (Some d) cb) env s in
  outcomeOf r = answered cb
  /\ (exists error, acks (traceOf r) = acked cb (AckError error))
  /\ consumeCalls (traceOf r) = []
  /\ mutations (traceOf r) = []
  /\ serviceOf r = s
  /\ (forall user transport,
        getUserBySocketId (socket_id socket) s = Some user ->
        getTransport (u_roomId user) (u_userId user) (cd_transportId d) s
        = Some transport ->
        mediasoup_getRouter env = Normal tt ->
        acks (traceOf r) = acked cb (AckError "Cannot consume this producer")).
Proof.
  intros Hno. unfold run, on_consume.
  destruct cb as [|truthy]; js_eval;
    (destruct (getUserBySocketId (socket_id socket) s) as [user|] eqn:Eu; js_eval;
     [|repeat split; first [now eexists | intros; congruence | exact EmptyString]];
     destruct (getTransport _ _ _ s) as [transport|] eqn:Et; js_eval;
     [|repeat split; first [now eexists | intros; congruence | exact EmptyString]];
     unfold getRouter, external;
     destruct (mediasoup_getRouter env) as [[]|e] eqn:Er; js_eval;
     [|repeat split; first [now eexists | intros; congruence | exact EmptyString]];
     unfold canConsume, external; rewrite Hno; js_eval;
     repeat split; first [now eexists | intros; reflexivity | exact EmptyString]).
Qed.

Lemma consume_needs_canConsume_witness :
  router_canConsume incompatibleEnv "p1" "caps" = Normal false
  /\ run (on_consume studentSocket
            (Some {| cd_transportId := "tr2"; cd_producerId := "p1";
                     cd_rtpCapabilities := "caps" |}) AckFunction)
         incompatibleEnv classroom
     = (Normal tt, classroom,
        [EvGetRouter; EvCanConsume "p1" "caps";
         EvAck (AckError "Cannot consume this producer")])
  /\ serviceOf (run (on_consume studentSocket
                       (Some {| cd_transportId := "tr2"; cd_producerId := "p1";
                                cd_rtpCapabilities := "caps" |}) AckFunction)
                    incompatibleEnv classroom)
     = classroom.
Proof.
  split; [reflexivity|]. split; [reflexivity|].
  exact (proj1 (proj2 (proj2 (proj2 (proj2
           (consume_needs_canConsume incompatibleEnv classroom studentSocket
              {| cd_transportId := "tr2"; cd_producerId := "p1";
                 cd_rtpCapabilities := "caps" |} AckFunction eq_refl)))))).
Defined.

(* ===================================================================== *)
(** ** The chat handler *)

Lemma chat_run env s socket text user cb :
  getUserBySocketId (socket_id socket) s = Some user ->
  textMissing (Some text) = false ->
  run (on_chat_message socket (Some (Some text)) cb) env s
  = (answered cb, s,
     EvGetScheduleByRoomId (u_roomId user)
     :: match schedule_getScheduleByRoomId env (u_roomId user) with
        | Normal scheduleId =>
            EvMessagesAdd scheduleId (chatMessage env user text)
            :: match messages_add env scheduleId (chatMessage env user text) with
               | Normal _ => []
               | Throw e =>
                   [EvConsole LWarn "Failed to persist chat message:" (Some e)]
               end
        | Throw e => [EvConsole LWarn "Failed to persist chat message:" (Some e)]
        end
     ++ [EvEmit (IoTo (u_roomId user)) (ChatPush (chatMessage env user text));
         match cb with
         | AckFunction => EvAck (AckChat (chatMessage env user text))
         | NotAFunction _ =>
             EvConsole LError "Error handling chat message:"
               (Some "TypeError: callback is not a function")
         end]).
Proof.
  intros Huser Hvalid. unfold run, on_chat_message.
  destruct cb as [|truthy]; js_eval;
    (rewrite Huser; js_eval; rewrite Hvalid; js_eval;
     unfold getScheduleByRoomId, external;
     destruct (schedule_getScheduleByRoomId env _) as [sch|e]; js_eval;
       [|reflexivity];
     unfold messagesAdd, external;
     now destruct (messages_add env _ _) as [[]|e]).
Qed.



(* ===================================================================== *)
(** ** Handles and capabilities of a participant *)

#[local] Arguments mutateParticipant : simpl never.
#[local] Arguments addTransport : simpl never.
#[local] Arguments addProducer : simpl never.
#[local] Arguments setRtpCapabilities : simpl never.

Lemma mutateParticipant_run env s roomId userId f :
  mutateParticipant roomId userId f env s
  = (Normal tt, afterMutateParticipant roomId userId f s, []).
Proof.
  unfold mutateParticipant, afterMutateParticipant.
  rewrite run_bind. cbn [getService].
  destruct (getRoom roomId s) as [room|];
    [destruct (JSMap.get userId (room_participants room)) as [p|]|];
    cbn; try reflexivity; now destruct s.
Qed.

Lemma performCall_service env c s :
  afterCall env c s =
  match c with
  | CallCreateRoom roomId => afterCreateRoom env roomId s
  | CallAddUserToRoom roomId userId socketId userInfo =>
      afterAddUserToRoom env roomId userId socketId userInfo s
  | CallRemoveUserFromRoom socketId => afterRemoveUserFromRoom socketId s
  | CallAddTransport roomId userId transport =>
      afterMutateParticipant roomId userId (fun p => withTransport p transport) s
  | CallAddProducer roomId userId producer =>
      afterMutateParticipant roomId userId (fun p => withProducer p producer) s
  | CallAddConsumer roomId userId consumer =>
      afterMutateParticipant roomId userId (fun p => withConsumer p consumer) s
  | CallSetRtpCapabilities roomId userId caps =>
      afterMutateParticipant roomId userId (fun p => withRtpCapabilities p caps) s
  end.
Proof.
  unfold afterCall, run. destruct c; cbn [performCall].
  - now rewrite run_bind, createRoom_run.
  - now rewrite run_bind, addUserToRoom_run.
  - now rewrite run_bind, removeUserFromRoom_run.
  - unfold addTransport. rewrite run_bind. cbn [tell].
    now rewrite mutateParticipant_run.
  - unfold addProducer. rewrite run_bind. cbn [tell].
    now rewrite mutateParticipant_run.
  - unfold addConsumer. rewrite run_bind. cbn [tell].
    now rewrite mutateParticipant_run.
  - unfold setRtpCapabilities. now rewrite mutateParticipant_run.
Qed.

Lemma getParticipant_afterMutate s roomId userId f roomId' userId' :
  getParticipant roomId' userId' (afterMutateParticipant roomId userId f s)
  = if String.eqb roomId' roomId && String.eqb userId' userId
    then option_map f (getParticipant roomId userId s)
    else getParticipant roomId' userId' s.
Proof.
  unfold afterMutateParticipant, getParticipant.
  destruct (getRoom roomId s) as [room|] eqn:Er.
  - destruct (JSMap.get userId (room_participants room)) as [p|] eqn:Ep.
    + unfold getRoom at 1. cbn [rooms].
      destruct (String.eqb_spec roomId' roomId) as [->|Hr]; cbn [andb].
      * rewrite get_set_eq. cbn [room_participants withParticipants].
        destruct (String.eqb_spec userId' userId) as [->|Hu].
        -- now rewrite get_set_eq.
        -- rewrite get_set_ne by assumption. now rewrite Er.
      * rewrite get_set_ne by assumption. reflexivity.
    + destruct (String.eqb_spec roomId' roomId) as [->|Hr]; cbn [andb];
        [|reflexivity].
      rewrite Er. destruct (String.eqb_spec userId' userId) as [->|Hu];
        [now rewrite Ep | reflexivity].
  - destruct (String.eqb_spec roomId' roomId) as [->|Hr]; cbn [andb];
      [|reflexivity].
    rewrite Er. now destruct (String.eqb userId' userId).
Qed.

Lemma afterMutate_absent s roomId userId f :
  getParticipant roomId userId s = None ->
  afterMutateParticipant roomId userId f s = s.
Proof.
  unfold afterMutateParticipant, getParticipant.
  destruct (getRoom roomId s) as [room|]; [|reflexivity].
  now intros ->.
Qed.

Lemma users_afterMutate s roomId userId f :
  users (afterMutateParticipant roomId userId f s) = users s.
Proof.
  unfold afterMutateParticipant.
  destruct (getRoom roomId s) as [room|]; [|reflexivity].
  now destruct (JSMap.get userId (room_participants room)).
Qed.

Lemma keys_set_present {V} k (v v0 : V) m :
  JSMap.get k m = Some v0 -> JSMap.keys (JSMap.set k v m) = JSMap.keys m.
Proof.
  unfold JSMap.keys.
  induction m as [|[k0 w] r IH]; cbn; [discriminate|].
  destruct (String.eqb_spec k k0) as [->|Hne]; cbn; [reflexivity|].
  intros H. now rewrite IH.
Qed.

Lemma keys_set_absent {V} k (v : V) m :
  JSMap.get k m = None -> JSMap.keys (JSMap.set k v m) = JSMap.keys m ++ [k].
Proof.
  unfold JSMap.keys.
  induction m as [|[k0 w] r IH]; cbn; [reflexivity|].
  destruct (String.eqb_spec k k0) as [->|Hne]; cbn; [discriminate|].
  intros H. now rewrite IH.
Qed.

Lemma rooms_keys_afterMutate s roomId userId f :
  getAllRooms (afterMutateParticipant roomId userId f s) = getAllRooms s.
Proof.
  unfold afterMutateParticipant, getAllRooms.
  destruct (getRoom roomId s) as [room|] eqn:Er; [|reflexivity].
  destruct (JSMap.get userId (room_participants room)); [|reflexivity].
  cbn [rooms]. eapply keys_set_present, Er.
Qed.

Lemma members_afterMutate s roomId userId f roomId' :
  (forall p, p_userId (f p) = p_userId p) ->
  map p_userId (getRoomParticipants roomId' (afterMutateParticipant roomId userId f s))
  = map p_userId (getRoomParticipants roomId' s).
Proof.
  intros Hid. unfold afterMutateParticipant, getRoomParticipants.
  destruct (getRoom roomId s) as [room|] eqn:Er; [|reflexivity].
  destruct (JSMap.get userId (room_participants room)) as [p|] eqn:Ep;
    [|reflexivity].
  unfold getRoom at 1. cbn [rooms].
  destruct (String.eqb_spec roomId' roomId) as [->|Hr].
  - rewrite get_set_eq, Er. cbn [room_participants withParticipants].
    clear Er. unfold JSMap.values.
    induction (room_participants room) as [|[k q] r IH]; cbn in *; [discriminate|].
    destruct (String.eqb_spec userId k) as [->|Hne]; cbn.
    + injection Ep as ->. now rewrite Hid.
    + now rewrite IH.
  - rewrite get_set_ne by assumption. reflexivity.
Qed.

(** X1: for a participant that is in the room, each of [addTransport],
    [addProducer] and [addConsumer] makes the handle available to the getter
    of its kind under the handle's id, replacing a handle stored under the
    same id, and leaves the handles of that kind stored under other ids as
    they were. *)
Theorem handle_registration_roundtrip env s roomId userId participant :
  getParticipant roomId userId s = Some participant ->
  (forall transport,
     let s' := afterCall env (CallAddTransport roomId userId transport) s in
     getTransport roomId userId (transport_id transport) s' = Some transport
     /\ forall id, id <> transport_id transport ->
          getTransport roomId userId id s' = getTransport roomId userId id s)
  /\ (forall producer,
        let s' := afterCall env (CallAddProducer roomId userId producer) s in
        getProducer roomId userId (producer_id producer) s' = Some producer
        /\ forall id, id <> producer_id producer ->
             getProducer roomId userId id s' = getProducer roomId userId id s)
  /\ (forall consumer,
        let s' := afterCall env (CallAddConsumer roomId userId consumer) s in
        getConsumer roomId userId (consumer_id consumer) s' = Some consumer
        /\ forall id, id <> consumer_id consumer ->
             getConsumer roomId userId id s' = getConsumer roomId userId id s).
Proof.
  intros Hp. repeat split; cbn zeta; rewrite performCall_service;
    unfold getTransport, getProducer, getConsumer;
    rewrite getParticipant_afterMutate, !String.eqb_refl, Hp; cbn;
    try apply get_set_eq; intros id Hne; now apply get_set_ne.
Qed.

Lemma handle_registration_roundtrip_witness :
  getParticipant "r1" "u1" classroom
  = Some {| p_userId := "u1"; p_socketId := "s2"; p_name := "Bob";
            p_role := "student"; p_joinedAt := 7;
            p_transports := [("tr2", {| transport_id := "tr2" |})];
            p_producers := []; p_consumers := []; p_rtpCapabilities := None |}
  /\ getProducer "r1" "u1" "p9"
       (afterCall quietEnv
          (CallAddProducer "r1" "u1"
             {| producer_id := "p9"; producer_kind := "audio" |}) classroom)
     = Some {| producer_id := "p9"; producer_kind := "audio" |}.
Proof.
  split; [reflexivity|].
  exact (proj1 (proj1 (proj2 (handle_registration_roundtrip quietEnv classroom
                                "r1" "u1" eq_refl))
                  {| producer_id := "p9"; producer_kind := "audio" |})).
Defined.

(** X2: when the room does not exist or does not hold the participant,
    [addTransport], [addProducer], [addConsumer] and [setRtpCapabilities]
    leave the registry as it is: the handle or the capabilities are stored
    nowhere. *)
Theorem handle_registration_without_participant env s roomId userId :
  getParticipant roomId userId s = None ->
  (forall transport, afterCall env (CallAddTransport roomId userId transport) s = s)
  /\ (forall producer, afterCall env (CallAddProducer roomId userId producer) s = s)
  /\ (forall consumer, afterCall env (CallAddConsumer roomId userId consumer) s = s)
  /\ (forall caps, afterCall env (CallSetRtpCapabilities roomId userId caps) s = s).
Proof.
  intros Hp. repeat split; intros; rewrite performCall_service;
    now apply afterMutate_absent.
Qed.

Lemma handle_registration_without_participant_witness :
  getParticipant "r1" "nobody" classroom = None
  /\ afterCall quietEnv
       (CallAddProducer "r1" "nobody"
          {| producer_id := "p9"; producer_kind := "audio" |}) classroom
     = classroom.
Proof.
  split; [reflexivity|].
  exact (proj1 (proj2 (handle_registration_without_participant quietEnv classroom
                         "r1" "nobody" eq_refl)) _).
Defined.

Lemma afterCall_update env c s roomId userId :
  updatedParticipant c = Some (roomId, userId) ->
  exists f,
    afterCall env c s = afterMutateParticipant roomId userId f s
    /\ forall p,
         p_userId (f p) = p_userId p /\ p_socketId (f p) = p_socketId p /\
         p_name (f p) = p_name p /\ p_role (f p) = p_role p /\
         p_joinedAt (f p) = p_joinedAt p.
Proof.
  rewrite performCall_service.
  destruct c; cbn [updatedParticipant]; try discriminate;
    intros [= -> ->]; eexists; (split; [reflexivity|]); intros p; repeat split.
Qed.

(** X3: [addTransport], [addProducer], [addConsumer] and
    [setRtpCapabilities] touch one participant only: the connection index,
    the list of rooms, the members of every room and every other participant
    are as before, and the participant keeps its user id, socket id, name,
    role and join date. *)
Theorem participant_update_frame env c s roomId userId :
  updatedParticipant c = Some (roomId, userId) ->
  let s' := afterCall env c s in
  users s' = users s
  /\ getAllRooms s' = getAllRooms s
  /\ (forall r, map p_userId (getRoomParticipants r s')
                = map p_userId (getRoomParticipants r s))
  /\ (forall r u, r <> roomId \/ u <> userId ->
                  getParticipant r u s' = getParticipant r u s)
  /\ (forall p', getParticipant roomId userId s' = Some p' ->
        exists p,
          getParticipant roomId userId s = Some p /\
          p_userId p' = p_userId p /\ p_socketId p' = p_socketId p /\
          p_name p' = p_name p /\ p_role p' = p_role p /\
          p_joinedAt p' = p_joinedAt p).
Proof.
  intros Hc. destruct (afterCall_update env c s Hc) as (f & Heq & Hf).
  cbn zeta. rewrite Heq. split; [apply users_afterMutate|].
  split; [apply rooms_keys_afterMutate|].
  split; [intros r; apply members_afterMutate; intros p; apply Hf|].
  split.
  - intros r u Hne. rewrite getParticipant_afterMutate.
    destruct (String.eqb_spec r roomId) as [->|Hr]; cbn [andb]; [|reflexivity].
    destruct (String.eqb_spec u userId) as [->|Hu]; [|reflexivity].
    destruct Hne; contradiction.
  - intros p'. rewrite getParticipant_afterMutate, !String.eqb_refl. cbn [andb].
    destruct (getParticipant roomId userId s) as [p|]; [|discriminate].
    intros [= <-]. exists p. split; [reflexivity|]. apply Hf.
Qed.

Lemma participant_update_frame_witness :
  updatedParticipant (CallSetRtpCapabilities "r1" "u1" (Some "caps"))
  = Some ("r1", "u1")
  /\ getParticipant "r1" "t1"
       (afterCall quietEnv (CallSetRtpCapabilities "r1" "u1" (Some "caps")) classroom)
     = getParticipant "r1" "t1" classroom.
Proof.
  split; [reflexivity|].
  exact (proj1 (proj2 (proj2 (proj2
           (participant_update_frame quietEnv
              (CallSetRtpCapabilities "r1" "u1" (Some "caps")) classroom eq_refl))))
           "r1" "t1" (or_intror (fun H : "t1" = "u1" => ltac:(discriminate H)))).
Defined.

(* ===================================================================== *)
(** ** Joining and leaving *)

Lemma set_same {V} k (v : V) m : JSMap.get k m = Some v -> JSMap.set k v m = m.
Proof.
  induction m as [|[k0 w] r IH]; cbn; [discriminate|].
  destruct (String.eqb_spec k k0) as [->|Hne].
  - now intros [= ->].
  - intros H. now rewrite IH.
Qed.

Lemma withParticipants_same room : withParticipants room (room_participants room) = room.
Proof. now destruct room. Qed.

Lemma getRoom_afterAdd_eq env s roomId userId socketId userInfo :
  getRoom roomId (afterAddUserToRoom env roomId userId socketId userInfo s)
  = Some (withParticipants
            (match getRoom roomId s with
             | Some r => r
             | None => freshRoom env roomId
             end)
            (JSMap.set userId (freshParticipant env userId socketId userInfo)
               (room_participants
                  (match getRoom roomId s with
                   | Some r => r
                   | None => freshRoom env roomId
                   end)))).
Proof. unfold afterAddUserToRoom, getRoom. cbn. apply get_set_eq. Qed.

(** X4: a join followed by the leave of the same socket restores the
    registry, list order included, when the socket had no entry in the
    connection index, the user was not in the room, the room was absent or
    had somebody in it, and the entry that the join writes names the room
    and the user of the call.  When the entry names another room or user,
    because [userInfo] has a [roomId] or [userId] of its own, the leave
    does not take the participant out: it stays in the room, and the socket
    has no entry any more. *)
Theorem join_then_leave_restores env env' s roomId userId socketId userInfo :
  let s' := afterCall env' (CallRemoveUserFromRoom socketId)
              (afterCall env (CallAddUserToRoom roomId userId socketId userInfo) s) in
  (getUserBySocketId socketId s = None ->
   getParticipant roomId userId s = None ->
   (forall room, getRoom roomId s = Some room ->
                 JSMap.size (room_participants room) <> 0) ->
   namesTheCall roomId userId userInfo ->
   s' = s)
  /\ (~ namesTheCall roomId userId userInfo ->
      getParticipant roomId userId s'
      = Some (freshParticipant env userId socketId userInfo)
      /\ getUserBySocketId socketId s' = None).
Proof.
  cbn zeta. rewrite !performCall_service.
  pose proof (getUser_afterAdd env s roomId userId socketId userInfo socketId) as Hu.
  rewrite String.eqb_refl in Hu.
  split.
  2:{ intros Hother. split; [|apply getUser_afterRemove].
      rewrite (getParticipant_afterRemove _ socketId roomId userId Hu).
      destruct (String.eqb_spec roomId
                  (u_roomId (indexEntry roomId userId userInfo))) as [Hr|_];
        [destruct (String.eqb_spec userId
                     (u_userId (indexEntry roomId userId userInfo))) as [Hi|_]|];
        cbn [andb];
        try (rewrite getParticipant_afterAdd, !String.eqb_refl; reflexivity).
      exfalso. apply Hother. now split. }
  intros Hsock Huser Hnonempty [Hr Hi].
  unfold afterRemoveUserFromRoom.
  unfold getUserBySocketId in Hu. rewrite Hu.
  rewrite Hr, Hi. rewrite getRoom_afterAdd_eq.
  cbn [room_participants withParticipants]. rewrite get_set_eq, delete_set.
  unfold afterAddUserToRoom. cbn [rooms users].
  rewrite !delete_set, set_set.
  unfold getUserBySocketId in Hsock. rewrite (delete_absent _ _ Hsock).
  unfold getParticipant in Huser.
  destruct (getRoom roomId s) as [room|] eqn:Er.
  - rewrite (delete_absent _ _ Huser).
    destruct (Nat.eqb_spec (JSMap.size (room_participants room)) 0) as [Hz|_];
      [now apply Hnonempty in Hz|].
    unfold withParticipants at 1. cbn [room_id room_createdAt withParticipants].
    fold (withParticipants room (room_participants room)).
    rewrite withParticipants_same, (set_same _ _ Er). now destruct s.
  - cbn. rewrite (delete_absent _ _ Er). now destruct s.
Qed.

Lemma join_then_leave_restores_witness :
  (getUserBySocketId "s2" oneTeacher = None
   /\ getParticipant "r1" "u1" oneTeacher = None
   /\ namesTheCall "r1" "u1" studentInfo
   /\ afterCall quietEnv (CallRemoveUserFromRoom "s2")
        (afterCall quietEnv (CallAddUserToRoom "r1" "u1" "s2" studentInfo)
           oneTeacher)
      = oneTeacher)
  /\ (~ namesTheCall "r1" "u2" taggedInfo
      /\ map p_userId
           (getRoomParticipants "r1"
              (afterCall quietEnv (CallRemoveUserFromRoom "s3")
                 (afterCall quietEnv (CallAddUserToRoom "r1" "u2" "s3" taggedInfo)
                    oneTeacher)))
         = ["t1"; "u2"]
      /\ getUserBySocketId "s3"
           (afterCall quietEnv (CallRemoveUserFromRoom "s3")
              (afterCall quietEnv (CallAddUserToRoom "r1" "u2" "s3" taggedInfo)
                 oneTeacher))
         = None).
Proof.
  split.
  - split; [reflexivity|]. split; [reflexivity|].
    split; [split; reflexivity|].
    apply (proj1 (join_then_leave_restores quietEnv quietEnv oneTeacher
                    "r1" "u1" "s2" studentInfo) eq_refl eq_refl).
    + intros room [= <-]. discriminate.
    + split; reflexivity.
  - assert (Hother : ~ namesTheCall "r1" "u2" taggedInfo)
      by (intros [H _]; discriminate H).
    split; [exact Hother|]. split; [reflexivity|].
    exact (proj2 (proj2 (join_then_leave_restores quietEnv quietEnv oneTeacher
                           "r1" "u2" "s3" taggedInfo) Hother)).
Defined.

Lemma closes_cleanupTrace env p : closes (cleanupTrace env p) = handlesOf p.
Proof.
  unfold cleanupTrace, handlesOf.
  rewrite !closes_app, !closes_closeTrace, !map_map. reflexivity.
Qed.

(** X5: [removeUserFromRoom] for an indexed socket returns the index entry
    and calls [close] on exactly the handles of the participant that the
    entry names, in the order consumers, producers, transports; when the
    room or the participant is not there it closes nothing. *)
Theorem removal_closes_departing_handles env s socketId user :
  getUserBySocketId socketId s = Some user ->
  let r := run (removeUserFromRoom socketId) env s in
  outcomeOf r = Normal (Some user)
  /\ closes (traceOf r)
     = match getParticipant (u_roomId user) (u_userId user) s with
       | Some participant => handlesOf participant
       | None => []
       end.
Proof.
  intros Hu. unfold run. rewrite removeUserFromRoom_run.
  cbn [outcomeOf traceOf fst snd]. split; [now rewrite Hu|].
  unfold removeTrace. unfold getUserBySocketId in Hu. rewrite Hu. cbn.
  destruct (getParticipant (u_roomId user) (u_userId user) s);
    [apply closes_cleanupTrace | reflexivity].
Qed.

Lemma removal_closes_departing_handles_witness :
  getUserBySocketId "s1" classroom
  = Some {| u_userId := "t1"; u_roomId := "r1"; u_info := teacherInfo |}
  /\ closes (traceOf (run (removeUserFromRoom "s1") quietEnv classroom))
     = [(KProducer, "p1"); (KTransport, "tr1")].
Proof.
  split; [reflexivity|].
  exact (proj2 (removal_closes_departing_handles quietEnv classroom "s1" eq_refl)).
Defined.

Lemma getRoomProducers_In s roomId x info :
  In info (getRoomProducers roomId x s) <->
  exists room participant producer,
    getRoom roomId s = Some room /\
    In (pi_userId info, participant) (JSMap.entries (room_participants room)) /\
    differs (pi_userId info) x = true /\
    In producer (JSMap.values (p_producers participant)) /\
    info = {| pi_id := producer_id producer;
              pi_kind := producer_kind producer;
              pi_userId := pi_userId info;
              pi_userName := p_name participant;
              pi_userRole := p_role participant |}.
Proof.
  unfold getRoomProducers. destruct (getRoom roomId s) as [room|].
  - rewrite in_flat_map. split.
    + intros ([u p] & He & Hin).
      destruct (differs u x) eqn:Hd; [|contradiction].
      apply in_map_iff in Hin as (producer & <- & Hp). cbn.
      now exists room, p, producer.
    + intros (room' & p & producer & [= <-] & He & Hd & Hp & ->).
      exists (pi_userId info, p). split; [exact He|]. rewrite Hd.
      apply in_map_iff. now exists producer.
  - split; [contradiction|]. intros (room & _ & _ & H & _). discriminate H.
Qed.

Lemma In_delete {V} k k' (v : V) m :
  In (k', v) (JSMap.delete k m) <-> k' <> k /\ In (k', v) m.
Proof.
  unfold JSMap.delete. rewrite filter_In. cbn.
  destruct (String.eqb_spec k k') as [->|Hne]; cbn; split.
  - intros [_ H]. discriminate H.
  - intros [H _]. contradiction.
  - intros [H _]. split; [congruence | exact H].
  - intros [_ H]. now split.
Qed.

(** X6: [removeUserFromRoom] for an indexed socket removes that socket's
    entry and the participant it names, and nothing else: the participant
    is no longer in the room, the room's producer listing has no entry of
    that user, every other participant of every room and every other index
    entry is as before. *)
Theorem removal_is_exact env s socketId user :
  getUserBySocketId socketId s = Some user ->
  let s' := afterCall env (CallRemoveUserFromRoom socketId) s in
  getUserBySocketId socketId s' = None
  /\ getParticipant (u_roomId user) (u_userId user) s' = None
  /\ (forall x info, In info (getRoomProducers (u_roomId user) x s') ->
                     pi_userId info <> u_userId user)
  /\ (forall r u, r <> u_roomId user \/ u <> u_userId user ->
                  getParticipant r u s' = getParticipant r u s)
  /\ (forall k, k <> socketId -> getUserBySocketId k s' = getUserBySocketId k s).
Proof.
  intros Hu. cbn zeta. rewrite performCall_service.
  split; [apply getUser_afterRemove|]. split; [|split; [|split]].
  - rewrite (getParticipant_afterRemove s socketId _ _ Hu), !String.eqb_refl.
    reflexivity.
  - intros x info Hin. apply getRoomProducers_In in Hin
      as (room' & p & producer & Hroom & He & _).
    pose proof (getRoom_afterRemove_same s socketId Hu) as Hsame.
    rewrite Hroom in Hsame. destruct Hsame as (_ & room & _ & Hps).
    unfold JSMap.entries in He. rewrite Hps in He.
    now apply In_delete in He.
  - intros r u Hne. rewrite (getParticipant_afterRemove s socketId _ _ Hu).
    destruct (String.eqb_spec r (u_roomId user)) as [->|Hr]; cbn [andb];
      [|reflexivity].
    destruct (String.eqb_spec u (u_userId user)) as [->|Hn]; [|reflexivity].
    destruct Hne; contradiction.
  - intros k Hne. now apply getUser_afterRemove_other.
Qed.

Lemma removal_is_exact_witness :
  getUserBySocketId "s1" classroom
  = Some {| u_userId := "t1"; u_roomId := "r1"; u_info := teacherInfo |}
  /\ getRoomProducers "r1" (Some "u1")
       (afterCall quietEnv (CallRemoveUserFromRoom "s1") classroom) = []
  /\ getParticipant "r1" "t1"
       (afterCall quietEnv (CallRemoveUserFromRoom "s1") classroom) = None.
Proof.
  split; [reflexivity|]. split; [reflexivity|].
  exact (proj1 (proj2 (removal_is_exact quietEnv classroom "s1" eq_refl))).
Defined.

(** X7: when the same user id joins a room from socket a, with an index
    entry that names the room and the user of the call, and then from
    socket b, the removal of socket a takes the participant that b created
    out of the room, while the index entry of b stays; when that entry
    names the room and the user of the call too, it names a participant
    that is no longer there. *)
Theorem stale_socket_removes_newer_participant
    env1 env2 env3 s roomId userId a b info1 info2 :
  a <> b ->
  namesTheCall roomId userId info1 ->
  let s' := afterCalls
              [(env1, CallAddUserToRoom roomId userId a info1);
               (env2, CallAddUserToRoom roomId userId b info2);
               (env3, CallRemoveUserFromRoom a)] s in
  getParticipant roomId userId s' = None
  /\ getUserBySocketId b s' = Some (indexEntry roomId userId info2)
  /\ (namesTheCall roomId userId info2 -> refersTo s' roomId userId b).
Proof.
  intros Hab [Hr1 Hi1]. cbn. rewrite !performCall_service.
  set (s1 := afterAddUserToRoom env1 roomId userId a info1 s).
  set (s2 := afterAddUserToRoom env2 roomId userId b info2 s1).
  assert (Ha : getUserBySocketId a s2 = Some (indexEntry roomId userId info1)).
  { unfold s2. rewrite getUser_afterAdd.
    destruct (String.eqb_spec a b) as [E|_]; [contradiction|].
    unfold s1. now rewrite getUser_afterAdd, String.eqb_refl. }
  assert (Hb : getUserBySocketId b (afterRemoveUserFromRoom a s2)
               = Some (indexEntry roomId userId info2)).
  { rewrite getUser_afterRemove_other by congruence.
    unfold s2. now rewrite getUser_afterAdd, String.eqb_refl. }
  split; [|split; [exact Hb|]].
  - rewrite (getParticipant_afterRemove s2 a roomId userId Ha).
    now rewrite Hr1, Hi1, !String.eqb_refl.
  - intros [Hr2 Hi2]. exists (indexEntry roomId userId info2).
    now repeat split.
Qed.

Lemma stale_socket_removes_newer_participant_witness :
  "s1" <> "s2"
  /\ getParticipant "r1" "u1"
       (afterCalls [(quietEnv, CallAddUserToRoom "r1" "u1" "s1" studentInfo);
                    (quietEnv, CallAddUserToRoom "r1" "u1" "s2" studentInfo);
                    (quietEnv, CallRemoveUserFromRoom "s1")] emptyService)
     = None.
Proof.
  split; [discriminate|].
  exact (proj1 (@stale_socket_removes_newer_participant quietEnv quietEnv quietEnv
                  emptyService "r1" "u1" "s1" "s2" studentInfo studentInfo
                  (fun H : "s1" = "s2" => ltac:(discriminate H))
                  (conj eq_refl eq_refl))).
Defined.

(** X8: when one socket joins room A and then room B, the second time
    with an index entry that names the room and the user of the call, its
    index entry names B only; the removal of the socket takes the
    participant out of B and leaves the participant in A, which no index
    entry names any more. *)
Theorem second_join_leaves_ghost_participant
    env1 env2 env3 s roomA roomB userId socketId info :
  roomA <> roomB ->
  namesTheCall roomB userId info ->
  let s' := afterCalls
              [(env1, CallAddUserToRoom roomA userId socketId info);
               (env2, CallAddUserToRoom roomB userId socketId info);
               (env3, CallRemoveUserFromRoom socketId)] s in
  getParticipant roomA userId s'
  = Some (freshParticipant env1 userId socketId info)
  /\ getParticipant roomB userId s' = None
  /\ getUserBySocketId socketId s' = None.
Proof.
  intros Hab [Hr Hi]. cbn. rewrite !performCall_service.
  set (s1 := afterAddUserToRoom env1 roomA userId socketId info s).
  set (s2 := afterAddUserToRoom env2 roomB userId socketId info s1).
  assert (Hu : getUserBySocketId socketId s2 = Some (indexEntry roomB userId info)).
  { unfold s2. now rewrite getUser_afterAdd, String.eqb_refl. }
  split; [|split].
  - rewrite (getParticipant_afterRemove s2 socketId roomA userId Hu).
    rewrite Hr, Hi.
    destruct (String.eqb_spec roomA roomB) as [E|_]; [contradiction|]. cbn.
    unfold s2. rewrite getParticipant_afterAdd.
    destruct (String.eqb_spec roomA roomB) as [E|_]; [contradiction|]. cbn.
    unfold s1. now rewrite getParticipant_afterAdd, !String.eqb_refl.
  - rewrite (getParticipant_afterRemove s2 socketId roomB userId Hu).
    now rewrite Hr, Hi, !String.eqb_refl.
  - apply getUser_afterRemove.
Qed.

Lemma second_join_leaves_ghost_participant_witness :
  "r1" <> "r2"
  /\ getParticipant "r1" "u1"
       (afterCalls [(quietEnv, CallAddUserToRoom "r1" "u1" "s2" studentInfo);
                    (quietEnv, CallAddUserToRoom "r2" "u1" "s2" studentInfo);
                    (quietEnv, CallRemoveUserFromRoom "s2")] emptyService)
     = Some (freshParticipant quietEnv "u1" "s2" studentInfo).
Proof.
  split; [discriminate|].
  exact (proj1 (@second_join_leaves_ghost_participant quietEnv quietEnv quietEnv
                  emptyService "r1" "r2" "u1" "s2" studentInfo
                  (fun H : "r1" = "r2" => ltac:(discriminate H))
                  (conj eq_refl eq_refl))).
Defined.

(* ===================================================================== *)
(** ** Statistics and the list of rooms *)

Lemma size_set {V} k (v : V) m :
  JSMap.size (JSMap.set k v m)
  = if JSMap.has k m then JSMap.size m else S (JSMap.size m).
Proof.
  unfold JSMap.size, JSMap.has.
  induction m as [|[k0 w] r IH]; cbn; [reflexivity|].
  destruct (String.eqb_spec k k0) as [->|Hne]; cbn; [reflexivity|].
  rewrite IH. now destruct (JSMap.get k r).
Qed.

Lemma In_keys_get {V} k (m : JSMap.t V) :
  In k (JSMap.keys m) <-> exists v, JSMap.get k m = Some v.
Proof.
  unfold JSMap.keys. induction m as [|[k0 w] r IH]; cbn.
  - split; [contradiction | intros [v H]; discriminate H].
  - destruct (String.eqb_spec k k0) as [->|Hne].
    + split; [intros _; now exists w | intros _; now left].
    + rewrite <- IH. split; [intros [H|H]; [congruence | exact H] | now right].
Qed.

Lemma keys_delete_incl {V} k k' (m : JSMap.t V) :
  In k' (JSMap.keys (JSMap.delete k m)) -> In k' (JSMap.keys m).
Proof.
  unfold JSMap.keys. rewrite !in_map_iff.
  intros ([k0 v] & <- & Hin). apply In_delete in Hin as [_ Hin].
  now exists (k0, v).
Qed.

(** X9: [getRoomStats] answers null exactly for the rooms that do not
    exist; after [addUserToRoom] it reports the room under the given id
    with as many participant records as its count, and the count is one for
    a new room, one more than before for a user id new to the room, and the
    same as before for a user id that was already in it. *)
Theorem stats_after_join env s roomId userId socketId userInfo :
  (getRoomStats roomId s = None <-> roomExists roomId s = false)
  /\ exists st',
       getRoomStats roomId
         (afterCall env (CallAddUserToRoom roomId userId socketId userInfo) s)
       = Some st'
       /\ rs_roomId st' = roomId
       /\ length (rs_participants st') = rs_participantCount st'
       /\ rs_participantCount st'
          = match getRoomStats roomId s with
            | None => 1
            | Some st =>
                match getParticipant roomId userId s with
                | Some _ => rs_participantCount st
                | None => S (rs_participantCount st)
                end
            end.
Proof.
  split.
  - unfold getRoomStats, roomExists, JSMap.has, getRoom.
    destruct (JSMap.get roomId (rooms s)); split; congruence.
  - rewrite performCall_service. unfold getRoomStats at 1.
    rewrite getRoom_afterAdd_eq. eexists. split; [reflexivity|].
    cbn [rs_roomId rs_participants rs_participantCount room_participants
         withParticipants].
    split; [reflexivity|]. split.
    + unfold JSMap.values, JSMap.size. now rewrite !length_map.
    + rewrite size_set. unfold getRoomStats, getParticipant, JSMap.has.
      destruct (getRoom roomId s) as [room|]; [|reflexivity].
      cbn [rs_participantCount].
      now destruct (JSMap.get userId (room_participants room)).
Qed.

(** X10: [getAllRooms] lists exactly the room ids for which [roomExists]
    holds; [addUserToRoom] keeps the list when the room exists and appends
    the room id to it otherwise; [removeUserFromRoom] and the four
    participant updates never add a room id to it. *)
Theorem rooms_listing :
  (forall s roomId, In roomId (getAllRooms s) <-> roomExists roomId s = true)
  /\ (forall env s roomId userId socketId userInfo,
        getAllRooms
          (afterCall env (CallAddUserToRoom roomId userId socketId userInfo) s)
        = if roomExists roomId s then getAllRooms s else getAllRooms s ++ [roomId])
  /\ (forall env s c roomId,
        match c with
        | CallCreateRoom _ | CallAddUserToRoom _ _ _ _ => False
        | _ => True
        end ->
        In roomId (getAllRooms (afterCall env c s)) -> In roomId (getAllRooms s)).
Proof.
  split; [|split].
  - intros s roomId. unfold getAllRooms, roomExists. rewrite In_keys_get.
    symmetry. apply has_true.
  - intros. rewrite performCall_service.
    unfold getAllRooms, roomExists, JSMap.has, afterAddUserToRoom, getRoom.
    cbn [rooms].
    destruct (JSMap.get roomId (rooms s)) as [room|] eqn:Er.
    + eapply keys_set_present, Er.
    + now apply keys_set_absent.
  - intros env s c roomId Hc.
    destruct c; try contradiction; rewrite performCall_service;
      try (now rewrite rooms_keys_afterMutate).
    unfold afterRemoveUserFromRoom, getAllRooms.
    destruct (JSMap.get socketId (users s)) as [user|]; [|auto]. cbn [rooms].
    destruct (getRoom (u_roomId user) s) as [room|] eqn:Er; [|auto].
    destruct (JSMap.get (u_userId user) (room_participants room));
      destruct (Nat.eqb _ 0);
      first [ apply keys_delete_incl
            | now rewrite (keys_set_present _ _ _ Er)
            | exact (fun H => H) ].
Qed.

(* ===================================================================== *)
(** ** Keys and ids *)

Lemma In_set {V} k (v : V) k' v' m :
  In (k', v') (JSMap.set k v m) -> (k', v') = (k, v) \/ In (k', v') m.
Proof.
  induction m as [|[k0 w] r IH]; cbn.
  - intros [H|[]]. now left.
  - destruct (String.eqb k k0); cbn.
    + intros [H|H]; [now left | right; now right].
    + intros [H|H]; [right; now left|].
      destruct (IH H) as [E|E]; [now left | right; now right].
Qed.

Lemma uniqueKeys_set {V} k (v : V) m : uniqueKeys m -> uniqueKeys (JSMap.set k v m).
Proof.
  unfold uniqueKeys. intros H.
  destruct (JSMap.get k m) as [v0|] eqn:E.
  - now rewrite (@keys_set_present _ k v v0 m E).
  - rewrite (@keys_set_absent _ k v m E).
    apply NoDup_app; [exact H | repeat constructor; intros [] |].
    intros x Hx [<-|[]]. apply In_keys_get in Hx as [w Hw]. congruence.
Qed.

Lemma uniqueKeys_delete {V} k (m : JSMap.t V) :
  uniqueKeys m -> uniqueKeys (JSMap.delete k m).
Proof.
  unfold uniqueKeys, JSMap.keys, JSMap.delete.
  induction m as [|[k0 w] r IH]; cbn; [trivial|].
  intros H. inversion H as [|x l Hnotin Hnd]; subst.
  destruct (negb (String.eqb k k0)); cbn; [|now apply IH].
  constructor; [|now apply IH].
  intros Hin. apply Hnotin. apply in_map_iff in Hin as ([k1 v1] & <- & Hf).
  apply filter_In in Hf as [Hf _]. apply in_map_iff. now exists (k1, v1).
Qed.

Lemma unique_In_get {V} k (v : V) m :
  uniqueKeys m -> In (k, v) m -> JSMap.get k m = Some v.
Proof.
  unfold uniqueKeys, JSMap.keys.
  induction m as [|[k0 w] r IH]; cbn; [contradiction|].
  intros H Hin. inversion H as [|x l Hnotin Hnd]; subst.
  destruct (String.eqb_spec k k0) as [->|Hne].
  - destruct Hin as [[= ->]|Hin]; [reflexivity|].
    exfalso. apply Hnotin. apply in_map_iff. now exists (k0, v).
  - destruct Hin as [[= -> _]|Hin]; [contradiction | now apply IH].
Qed.

Lemma keyedBy_set {V} (f : V -> string) k v m :
  keyedBy f m -> f v = k -> keyedBy f (JSMap.set k v m).
Proof.
  intros H Hv k' v' Hin. apply In_set in Hin as [[= -> ->]|Hin]; auto.
Qed.

Lemma keyedBy_delete {V} (f : V -> string) k m :
  keyedBy f m -> keyedBy f (JSMap.delete k m).
Proof. intros H k' v' Hin. apply In_delete in Hin as [_ Hin]. auto. Qed.

Lemma wellKeyedParticipant_fresh env userId socketId userInfo :
  wellKeyedParticipant (freshParticipant env userId socketId userInfo).
Proof.
  unfold wellKeyedParticipant, uniqueKeys, keyedBy. cbn.
  repeat split; first [constructor | intros k v []].
Qed.

Lemma wellKeyedRoom_set room userId p :
  wellKeyedRoom room -> wellKeyedParticipant p -> p_userId p = userId ->
  wellKeyedRoom (withParticipants room (JSMap.set userId p (room_participants room))).
Proof.
  intros (Hu & Hk & Hp) Hwp Hid. unfold wellKeyedRoom. cbn.
  split; [now apply uniqueKeys_set|]. split; [now apply keyedBy_set|].
  intros u q Hin. apply In_set in Hin as [[= -> ->]|Hin]; eauto.
Qed.

Lemma wellKeyedRoom_delete room userId :
  wellKeyedRoom room ->
  wellKeyedRoom (withParticipants room (JSMap.delete userId (room_participants room))).
Proof.
  intros (Hu & Hk & Hp). unfold wellKeyedRoom. cbn.
  split; [now apply uniqueKeys_delete|]. split; [now apply keyedBy_delete|].
  intros u q Hin. apply In_delete in Hin as [_ Hin]. eauto.
Qed.

Lemma wellKeyed_set_room s roomId room rest :
  wellKeyed s -> wellKeyedRoom room -> room_id room = roomId ->
  uniqueKeys rest ->
  wellKeyed {| rooms := JSMap.set roomId room (rooms s); users := rest |}.
Proof.
  intros (Hu & _ & Hk & Hr) Hroom Hid Hrest. unfold wellKeyed. cbn.
  split; [now apply uniqueKeys_set|]. split; [exact Hrest|].
  split; [now apply keyedBy_set|].
  intros r q Hin. apply In_set in Hin as [[= -> ->]|Hin]; eauto.
Qed.

Lemma wellKeyed_getRoom s roomId room :
  wellKeyed s -> getRoom roomId s = Some room ->
  wellKeyedRoom room /\ room_id room = roomId.
Proof.
  intros (_ & _ & Hk & Hr) Hget. apply get_In in Hget. split; eauto.
Qed.

Lemma wellKeyedRoom_fresh env roomId : wellKeyedRoom (freshRoom env roomId).
Proof.
  unfold wellKeyedRoom, uniqueKeys, keyedBy. cbn.
  split; [constructor|]. split; intros k v [].
Qed.

Lemma wellKeyed_afterCreate env s roomId :
  wellKeyed s -> wellKeyed (afterCreateRoom env roomId s).
Proof.
  intros H. unfold afterCreateRoom.
  destruct (JSMap.has roomId (rooms s)); [exact H|].
  apply wellKeyed_set_room;
    [exact H | apply wellKeyedRoom_fresh | reflexivity | apply H].
Qed.

Lemma wellKeyed_afterAdd env s roomId userId socketId userInfo :
  wellKeyed s -> wellKeyed (afterAddUserToRoom env roomId userId socketId userInfo s).
Proof.
  intros H. unfold afterAddUserToRoom.
  apply wellKeyed_set_room; [exact H | | | apply uniqueKeys_set, H].
  - apply wellKeyedRoom_set;
      [| apply wellKeyedParticipant_fresh | reflexivity].
    destruct (getRoom roomId s) as [room|] eqn:Er.
    + eapply wellKeyed_getRoom; eassumption.
    + apply wellKeyedRoom_fresh.
  - cbn. destruct (getRoom roomId s) as [room|] eqn:Er; [|reflexivity].
    eapply wellKeyed_getRoom; eassumption.
Qed.

Lemma wellKeyed_delete_room s roomId rest :
  wellKeyed s -> uniqueKeys rest ->
  wellKeyed {| rooms := JSMap.delete roomId (rooms s); users := rest |}.
Proof.
  intros (Hu & _ & Hk & Hr) Hrest. unfold wellKeyed. cbn.
  split; [now apply uniqueKeys_delete|]. split; [exact Hrest|].
  split; [now apply keyedBy_delete|].
  intros r q Hin. apply In_delete in Hin as [_ Hin]. eauto.
Qed.

Lemma wellKeyed_users s rest :
  wellKeyed s -> uniqueKeys rest ->
  wellKeyed {| rooms := rooms s; users := rest |}.
Proof.
  intros (Hu & _ & Hk & Hr) Hrest. unfold wellKeyed. cbn.
  split; [exact Hu|]. split; [exact Hrest|]. split; [exact Hk | exact Hr].
Qed.

Lemma wellKeyed_afterRemove s socketId :
  wellKeyed s -> wellKeyed (afterRemoveUserFromRoom socketId s).
Proof.
  intros H. unfold afterRemoveUserFromRoom.
  destruct (JSMap.get socketId (users s)) as [user|]; [|exact H].
  assert (Hrest : uniqueKeys (JSMap.delete socketId (users s)))
    by apply uniqueKeys_delete, H.
  destruct (getRoom (u_roomId user) s) as [room|] eqn:Er.
  - destruct (wellKeyed_getRoom _ H Er) as [Hroom Hid].
    destruct (JSMap.get (u_userId user) (room_participants room));
      destruct (Nat.eqb _ 0);
      try (now apply wellKeyed_delete_room).
    + apply wellKeyed_set_room; auto using wellKeyedRoom_delete.
    + now apply wellKeyed_users.
  - now apply wellKeyed_users.
Qed.

Lemma wellKeyed_afterMutate s roomId userId f :
  (forall p, p_userId (f p) = p_userId p) ->
  (forall p, wellKeyedParticipant p -> wellKeyedParticipant (f p)) ->
  wellKeyed s -> wellKeyed (afterMutateParticipant roomId userId f s).
Proof.
  intros Hid Hf H. unfold afterMutateParticipant.
  destruct (getRoom roomId s) as [room|] eqn:Er; [|exact H].
  destruct (JSMap.get userId (room_participants room)) as [p|] eqn:Ep; [|exact H].
  destruct (wellKeyed_getRoom _ H Er) as [Hroom Hrid].
  apply wellKeyed_set_room; [exact H | | exact Hrid | apply H].
  apply get_In in Ep. pose proof Hroom as (Hu & Hk & Hp).
  apply wellKeyedRoom_set; [exact Hroom | eauto |].
  rewrite Hid. eauto.
Qed.

Lemma wellKeyed_afterCall env c s : wellKeyed s -> wellKeyed (afterCall env c s).
Proof.
  intros H. rewrite performCall_service. destruct c.
  - now apply wellKeyed_afterCreate.
  - now apply wellKeyed_afterAdd.
  - now apply wellKeyed_afterRemove.
  - apply wellKeyed_afterMutate; [reflexivity | | exact H].
    intros p (Ht & Hkt & Hrest). unfold wellKeyedParticipant. cbn.
    split; [now apply uniqueKeys_set|]. split; [now apply keyedBy_set|]. exact Hrest.
  - apply wellKeyed_afterMutate; [reflexivity | | exact H].
    intros p (Ht & Hkt & Hp & Hkp & Hrest). unfold wellKeyedParticipant. cbn.
    repeat split; try assumption; try apply Hrest;
      [now apply uniqueKeys_set | now apply keyedBy_set].
  - apply wellKeyed_afterMutate; [reflexivity | | exact H].
    intros p (Ht & Hkt & Hp & Hkp & Hc & Hkc). unfold wellKeyedParticipant. cbn.
    repeat split; try assumption;
      [now apply uniqueKeys_set | now apply keyedBy_set].
  - apply wellKeyed_afterMutate; [reflexivity | | exact H].
    intros p Hp. exact Hp.
Qed.

Lemma wellKeyed_emptyService : wellKeyed emptyService.
Proof.
  unfold wellKeyed, uniqueKeys, keyedBy. cbn.
  split; [constructor|]. split; [constructor|]. split; intros k v [].
Qed.

Lemma wellKeyed_afterCalls cs s : wellKeyed s -> wellKeyed (afterCalls cs s).
Proof.
  revert s. induction cs as [|[env c] cs IH]; intros s Hs; [exact Hs|].
  cbn. apply IH. now apply wellKeyed_afterCall.
Qed.

(** X11: after every sequence of calls on the registry, starting from the
    empty one, rooms are stored under their own id, participants under their
    own user id, transports, producers and consumers under their own handle
    id, and no map holds a key twice. *)
Theorem registry_is_well_keyed cs : wellKeyed (afterCalls cs emptyService).
Proof. apply wellKeyed_afterCalls, wellKeyed_emptyService. Qed.

(** X12: in every registry reached by calls from the empty one, each
    entry of [getRoomProducers] can be looked up: [getProducer] with the
    entry's owner and id returns the producer with that id and kind, and the
    owner is a participant of the room with the listed name and role who is
    not the excluded user. *)
Theorem listed_producers_can_be_found cs roomId x info :
  let s := afterCalls cs emptyService in
  In info (getRoomProducers roomId x s) ->
  getProducer roomId (pi_userId info) (pi_id info) s
  = Some {| producer_id := pi_id info; producer_kind := pi_kind info |}
  /\ differs (pi_userId info) x = true
  /\ exists participant,
       getParticipant roomId (pi_userId info) s = Some participant
       /\ p_userId participant = pi_userId info
       /\ p_name participant = pi_userName info
       /\ p_role participant = pi_userRole info.
Proof.
  cbn zeta. intros Hin.
  pose proof (wellKeyed_afterCalls cs wellKeyed_emptyService) as Hwk.
  apply getRoomProducers_In in Hin
    as (room & p & producer & Hroom & He & Hd & Hp & Hinfo).
  destruct (wellKeyed_getRoom _ Hwk Hroom) as [(Hu & Hk & Hparts) _].
  destruct (Hparts _ _ He) as (_ & _ & Hup & Hkp & _).
  assert (Hget : JSMap.get (pi_userId info) (room_participants room) = Some p)
    by now apply unique_In_get.
  unfold JSMap.values in Hp. apply in_map_iff in Hp as ([k q] & Hq & Hinq).
  cbn in Hq. subst q.
  assert (Hkey : producer_id producer = k) by now apply Hkp.
  assert (Hgp : JSMap.get k (p_producers p) = Some producer)
    by now apply unique_In_get.
  rewrite Hinfo. cbn [pi_id pi_kind pi_userId pi_userName pi_userRole].
  unfold getProducer, getParticipant. rewrite Hroom, Hget, Hkey, Hgp.
  split; [subst k; now destruct producer|]. split; [exact Hd|].
  exists p. repeat split. now apply Hk.
Qed.

Lemma listed_producers_can_be_found_witness :
  In {| pi_id := "p1"; pi_kind := "video"; pi_userId := "t1";
        pi_userName := "Ada"; pi_userRole := "teacher" |}
     (getRoomProducers "r1" (Some "u1") (afterCalls classroomCalls emptyService))
  /\ getProducer "r1" "t1" "p1" (afterCalls classroomCalls emptyService)
     = Some {| producer_id := "p1"; producer_kind := "video" |}.
Proof.
  assert (H : In {| pi_id := "p1"; pi_kind := "video"; pi_userId := "t1";
                    pi_userName := "Ada"; pi_userRole := "teacher" |}
                 (getRoomProducers "r1" (Some "u1")
                    (afterCalls classroomCalls emptyService)))
    by (left; reflexivity).
  split; [exact H|].
  exact (proj1 (listed_producers_can_be_found classroomCalls "r1" (Some "u1") _ H)).
Defined.

(* ===================================================================== *)
(** ** Runs of the media handlers *)

Import Media.

Lemma run_Jx_bind {A B} (m : Jx A) (f : A -> Jx B) env s :
  Jx_bind m f env s =
  match m env s with
  | (Normal a, s1, t1) =>
      match f a env s1 with (o, s2, t2) => (o, s2, t1 ++ t2) end
  | (Throw e, s1, t1) => (Throw e, s1, t1)
  end.
Proof. reflexivity. Qed.

Lemma addTransport_run env s roomId userId transport :
  addTransport roomId userId transport env s
  = (Normal tt,
     afterMutateParticipant roomId userId (fun p => withTransport p transport) s,
     [EvRegistry (MAddTransport roomId userId (transport_id transport))]).
Proof.
  unfold addTransport. rewrite run_bind. cbn [tell].
  now rewrite mutateParticipant_run.
Qed.

Lemma addProducer_run env s roomId userId producer :
  addProducer roomId userId producer env s
  = (Normal tt,
     afterMutateParticipant roomId userId (fun p => withProducer p producer) s,
     [EvRegistry (MAddProducer roomId userId (producer_id producer))]).
Proof.
  unfold addProducer. rewrite run_bind. cbn [tell].
  now rewrite mutateParticipant_run.
Qed.

Lemma setRtpCapabilities_run env s roomId userId caps :
  setRtpCapabilities roomId userId caps env s
  = (Normal tt,
     afterMutateParticipant roomId userId (fun p => withRtpCapabilities p caps) s,
     []).
Proof. unfold setRtpCapabilities. apply mutateParticipant_run. Qed.

Ltac jx_eval :=
  repeat (cbn;
          first [ rewrite run_Jx_bind
                | rewrite addTransport_run
                | rewrite addProducer_run
                | rewrite setRtpCapabilities_run
                | progress unfold Jx_catch
                | progress unfold liftJs ]);
  cbn.

Example produce_reaches_the_others :
  runX (on_produce teacherSocket
          (Some {| pd_transportId := "tr1"; pd_kind := "audio";
                   pd_rtpParameters := "opus"; pd_appData := None |}) AckFunction)
       quietEnvX classroom
  = (Normal tt,
     afterCall quietEnv
       (CallAddProducer "r1" "t1" {| producer_id := "pw"; producer_kind := "audio" |})
       classroom,
     [EvTransportProduce "tr1"
        {| po_kind := "audio"; po_rtpParameters := "opus"; po_appData := None;
           po_userId := "t1"; po_userName := "Ada" |};
      Old (EvRegistry (MAddProducer "r1" "t1" "pw"));
      Old (EvConsole LLog "Producer created: pw (audio) by Ada" None);
      EvAckX (AckProduced "pw");
      EvEmitNewProducer (SocketTo "r1") "t1" "Ada" "teacher" "pw" "audio"]).
Proof. reflexivity. Qed.

Ltac unfold_externals :=
  unfold canUserAccessRoom, getRouterRtpCapabilities, getRouter, canConsume,
    transportConsume, getScheduleByRoomId, messagesAdd, createWebRtcTransport,
    transportConnect, transportProduce, consumerResume, external, externalX,
    callback, callbackX, consoleError, consoleLog, consoleWarn, emit,
    emitNewProducer, destructure, tell in *.

Ltac handler_eval :=
  repeat first [ progress jx_eval | progress js_eval | progress unfold_externals
               | rewrite addConsumer_run ].

(** X13: a request of one of the eight kinds that need a room, sent with
    its payload and an acknowledgement function by a socket that has no
    entry in the connection index, is answered with the error that the user
    is in no room, and with nothing else: no engine call, no registry call,
    no emit, the registry as before. *)
Theorem not_joined_is_refused envx s socket req :
  getUserBySocketId (socket_id socket) s = None ->
  needsRoom req = true ->
  callbackOf req = Some AckFunction ->
  runX (handleX socket req) envx s
  = (Normal tt, s, [Old (EvAck (AckError "User not found in any room"))]).
Proof.
  intros Hnone Hreq Hcb. unfold runX.
  destruct req as [[data cb|data cb|[d|] cb|[text|] cb|cb|]
                  |cb|[d|] cb|[d|] cb|[c|] cb|cb|[caps|] cb];
    try discriminate Hreq; cbn in Hcb; injection Hcb as ->;
    cbn [handleX handle];
    unfold on_consume, on_chat_message, on_createWebRtcTransport,
      on_connectTransport, on_produce, on_resumeConsumer, on_getProducers,
      on_setRtpCapabilities;
    handler_eval; rewrite Hnone; handler_eval; reflexivity.
Qed.

Lemma not_joined_is_refused_witness :
  getUserBySocketId "s9" classroom = None
  /\ runX (handleX {| socket_id := "s9"; socket_user := studentInfo |}
             (ReqProduce (Some {| pd_transportId := "tr1"; pd_kind := "audio";
                                  pd_rtpParameters := "opus"; pd_appData := None |})
                AckFunction))
          quietEnvX classroom
     = (Normal tt, classroom,
        [Old (EvAck (AckError "User not found in any room"))]).
Proof.
  split; [reflexivity|].
  exact (not_joined_is_refused quietEnvX classroom
           {| socket_id := "s9"; socket_user := studentInfo |}
           (ReqProduce (Some {| pd_transportId := "tr1"; pd_kind := "audio";
                                pd_rtpParameters := "opus"; pd_appData := None |})
              AckFunction)
           eq_refl eq_refl eq_refl).
Defined.

(** X14: for a socket that is in a room, connectTransport, produce and
    consume with a transport id that the participant does not hold, and
    resumeConsumer with a consumer id that it does not hold, sent with an
    acknowledgement function, are answered with the not-found error of the
    handle and with nothing else: the engine is not called and the registry
    is as before. *)
Theorem unknown_handle_is_refused envx s socket user :
  getUserBySocketId (socket_id socket) s = Some user ->
  (forall d,
     getTransport (u_roomId user) (u_userId user) (ct_transportId d) s = None ->
     runX (on_connectTransport socket (Some d) AckFunction) envx s
     = (Normal tt, s, [Old (EvAck (AckError "Transport not found"))]))
  /\ (forall d,
        getTransport (u_roomId user) (u_userId user) (pd_transportId d) s = None ->
        runX (on_produce socket (Some d) AckFunction) envx s
        = (Normal tt, s, [Old (EvAck (AckError "Transport not found"))]))
  /\ (forall d,
        getTransport (u_roomId user) (u_userId user) (cd_transportId d) s = None ->
        run (on_consume socket (Some d) AckFunction) (base envx) s
        = (Normal tt, s, [EvAck (AckError "Transport not found")]))
  /\ (forall consumerId,
        getConsumer (u_roomId user) (u_userId user) consumerId s = None ->
        runX (on_resumeConsumer socket (Some consumerId) AckFunction) envx s
        = (Normal tt, s, [Old (EvAck (AckError "Consumer not found"))])).
Proof.
  intros Hu. repeat split; intros d Hd; unfold runX, run;
    unfold on_connectTransport, on_produce, on_consume, on_resumeConsumer;
    handler_eval; rewrite Hu; handler_eval; rewrite Hd; handler_eval;
    reflexivity.
Qed.

Lemma unknown_handle_is_refused_witness :
  getUserBySocketId "s2" classroom
  = Some {| u_userId := "u1"; u_roomId := "r1"; u_info := studentInfo |}
  /\ getTransport "r1" "u1" "tr1" classroom = None
  /\ runX (on_connectTransport studentSocket
             (Some {| ct_transportId := "tr1"; ct_dtlsParameters := "dtls" |})
             AckFunction)
          quietEnvX classroom
     = (Normal tt, classroom, [Old (EvAck (AckError "Transport not found"))]).
Proof.
  split; [reflexivity|]. split; [reflexivity|].
  exact (proj1 (unknown_handle_is_refused quietEnvX classroom studentSocket eq_refl)
           {| ct_transportId := "tr1"; ct_dtlsParameters := "dtls" |} eq_refl).
Defined.

(** X15: when the engine call of createWebRtcTransport, connectTransport,
    produce or resumeConsumer throws, the handler logs the error and answers
    with its own failure message, through the acknowledgement function of
    the request; nothing is stored and nothing is emitted: the registry is
    as before. *)
Theorem engine_failure_is_reported envx s socket user e :
  getUserBySocketId (socket_id socket) s = Some user ->
  (mediasoup_createWebRtcTransport envx = Throw e ->
   runX (on_createWebRtcTransport socket AckFunction) envx s
   = (Normal tt, s,
      [EvCreateWebRtcTransport;
       Old (EvConsole LError "Error creating WebRTC transport:" (Some e));
       Old (EvAck (AckError "Failed to create WebRTC transport"))]))
  /\ (forall d transport,
        getTransport (u_roomId user) (u_userId user) (ct_transportId d) s
        = Some transport ->
        transport_connect envx (transport_id transport) (ct_dtlsParameters d)
        = Throw e ->
        runX (on_connectTransport socket (Some d) AckFunction) envx s
        = (Normal tt, s,
           [EvTransportConnect (transport_id transport) (ct_dtlsParameters d);
            Old (EvConsole LError "Error connecting transport:" (Some e));
            Old (EvAck (AckError "Failed to connect transport"))]))
  /\ (forall d transport,
        getTransport (u_roomId user) (u_userId user) (pd_transportId d) s
        = Some transport ->
        let options := {| po_kind := pd_kind d;
                          po_rtpParameters := pd_rtpParameters d;
                          po_appData := pd_appData d;
                          po_userId := u_userId user;
                          po_userName := name (u_info user) |} in
        transport_produce envx (transport_id transport) options = Throw e ->
        runX (on_produce socket (Some d) AckFunction) envx s
        = (Normal tt, s,
           [EvTransportProduce (transport_id transport) options;
            Old (EvConsole LError "Error creating producer:" (Some e));
            Old (EvAck (AckError "Failed to create producer"))]))
  /\ (forall consumerId consumer,
        getConsumer (u_roomId user) (u_userId user) consumerId s = Some consumer ->
        consumer_resume envx (consumer_id consumer) = Throw e ->
        runX (on_resumeConsumer socket (Some consumerId) AckFunction) envx s
        = (Normal tt, s,
           [EvConsumerResume (consumer_id consumer);
            Old (EvConsole LError "Error resuming consumer:" (Some e));
            Old (EvAck (AckError "Failed to resume consumer"))])).
Proof.
  intros Hu. split; [|split; [|split]].
  - intros He. unfold runX, on_createWebRtcTransport. handler_eval.
    rewrite Hu. handler_eval. rewrite He. reflexivity.
  - intros d transport Ht He. unfold runX, on_connectTransport. handler_eval.
    rewrite Hu. handler_eval. rewrite Ht. handler_eval. rewrite He. reflexivity.
  - intros d transport Ht options He. unfold runX, on_produce. handler_eval.
    rewrite Hu. handler_eval. rewrite Ht. handler_eval.
    fold options. rewrite He. reflexivity.
  - intros c consumer Hc He. unfold runX, on_resumeConsumer. handler_eval.
    rewrite Hu. handler_eval. rewrite Hc. handler_eval. rewrite He. reflexivity.
Qed.

Lemma engine_failure_is_reported_witness :
  getUserBySocketId "s1" classroom
  = Some {| u_userId := "t1"; u_roomId := "r1"; u_info := teacherInfo |}
  /\ mediasoup_createWebRtcTransport brokenEnvX = Throw "no ports"
  /\ runX (on_createWebRtcTransport teacherSocket AckFunction) brokenEnvX classroom
     = (Normal tt, classroom,
        [EvCreateWebRtcTransport;
         Old (EvConsole LError "Error creating WebRTC transport:" (Some "no ports"));
         Old (EvAck (AckError "Failed to create WebRTC transport"))]).
Proof.
  split; [reflexivity|]. split; [reflexivity|].
  exact (proj1 (@engine_failure_is_reported brokenEnvX classroom teacherSocket
                  _ "no ports" eq_refl) eq_refl).
Defined.

Lemma getRoom_afterMutate_present s roomId userId f room p :
  getRoom roomId s = Some room ->
  JSMap.get userId (room_participants room) = Some p ->
  getRoom roomId (afterMutateParticipant roomId userId f s)
  = Some (withParticipants room
            (JSMap.set userId (f p) (room_participants room))).
Proof.
  intros Hr Hp. unfold afterMutateParticipant. rewrite Hr, Hp.
  unfold getRoom. cbn. apply get_set_eq.
Qed.

(** X16: a produce request of a participant on one of its transports, sent
    with an acknowledgement function, when the engine returns a producer,
    stores the producer under the participant, answers with the producer's
    id and emits one newProducer event, addressed to the other sockets of
    the room, with the requested kind.  Afterwards the producer is found by [getProducer], appears in the
    producer list of every other user of the room with the engine's kind,
    and no entry of its owner appears in the owner's own list. *)
Theorem produce_publishes_to_the_others envx s socket user room participant
    d transport producer :
  getUserBySocketId (socket_id socket) s = Some user ->
  getRoom (u_roomId user) s = Some room ->
  JSMap.get (u_userId user) (room_participants room) = Some participant ->
  JSMap.get (pd_transportId d) (p_transports participant) = Some transport ->
  transport_produce envx (transport_id transport)
    {| po_kind := pd_kind d; po_rtpParameters := pd_rtpParameters d;
       po_appData := pd_appData d; po_userId := u_userId user;
       po_userName := name (u_info user) |} = Normal producer ->
  let r := runX (on_produce socket (Some d) AckFunction) envx s in
  let s' := snd (fst r) in
  fst (fst r) = Normal tt
  /\ s' = afterCall (base envx)
            (CallAddProducer (u_roomId user) (u_userId user) producer) s
  /\ replies (snd r) = [inr (AckProduced (producer_id producer))]
  /\ newProducerEmits (snd r)
     = [EvEmitNewProducer (SocketTo (u_roomId user)) (u_userId user)
          (name (u_info user)) (role (u_info user)) (producer_id producer)
          (pd_kind d)]
  /\ getProducer (u_roomId user) (u_userId user) (producer_id producer) s'
     = Some producer
  /\ (forall other, other <> u_userId user ->
        In {| pi_id := producer_id producer;
              pi_kind := producer_kind producer;
              pi_userId := u_userId user;
              pi_userName := p_name participant;
              pi_userRole := p_role participant |}
           (getRoomProducers (u_roomId user) (Some other) s'))
  /\ (forall info,
        In info (getRoomProducers (u_roomId user) (Some (u_userId user)) s') ->
        pi_userId info <> u_userId user).
Proof.
  intros Hu Hr Hp Ht Hprod.
  assert (Hpart : getParticipant (u_roomId user) (u_userId user) s
                  = Some participant).
  { unfold getParticipant. now rewrite Hr. }
  assert (Htr : getTransport (u_roomId user) (u_userId user) (pd_transportId d) s
                = Some transport).
  { unfold getTransport. now rewrite Hpart. }
  cbn zeta. unfold runX, on_produce. handler_eval.
  rewrite Hu. handler_eval. rewrite Htr. handler_eval. rewrite Hprod.
  handler_eval. rewrite performCall_service.
  split; [reflexivity|]. split; [reflexivity|]. split; [reflexivity|].
  split; [reflexivity|]. split; [|split].
  - unfold getProducer. rewrite getParticipant_afterMutate, !String.eqb_refl.
    cbn [andb]. rewrite Hpart. cbn. apply get_set_eq.
  - intros other Hne. apply getRoomProducers_In.
    exists (withParticipants room
              (JSMap.set (u_userId user) (withProducer participant producer)
                 (room_participants room))),
           (withProducer participant producer), producer.
    split; [exact (@getRoom_afterMutate_present s (u_roomId user) (u_userId user)
                     (fun p => withProducer p producer) room participant Hr Hp)|].
    cbn [pi_userId room_participants withParticipants p_producers p_name p_role
         withProducer].
    split; [apply get_In, get_set_eq|].
    split; [apply differs_true_iff; congruence|].
    split; [eapply get_In_values, get_set_eq | reflexivity].
  - intros info Hin. apply getRoomProducers_In in Hin
      as (_ & _ & _ & _ & _ & Hd & _).
    now apply differs_true_iff.
Qed.

Lemma produce_publishes_to_the_others_witness :
  getUserBySocketId "s1" classroom
  = Some {| u_userId := "t1"; u_roomId := "r1"; u_info := teacherInfo |}
  /\ getRoomProducers "r1" (Some "u1")
       (snd (fst (runX (on_produce teacherSocket
                          (Some {| pd_transportId := "tr1"; pd_kind := "audio";
                                   pd_rtpParameters := "opus";
                                   pd_appData := None |}) AckFunction)
                       quietEnvX classroom)))
     = [{| pi_id := "p1"; pi_kind := "video"; pi_userId := "t1";
           pi_userName := "Ada"; pi_userRole := "teacher" |};
        {| pi_id := "pw"; pi_kind := "audio"; pi_userId := "t1";
           pi_userName := "Ada"; pi_userRole := "teacher" |}]
  /\ getProducer "r1" "t1" "pw"
       (snd (fst (runX (on_produce teacherSocket
                          (Some {| pd_transportId := "tr1"; pd_kind := "audio";
                                   pd_rtpParameters := "opus";
                                   pd_appData := None |}) AckFunction)
                       quietEnvX classroom)))
     = Some {| producer_id := "pw"; producer_kind := "audio" |}.
Proof.
  split; [reflexivity|]. split; [reflexivity|].
  refine (proj1 (proj2 (proj2 (proj2 (proj2
            (@produce_publishes_to_the_others quietEnvX classroom teacherSocket
               _ _ _
               {| pd_transportId := "tr1"; pd_kind := "audio";
                  pd_rtpParameters := "opus"; pd_appData := None |}
               _ _ eq_refl eq_refl eq_refl eq_refl eq_refl)))))).
Defined.

(** X17: createWebRtcTransport of a socket that is in the connection
    index, sent with an acknowledgement function, when the engine returns a
    transport, answers with the transport's parameters and passes the
    transport to [addTransport]: it is found by
    [getTransport] when the index entry names a participant of the room, and
    it is stored nowhere, the answer being the same, when it does not. *)
Theorem transport_creation envx s socket user created :
  getUserBySocketId (socket_id socket) s = Some user ->
  mediasoup_createWebRtcTransport envx = Normal created ->
  let r := runX (on_createWebRtcTransport socket AckFunction) envx s in
  let s' := snd (fst r) in
  r = (Normal tt,
       afterCall (base envx)
         (CallAddTransport (u_roomId user) (u_userId user) (wt_transport created)) s,
       [EvCreateWebRtcTransport;
        Old (EvRegistry (MAddTransport (u_roomId user) (u_userId user)
                           (transport_id (wt_transport created))));
        EvAckX (AckTransport (wt_params created))])
  /\ (forall participant,
        getParticipant (u_roomId user) (u_userId user) s = Some participant ->
        getTransport (u_roomId user) (u_userId user)
          (transport_id (wt_transport created)) s'
        = Some (wt_transport created))
  /\ (getParticipant (u_roomId user) (u_userId user) s = None -> s' = s).
Proof.
  intros Hu He. cbn zeta. unfold runX, on_createWebRtcTransport. handler_eval.
  rewrite Hu. handler_eval. rewrite He. handler_eval.
  rewrite performCall_service. split; [reflexivity|]. split.
  - intros p Hp. unfold getTransport.
    rewrite getParticipant_afterMutate, !String.eqb_refl, Hp. cbn.
    apply get_set_eq.
  - intros Hp. now apply afterMutate_absent.
Qed.

Lemma transport_creation_witness :
  getUserBySocketId "s2" classroom
  = Some {| u_userId := "u1"; u_roomId := "r1"; u_info := studentInfo |}
  /\ getTransport "r1" "u1" "tw"
       (snd (fst (runX (on_createWebRtcTransport studentSocket AckFunction)
                    quietEnvX classroom)))
     = Some {| transport_id := "tw" |}.
Proof.
  split; [reflexivity|].
  exact (proj1 (proj2 (@transport_creation quietEnvX classroom studentSocket _ _
                         eq_refl eq_refl)) _ eq_refl).
Defined.

(* ===================================================================== *)
(** ** Every request, from start to end *)

Lemma acks_app t1 t2 : acks (t1 ++ t2) = acks t1 ++ acks t2.
Proof. unfold acks. apply flat_map_app. Qed.

Lemma emits_app t1 t2 : emits (t1 ++ t2) = emits t1 ++ emits t2.
Proof. unfold emits. apply flat_map_app. Qed.

Lemma closeTrace_no_ack_no_emit env k label ids :
  acks (closeTrace env k label ids) = []
  /\ emits (closeTrace env k label ids) = [].
Proof.
  induction ids as [|id r [IHa IHe]]; [now split|].
  unfold closeTrace in *. cbn [flat_map].
  rewrite acks_app, emits_app, IHa, IHe.
  now destruct (handle_close env k id).
Qed.

Lemma removeTrace_no_ack_no_emit env socketId s :
  acks (removeTrace env socketId s) = [] /\ emits (removeTrace env socketId s) = [].
Proof.
  unfold removeTrace.
  destruct (JSMap.get socketId (users s)) as [user|]; [|now split].
  destruct (getParticipant _ _ s) as [p|]; [|now split].
  unfold cleanupTrace. rewrite !acks_app, !emits_app.
  now rewrite !(proj1 (closeTrace_no_ack_no_emit _ _ _ _)),
    !(proj2 (closeTrace_no_ack_no_emit _ _ _ _)).
Qed.

Lemma replies_lift t : replies (map Old t) = map inl (acks t).
Proof.
  induction t as [|e t IH]; [reflexivity|].
  unfold replies, acks in *. cbn [map flat_map]. rewrite map_app, IH.
  now destruct e.
Qed.

Ltac split_on t := destruct t eqn:?.

Ltac split_step :=
  match goal with
  | |- context [String.eqb ?a ?b] => split_on (String.eqb a b)
  | |- context [schedule_canUserAccessRoom ?e ?a ?b ?c] =>
      split_on (schedule_canUserAccessRoom e a b c)
  | |- context [roomExists ?a ?b] => split_on (roomExists a b)
  | |- context [getUserBySocketId ?a ?b] => split_on (getUserBySocketId a b)
  | |- context [getTransport ?a ?b ?c ?d] => split_on (getTransport a b c d)
  | |- context [getConsumer ?a ?b ?c ?d] => split_on (getConsumer a b c d)
  | |- context [textMissing ?a] => split_on (textMissing a)
  | |- context [mediasoup_getRouterRtpCapabilities ?e] =>
      split_on (mediasoup_getRouterRtpCapabilities e)
  | |- context [mediasoup_getRouter ?e] => split_on (mediasoup_getRouter e)
  | |- context [router_canConsume ?e ?a ?b] => split_on (router_canConsume e a b)
  | |- context [transport_consume ?e ?a ?b ?c] =>
      split_on (transport_consume e a b c)
  | |- context [schedule_getScheduleByRoomId ?e ?a] =>
      split_on (schedule_getScheduleByRoomId e a)
  | |- context [messages_add ?e ?a ?b] => split_on (messages_add e a b)
  | |- context [mediasoup_createWebRtcTransport ?e] =>
      split_on (mediasoup_createWebRtcTransport e)
  | |- context [transport_connect ?e ?a ?b] => split_on (transport_connect e a b)
  | |- context [transport_produce ?e ?a ?b] => split_on (transport_produce e a b)
  | |- context [consumer_resume ?e ?a] => split_on (consumer_resume e a)
  | |- context [match ?x with Normal _ => _ | Throw _ => _ end] =>
      is_var x; destruct x
  | |- context [match ?x with true => _ | false => _ end] =>
      is_var x; destruct x
  | |- context [negb ?x] => is_var x; destruct x
  end.

Ltac split_cases := repeat (handler_eval; split_step); handler_eval.

Lemma basic_request_ends env s socket req :
  let r := run (handle socket req) env s in
  match calledBack s socket (Basic req) with
  | None => outcomeOf r = Normal tt /\ acks (traceOf r) = []
  | Some AckFunction => outcomeOf r = Normal tt /\ length (acks (traceOf r)) = 1
  | Some (NotAFunction _) =>
      outcomeOf r = Throw "TypeError: callback is not a function"
      /\ acks (traceOf r) = []
  end.
Proof.
  cbn zeta. unfold run.
  destruct req as [[r|] cb|[r|] cb|[d|] cb|[text|] cb|cb|];
    cbn [handle calledBack callbackOf].
  1-8: destruct cb as [|truthy];
    unfold on_createRoom, on_joinRoom, on_consume, on_chat_message;
    split_cases; now split.
  - unfold on_leaveRoom. handler_eval.
    destruct (removeTrace_no_ack_no_emit env (socket_id socket) s) as [Ha _].
    destruct (getUserBySocketId (socket_id socket) s) as [user|]; handler_eval;
      [destruct cb as [|[|]]|]; handler_eval;
      cbn [outcomeOf traceOf fst snd];
      (split; [reflexivity|]);
      change (EvRegistry (MRemoveUserFromRoom (socket_id socket))
              :: removeTrace env (socket_id socket) s ++ ?t)
        with ([EvRegistry (MRemoveUserFromRoom (socket_id socket))]
              ++ removeTrace env (socket_id socket) s ++ t);
      rewrite ?acks_app, ?Ha; reflexivity.
  - unfold on_disconnect. handler_eval.
    destruct (removeTrace_no_ack_no_emit env (socket_id socket) s) as [Ha _].
    destruct (getUserBySocketId (socket_id socket) s) as [user|]; handler_eval;
      cbn [outcomeOf traceOf fst snd];
      (split; [reflexivity|]);
      change (EvRegistry (MRemoveUserFromRoom (socket_id socket))
              :: removeTrace env (socket_id socket) s ++ ?t)
        with ([EvRegistry (MRemoveUserFromRoom (socket_id socket))]
              ++ removeTrace env (socket_id socket) s ++ t);
      rewrite ?acks_app, ?Ha; reflexivity.
Qed.

Lemma liftJs_run {A} (m : Js A) envx s :
  liftJs m envx s
  = (outcomeOf (run m (base envx) s), serviceOf (run m (base envx) s),
     map Old (traceOf (run m (base envx) s))).
Proof.
  unfold liftJs, run, outcomeOf, serviceOf, traceOf.
  now destruct (m (base envx) s) as [[o s'] t].
Qed.

(** The registry that a request leaves does not depend on its callback. *)
Lemma registry_whatever_the_callback envx s socket req cb :
  snd (fst (runX (handleX socket (withCallback cb req)) envx s))
  = snd (fst (runX (handleX socket req) envx s)).
Proof.
  unfold runX.
  destruct req as [[data cb0|data cb0|data cb0|data cb0|cb0|]
                  |cb0|data cb0|data cb0|data cb0|cb0|data cb0];
    cbn [handleX withCallback]; rewrite ?liftJs_run; cbn [fst snd handle];
    try reflexivity.
  - unfold run, serviceOf. destruct data; destruct cb as [|t1]; destruct cb0 as [|t2];
      unfold on_createRoom; split_cases; reflexivity.
  - unfold run, serviceOf. destruct data; destruct cb as [|t1]; destruct cb0 as [|t2];
      unfold on_joinRoom; split_cases; reflexivity.
  - unfold run, serviceOf. destruct data; destruct cb as [|t1]; destruct cb0 as [|t2];
      unfold on_consume; split_cases; reflexivity.
  - unfold run, serviceOf. destruct data as [[text|]|];
      destruct cb as [|t1]; destruct cb0 as [|t2];
      unfold on_chat_message; split_cases; reflexivity.
  - rewrite (on_leaveRoom_service (base envx) s socket cb).
    now rewrite (on_leaveRoom_service (base envx) s socket cb0).
  - destruct cb as [|t1]; destruct cb0 as [|t2];
      unfold on_createWebRtcTransport; split_cases; reflexivity.
  - destruct data; destruct cb as [|t1]; destruct cb0 as [|t2];
      unfold on_connectTransport; split_cases; reflexivity.
  - destruct data; destruct cb as [|t1]; destruct cb0 as [|t2];
      unfold on_produce; split_cases; reflexivity.
  - destruct data; destruct cb as [|t1]; destruct cb0 as [|t2];
      unfold on_resumeConsumer; split_cases; reflexivity.
  - destruct cb as [|t1]; destruct cb0 as [|t2];
      unfold on_getProducers; split_cases; reflexivity.
  - destruct data; destruct cb as [|t1]; destruct cb0 as [|t2];
      unfold on_setRtpCapabilities; split_cases; reflexivity.
Qed.

(** X18: how a request ends.  Every handler calls its callback on every
    path, except that leaveRoom calls it only for a socket that is in the
    index and when it is truthy, and that disconnect has none.  When the
    callback that is called is a function, the handler ends normally,
    whatever the payload, the registry and the answers of the engine and of
    the services are, and has acknowledged exactly once.  When it is not a
    function, the call throws inside [try], the [catch] block calls it again
    and the exception leaves the handler, nothing having been acknowledged.
    When no callback is called the handler ends normally without an
    acknowledgement.  In every case the registry that the request leaves is
    the one it leaves with any other callback. *)
Theorem request_ends_by_its_callback envx s socket req :
  let r := runX (handleX socket req) envx s in
  match calledBack s socket req with
  | None => fst (fst r) = Normal tt /\ replies (snd r) = []
  | Some AckFunction => fst (fst r) = Normal tt /\ length (replies (snd r)) = 1
  | Some (NotAFunction _) =>
      fst (fst r) = Throw "TypeError: callback is not a function"
      /\ replies (snd r) = []
  end
  /\ forall cb,
       snd (fst (runX (handleX socket (withCallback cb req)) envx s))
       = snd (fst r).
Proof.
  cbn zeta. split; [|intros cb; apply registry_whatever_the_callback].
  unfold runX.
  destruct req as [req|cb|[d|] cb|[d|] cb|[c|] cb|cb|[caps|] cb].
  - cbn [handleX]. rewrite liftJs_run. cbn [fst snd]. rewrite replies_lift.
    pose proof (basic_request_ends (base envx) s socket req) as H.
    cbn zeta in H.
    destruct (calledBack s socket (Basic req)) as [[|truthy]|];
      destruct H as [Ho Ha]; rewrite ?length_map, ?Ha; now split.
  - destruct cb as [|truthy]; cbn [handleX calledBack callbackOf];
      unfold on_createWebRtcTransport; split_cases; now split.
  - destruct cb as [|truthy]; cbn [handleX calledBack callbackOf];
      unfold on_connectTransport; split_cases; now split.
  - destruct cb as [|truthy]; now split.
  - destruct cb as [|truthy]; cbn [handleX calledBack callbackOf];
      unfold on_produce; split_cases; now split.
  - destruct cb as [|truthy]; now split.
  - destruct cb as [|truthy]; cbn [handleX calledBack callbackOf];
      unfold on_resumeConsumer; split_cases; now split.
  - destruct cb as [|truthy]; now split.
  - destruct cb as [|truthy]; cbn [handleX calledBack callbackOf];
      unfold on_getProducers; split_cases; now split.
  - destruct cb as [|truthy]; cbn [handleX calledBack callbackOf];
      unfold on_setRtpCapabilities; split_cases; now split.
  - destruct cb as [|truthy]; now split.
Qed.

(** A join without acknowledgement function in a room of one: the join is
    recorded, the handler throws, nothing is acknowledged. *)
Lemma request_ends_by_its_callback_witness :
  calledBack oneTeacher studentSocket
    (Basic (ReqJoinRoom (Some "r1") (NotAFunction false)))
  = Some (NotAFunction false)
  /\ fst (fst (runX (handleX studentSocket
                       (Basic (ReqJoinRoom (Some "r1") (NotAFunction false))))
                 quietEnvX oneTeacher))
     = Throw "TypeError: callback is not a function"
  /\ map p_userId
       (getRoomParticipants "r1"
          (snd (fst (runX (handleX studentSocket
                             (Basic (ReqJoinRoom (Some "r1") (NotAFunction false))))
                       quietEnvX oneTeacher))))
     = ["t1"; "u1"].
Proof.
  split; [reflexivity|]. split; [|reflexivity].
  exact (proj1 (proj1 (request_ends_by_its_callback quietEnvX oneTeacher
                         studentSocket
                         (Basic (ReqJoinRoom (Some "r1") (NotAFunction false)))))).
Defined.

(* ===================================================================== *)
(** ** Joining a room *)

Lemma roomExists_afterAdd env s roomId userId socketId userInfo r :
  roomExists roomId s = true ->
  roomExists r (afterAddUserToRoom env roomId userId socketId userInfo s)
  = roomExists r s.
Proof.
  intros Hex. unfold roomExists, JSMap.has. fold (getRoom r s).
  fold (getRoom r (afterAddUserToRoom env roomId userId socketId userInfo s)).
  destruct (String.eqb_spec r roomId) as [->|Hne].
  - destruct (getRoom_afterAdd_same env s roomId userId socketId userInfo)
      as (room & -> & _).
    unfold roomExists, JSMap.has in Hex. fold (getRoom roomId s) in Hex.
    now destruct (getRoom roomId s).
  - now rewrite getRoom_afterAdd_other.
Qed.

Lemma flat_map_set_skipped {V B} (g : string * V -> list B) k v m :
  (forall w, g (k, w) = []) ->
  flat_map g (JSMap.set k v m) = flat_map g m.
Proof.
  intros Hskip. induction m as [|[k0 w] r IH]; cbn.
  - now rewrite Hskip.
  - destruct (String.eqb_spec k k0) as [->|Hne]; cbn.
    + now rewrite !Hskip.
    + now rewrite IH.
Qed.

Lemma getRoomProducers_afterAdd_self env s roomId userId socketId userInfo :
  roomExists roomId s = true ->
  getRoomProducers roomId (Some userId)
    (afterAddUserToRoom env roomId userId socketId userInfo s)
  = getRoomProducers roomId (Some userId) s.
Proof.
  intros Hex. unfold getRoomProducers. rewrite getRoom_afterAdd_eq.
  unfold roomExists, JSMap.has in Hex. fold (getRoom roomId s) in Hex.
  destruct (getRoom roomId s) as [room|]; [|discriminate].
  cbn [room_participants withParticipants]. unfold JSMap.entries.
  apply flat_map_set_skipped. intros w. cbn. now rewrite String.eqb_refl.
Qed.

(** X19: joinRoom never creates a room.  A request for a room that is not
    in the registry, sent with an acknowledgement function, when the schedule
    service allows it, is answered with the error that the room does not
    exist, the registry staying as it is; and after any joinRoom request,
    whatever its payload and its callback, the rooms that exist are those
    that existed before. *)
Theorem join_needs_a_live_room env s socket :
  (forall roomId,
     schedule_canUserAccessRoom env (uid (socket_user socket)) roomId
       (role (socket_user socket)) = true ->
     roomExists roomId s = false ->
     run (on_joinRoom socket (Some roomId) AckFunction) env s
     = (Normal tt, s,
        [EvCanUserAccessRoom (uid (socket_user socket)) roomId
           (role (socket_user socket));
         EvAck (AckError "Room does not exist")]))
  /\ (forall data cb r,
        roomExists r (serviceOf (run (on_joinRoom socket data cb) env s))
        = roomExists r s).
Proof.
  split.
  - intros roomId Hyes Hno. unfold run, on_joinRoom. handler_eval.
    rewrite Hyes. handler_eval. rewrite Hno. reflexivity.
  - intros data cb r.
    destruct (on_joinRoom_service env s socket data cb)
      as [->|(k & _ & Hex & ->)];
      [reflexivity | now apply roomExists_afterAdd].
Qed.

Lemma join_needs_a_live_room_witness :
  schedule_canUserAccessRoom quietEnv "u1" "r7" "student" = true
  /\ roomExists "r7" oneTeacher = false
  /\ run (on_joinRoom studentSocket (Some "r7") AckFunction) quietEnv oneTeacher
     = (Normal tt, oneTeacher,
        [EvCanUserAccessRoom "u1" "r7" "student";
         EvAck (AckError "Room does not exist")]).
Proof.
  split; [reflexivity|]. split; [reflexivity|].
  exact (proj1 (join_needs_a_live_room quietEnv oneTeacher studentSocket)
           "r7" eq_refl eq_refl).
Defined.

(** X20: a joinRoom request with an acknowledgement function that the
    schedule service allows, for a room that exists, when the router's
    capabilities are available, registers the participant, answers with the
    capabilities and with the producers of the other participants as they
    were before the join, and emits one userJoined event, to the other
    sockets of the room.  The index entry of
    the socket is [{ userId, roomId, ...socket.user }]: it names the room
    and the user of the join unless [socket.user] has a [roomId] or a
    [userId] of its own. *)
Theorem join_reports_the_others_producers env s socket roomId caps :
  schedule_canUserAccessRoom env (uid (socket_user socket)) roomId
    (role (socket_user socket)) = true ->
  roomExists roomId s = true ->
  mediasoup_getRouterRtpCapabilities env = Normal caps ->
  let r := run (on_joinRoom socket (Some roomId) AckFunction) env s in
  let user := socket_user socket in
  outcomeOf r = Normal tt
  /\ serviceOf r
     = afterCall env
         (CallAddUserToRoom roomId (uid user) (socket_id socket) user) s
  /\ acks (traceOf r)
     = [AckJoined roomId caps (getRoomProducers roomId (Some (uid user)) s)]
  /\ emits (traceOf r)
     = [(SocketTo roomId, UserJoined (uid user) (name user) (role user))]
  /\ getParticipant roomId (uid user) (serviceOf r)
     = Some (freshParticipant env (uid user) (socket_id socket) user)
  /\ getUserBySocketId (socket_id socket) (serviceOf r)
     = Some (indexEntry roomId (uid user) user)
  /\ (prop_roomId user = None -> prop_userId user = None ->
      refersTo (serviceOf r) roomId (uid user) (socket_id socket)).
Proof.
  intros Hyes Hex Hcaps. cbn zeta. unfold run, on_joinRoom. handler_eval.
  rewrite Hyes. handler_eval. rewrite Hex. handler_eval. rewrite Hcaps.
  handler_eval. rewrite performCall_service.
  rewrite (getRoomProducers_afterAdd_self env s _ _ _ _ Hex).
  assert (Hindex : getUserBySocketId (socket_id socket)
                     (afterAddUserToRoom env roomId (uid (socket_user socket))
                        (socket_id socket) (socket_user socket) s)
                   = Some (indexEntry roomId (uid (socket_user socket))
                             (socket_user socket)))
    by now rewrite getUser_afterAdd, String.eqb_refl.
  split; [reflexivity|]. split; [reflexivity|]. split; [reflexivity|].
  split; [reflexivity|].
  split; [now rewrite getParticipant_afterAdd, !String.eqb_refl|].
  split; [exact Hindex|].
  intros Hr Hi. eexists. split; [exact Hindex|].
  unfold indexEntry. cbn. now rewrite Hr, Hi.
Qed.

Lemma join_reports_the_others_producers_witness :
  roomExists "r1" classroom = true
  /\ acks (traceOf (run (on_joinRoom {| socket_id := "s3";
                                        socket_user := studentInfo |}
                           (Some "r1") AckFunction) quietEnv classroom))
     = [AckJoined "r1" "caps"
          [{| pi_id := "p1"; pi_kind := "video"; pi_userId := "t1";
              pi_userName := "Ada"; pi_userRole := "teacher" |}]].
Proof.
  split; [reflexivity|].
  exact (proj1 (proj2 (proj2
           (@join_reports_the_others_producers quietEnv classroom
              {| socket_id := "s3"; socket_user := studentInfo |} "r1" "caps"
              eq_refl eq_refl eq_refl)))).
Defined.

(** X21: when [getRouterRtpCapabilities] throws after the schedule
    service has allowed a createRoom or a joinRoom sent with an
    acknowledgement function, the handler answers with its failure message
    and emits no userJoined event, but the participant has been registered
    and stays in the room, and the socket keeps the index entry that
    [addUserToRoom] wrote. *)
Theorem failed_answer_keeps_the_registration env s socket roomId e :
  schedule_canUserAccessRoom env (uid (socket_user socket)) roomId
    (role (socket_user socket)) = true ->
  mediasoup_getRouterRtpCapabilities env = Throw e ->
  let user := socket_user socket in
  let stored := freshParticipant env (uid user) (socket_id socket) user in
  (role user = "teacher" ->
   let r := run (on_createRoom socket (Some roomId) AckFunction) env s in
   acks (traceOf r) = [AckError "Failed to create room"]
   /\ emits (traceOf r) = []
   /\ getParticipant roomId (uid user) (serviceOf r) = Some stored
   /\ getUserBySocketId (socket_id socket) (serviceOf r)
      = Some (indexEntry roomId (uid user) user))
  /\ (roomExists roomId s = true ->
      let r := run (on_joinRoom socket (Some roomId) AckFunction) env s in
      acks (traceOf r) = [AckError "Failed to join room"]
      /\ emits (traceOf r) = []
      /\ getParticipant roomId (uid user) (serviceOf r) = Some stored
      /\ getUserBySocketId (socket_id socket) (serviceOf r)
         = Some (indexEntry roomId (uid user) user)).
Proof.
  intros Hyes Hcaps. cbn zeta.
  assert (Hstored : forall s0,
             getParticipant roomId (uid (socket_user socket))
               (afterAddUserToRoom env roomId (uid (socket_user socket))
                  (socket_id socket) (socket_user socket) s0)
             = Some (freshParticipant env (uid (socket_user socket))
                       (socket_id socket) (socket_user socket))).
  { intros s0. now rewrite getParticipant_afterAdd, !String.eqb_refl. }
  assert (Hindex : forall s0,
             getUserBySocketId (socket_id socket)
               (afterAddUserToRoom env roomId (uid (socket_user socket))
                  (socket_id socket) (socket_user socket) s0)
             = Some (indexEntry roomId (uid (socket_user socket))
                       (socket_user socket))).
  { intros s0. now rewrite getUser_afterAdd, String.eqb_refl. }
  split.
  - intros Hrole. unfold run, on_createRoom. handler_eval.
    rewrite Hrole in Hyes |- *. handler_eval. rewrite Hyes. handler_eval.
    rewrite Hcaps. handler_eval.
    split; [reflexivity|]. split; [reflexivity|].
    split; [apply Hstored | apply Hindex].
  - intros Hex. unfold run, on_joinRoom. handler_eval.
    rewrite Hyes. handler_eval. rewrite Hex. handler_eval. rewrite Hcaps.
    handler_eval.
    split; [reflexivity|]. split; [reflexivity|].
    split; [apply Hstored | apply Hindex].
Qed.

Lemma failed_answer_keeps_the_registration_witness :
  schedule_canUserAccessRoom noRouterEnv "t1" "r1" "teacher" = true
  /\ mediasoup_getRouterRtpCapabilities noRouterEnv = Throw "Router not initialized"
  /\ acks (traceOf (run (on_createRoom teacherSocket (Some "r1") AckFunction)
                      noRouterEnv emptyService))
     = [AckError "Failed to create room"]
  /\ getParticipant "r1" "t1"
       (serviceOf (run (on_createRoom teacherSocket (Some "r1") AckFunction)
                     noRouterEnv emptyService))
     = Some (freshParticipant noRouterEnv "t1" "s1" teacherInfo).
Proof.
  split; [reflexivity|]. split; [reflexivity|].
  pose proof (proj1 (@failed_answer_keeps_the_registration noRouterEnv
                       emptyService teacherSocket "r1" "Router not initialized"
                       eq_refl eq_refl) eq_refl) as (Ha & _ & Hp & _).
  split; [exact Ha | exact Hp].
Defined.

(* ===================================================================== *)
(** ** Leaving a room *)

Lemma closes_removeTrace env socketId s user :
  getUserBySocketId socketId s = Some user ->
  closes (removeTrace env socketId s)
  = match getParticipant (u_roomId user) (u_userId user) s with
    | Some participant => handlesOf participant
    | None => []
    end.
Proof.
  unfold getUserBySocketId, removeTrace. intros ->.
  destruct (getParticipant (u_roomId user) (u_userId user) s);
    [apply closes_cleanupTrace | reflexivity].
Qed.

Lemma on_disconnect_run env s socket :
  run (on_disconnect socket) env s
  = (Normal tt, afterRemoveUserFromRoom (socket_id socket) s,
     EvRegistry (MRemoveUserFromRoom (socket_id socket))
     :: removeTrace env (socket_id socket) s
     ++ match getUserBySocketId (socket_id socket) s with
        | Some user =>
            [EvConsole LLog
               ("User " +++ name (u_info user) +++ " disconnected from room: "
                +++ u_roomId user) None;
             EvEmit (SocketTo (u_roomId user))
               (UserLeft (u_userId user) (name (u_info user))
                  (role (u_info user)))]
        | None => []
        end).
Proof.
  unfold run, on_disconnect. handler_eval.
  now destruct (getUserBySocketId (socket_id socket) s).
Qed.

Lemma on_leaveRoom_run env s socket cb :
  run (on_leaveRoom socket cb) env s
  = (match getUserBySocketId (socket_id socket) s with
     | Some _ => if isTruthy cb then answered cb else Normal tt
     | None => Normal tt
     end,
     afterRemoveUserFromRoom (socket_id socket) s,
     EvRegistry (MRemoveUserFromRoom (socket_id socket))
     :: removeTrace env (socket_id socket) s
     ++ match getUserBySocketId (socket_id socket) s with
        | Some user =>
            [EvSocketLeave (u_roomId user);
             EvConsole LLog
               ("User " +++ name (u_info user) +++ " left room: "
                +++ u_roomId user) None;
             EvEmit (SocketTo (u_roomId user))
               (UserLeft (u_userId user) (name (u_info user))
                  (role (u_info user)))]
            ++ match cb with
               | AckFunction => [EvAck AckSuccess]
               | NotAFunction true =>
                   [EvConsole LError "Error leaving room:"
                      (Some "TypeError: callback is not a function")]
               | NotAFunction false => []
               end
        | None => []
        end).
Proof.
  unfold run, on_leaveRoom. handler_eval.
  destruct (getUserBySocketId (socket_id socket) s); [|reflexivity].
  destruct cb as [|[|]]; handler_eval; try reflexivity.
  now rewrite <- app_assoc.
Qed.

Lemma removal_projections env socketId s m tail :
  closes (EvRegistry m :: removeTrace env socketId s ++ tail)
  = closes (removeTrace env socketId s) ++ closes tail
  /\ emits (EvRegistry m :: removeTrace env socketId s ++ tail) = emits tail.
Proof.
  change (EvRegistry m :: removeTrace env socketId s ++ tail)
    with ([EvRegistry m] ++ removeTrace env socketId s ++ tail).
  rewrite !closes_app, !emits_app.
  now rewrite (proj2 (removeTrace_no_ack_no_emit env socketId s)).
Qed.

(** X22: leaveRoom, whatever its callback, and disconnect do the same to
    the registry, close the same handles and emit the same events.  For a
    socket that is in the index, both remove the participant that its entry
    names through [removeUserFromRoom], close that participant's handles
    and emit one userLeft event, with the id, name and role of the index
    entry, to the other sockets of the room. *)
Theorem leave_and_disconnect_agree env s socket cb :
  let l := run (on_leaveRoom socket cb) env s in
  let d := run (on_disconnect socket) env s in
  serviceOf l = serviceOf d
  /\ closes (traceOf l) = closes (traceOf d)
  /\ emits (traceOf l) = emits (traceOf d)
  /\ forall user,
       getUserBySocketId (socket_id socket) s = Some user ->
       serviceOf d = afterCall env (CallRemoveUserFromRoom (socket_id socket)) s
       /\ closes (traceOf d)
          = match getParticipant (u_roomId user) (u_userId user) s with
            | Some participant => handlesOf participant
            | None => []
            end
       /\ emits (traceOf d)
          = [(SocketTo (u_roomId user),
              UserLeft (u_userId user) (name (u_info user)) (role (u_info user)))].
Proof.
  cbn zeta. rewrite on_leaveRoom_run, on_disconnect_run.
  cbn [serviceOf traceOf fst snd].
  rewrite !(proj1 (removal_projections _ _ _ _ _)),
    !(proj2 (removal_projections _ _ _ _ _)).
  split; [reflexivity|].
  destruct (getUserBySocketId (socket_id socket) s) as [user|] eqn:Hu.
  - split; [now destruct cb as [|[|]]|]. split; [now destruct cb as [|[|]]|].
    intros user' [= <-]. rewrite performCall_service.
    split; [reflexivity|]. split; [|reflexivity].
    rewrite (closes_removeTrace env _ _ Hu). apply app_nil_r.
  - split; [reflexivity|]. split; [reflexivity|].
    intros user' Hsome. discriminate Hsome.
Qed.

Lemma leave_and_disconnect_agree_witness :
  getUserBySocketId "s1" classroom
  = Some {| u_userId := "t1"; u_roomId := "r1"; u_info := teacherInfo |}
  /\ emits (traceOf (run (on_disconnect teacherSocket) quietEnv classroom))
     = [(SocketTo "r1", UserLeft "t1" "Ada" "teacher")]
  /\ closes (traceOf (run (on_leaveRoom teacherSocket AckFunction) quietEnv
                        classroom))
     = [(KProducer, "p1"); (KTransport, "tr1")].
Proof.
  split; [reflexivity|].
  pose proof (leave_and_disconnect_agree quietEnv classroom teacherSocket
                AckFunction)
    as (_ & Hc & _ & H).
  destruct (H _ eq_refl) as (_ & Hcl & Hem).
  split; [exact Hem|]. rewrite Hc. exact Hcl.
Defined.

(* ===================================================================== *)
(** ** Invariants of the registry under every request *)

Lemma noEmptyRoom_afterMutate s roomId userId f :
  noEmptyRoom s -> noEmptyRoom (afterMutateParticipant roomId userId f s).
Proof.
  intros H. unfold afterMutateParticipant.
  destruct (getRoom roomId s) as [room|] eqn:Er; [|exact H].
  destruct (JSMap.get userId (room_participants room)) as [p|] eqn:Ep; [|exact H].
  intros roomId' room' Hget. unfold getRoom in Hget. cbn in Hget.
  destruct (String.eqb_spec roomId' roomId) as [->|Hne].
  - rewrite get_set_eq in Hget. injection Hget as <-. cbn. apply size_set_pos.
  - rewrite get_set_ne in Hget by assumption. eauto.
Qed.

Lemma noEmptyRoom_afterCall env c s :
  match c with CallCreateRoom _ => False | _ => True end ->
  noEmptyRoom s -> noEmptyRoom (afterCall env c s).
Proof.
  intros Hc H. rewrite performCall_service. destruct c; try contradiction.
  - now apply noEmptyRoom_afterAdd.
  - now apply noEmptyRoom_afterRemove.
  - now apply noEmptyRoom_afterMutate.
  - now apply noEmptyRoom_afterMutate.
  - now apply noEmptyRoom_afterMutate.
  - now apply noEmptyRoom_afterMutate.
Qed.

(** What a handler does to the registry is nothing, one call other than
    [createRoom], or [createRoom] followed by [addUserToRoom] into the same
    room. *)
Lemma handler_preserves (P : RoomService -> Prop) :
  (forall env c s,
      match c with CallCreateRoom _ => False | _ => True end ->
      P s -> P (afterCall env c s)) ->
  (forall env r u k i s,
      P s ->
      P (afterCall env (CallAddUserToRoom r u k i)
           (afterCall env (CallCreateRoom r) s))) ->
  forall envx s socket req,
    P s -> P (snd (fst (runX (handleX socket req) envx s))).
Proof.
  intros Hcall Hcreate envx s socket req Hs.
  assert (Hupd : forall r u f,
             (exists c, forall s0, afterCall (base envx) c s0
                                   = afterMutateParticipant r u f s0 /\
                        match c with CallCreateRoom _ => False | _ => True end) ->
             P (afterMutateParticipant r u f s)).
  { intros r u f (c & Hc). destruct (Hc s) as [<- Hk]. now apply Hcall. }
  unfold runX.
  destruct req as [[data cb|data cb|data cb|data cb|cb|]
                  |cb|[d|] cb|[d|] cb|[c|] cb|cb|[caps|] cb];
    cbn [handleX handle]; try rewrite liftJs_run; cbn [fst snd].
  - destruct (on_createRoom_service (base envx) s socket data cb)
      as [->|(r & _ & ->)]; [exact Hs|].
    specialize (Hcreate (base envx) r (uid (socket_user socket))
                  (socket_id socket) (socket_user socket) s Hs).
    now rewrite !performCall_service in Hcreate.
  - destruct (on_joinRoom_service (base envx) s socket data cb)
      as [->|(r & _ & _ & ->)]; [exact Hs|].
    rewrite <- (performCall_service (base envx) (CallAddUserToRoom _ _ _ _)).
    now apply Hcall.
  - destruct (on_consume_service (base envx) s socket data cb)
      as [->|(d & u & c & _ & _ & ->)]; [exact Hs|].
    apply Hupd. exists (CallAddConsumer (u_roomId u) (u_userId u) c).
    intros s0. now rewrite performCall_service.
  - now rewrite on_chat_message_service.
  - rewrite on_leaveRoom_service.
    rewrite <- (performCall_service (base envx) (CallRemoveUserFromRoom _)).
    now apply Hcall.
  - rewrite on_disconnect_service.
    rewrite <- (performCall_service (base envx) (CallRemoveUserFromRoom _)).
    now apply Hcall.
  - destruct cb as [|truthy]; unfold on_createWebRtcTransport; split_cases;
      try exact Hs;
      (apply Hupd; eexists (CallAddTransport _ _ _);
       intros s0; now rewrite performCall_service).
  - destruct cb as [|truthy]; unfold on_connectTransport; split_cases; exact Hs.
  - destruct cb as [|truthy]; exact Hs.
  - destruct cb as [|truthy]; unfold on_produce; split_cases; try exact Hs;
      (apply Hupd; eexists (CallAddProducer _ _ _);
       intros s0; now rewrite performCall_service).
  - destruct cb as [|truthy]; exact Hs.
  - destruct cb as [|truthy]; unfold on_resumeConsumer; split_cases; exact Hs.
  - destruct cb as [|truthy]; exact Hs.
  - destruct cb as [|truthy]; unfold on_getProducers; split_cases; exact Hs.
  - destruct cb as [|truthy]; unfold on_setRtpCapabilities; split_cases;
      try exact Hs;
      (apply Hupd; eexists (CallSetRtpCapabilities _ _ _);
       intros s0; now rewrite performCall_service).
  - destruct cb as [|truthy]; exact Hs.
Qed.

(** X23: after every sequence of requests of the twelve kinds, with any
    payloads and callbacks, handled from the empty registry in any
    environments, no room of the registry is without participants, and
    rooms, participants and handles are stored under their own ids, each
    key once. *)
Theorem requests_keep_the_registry_sound reqs :
  noEmptyRoom (serveX reqs emptyService) /\ wellKeyed (serveX reqs emptyService).
Proof.
  assert (H : forall s, noEmptyRoom s /\ wellKeyed s ->
                        noEmptyRoom (serveX reqs s) /\ wellKeyed (serveX reqs s)).
  { induction reqs as [|[[envx socket] req] reqs IH]; intros s Hs; [exact Hs|].
    cbn. apply IH. cbn [fst snd].
    apply (handler_preserves (fun s => noEmptyRoom s /\ wellKeyed s)); [| |exact Hs].
    - intros env c s0 Hc [Hn Hw].
      split; [now apply noEmptyRoom_afterCall | now apply wellKeyed_afterCall].
    - intros env r u k i s0 [Hn Hw]. split.
      + rewrite !performCall_service. now apply noEmptyRoom_afterCreate_afterAdd.
      + now apply wellKeyed_afterCall, wellKeyed_afterCall. }
  apply H. split; [apply noEmptyRoom_emptyService | apply wellKeyed_emptyService].
Qed.

(* ===================================================================== *)
(** ** The text of a chat message *)

Lemma trimStart_all_white cs :
  forallb isWhiteSpace cs = true -> trimStart cs = [].
Proof.
  induction cs as [|c r IH]; cbn; [reflexivity|].
  intros H. apply andb_prop in H as [-> Hr]. now apply IH.
Qed.

Lemma trimStart_split cs :
  exists pre,
    cs = pre ++ trimStart cs /\ forallb isWhiteSpace pre = true
    /\ match trimStart cs with
       | c :: _ => isWhiteSpace c = false
       | [] => True
       end.
Proof.
  induction cs as [|c r (pre & Hcs & Hpre & Hhead)].
  - now exists [].
  - cbn [trimStart]. destruct (isWhiteSpace c) eqn:Hc.
    + exists (c :: pre). cbn. rewrite Hc, Hpre. split; [now f_equal|]. now split.
    + exists []. cbn. now rewrite Hc.
Qed.

Lemma trim_chars text :
  list_ascii_of_string (trim text)
  = rev (trimStart (rev (trimStart (list_ascii_of_string text)))).
Proof. unfold trim. apply list_ascii_of_string_of_list_ascii. Qed.

Lemma length_chars text : String.length text = length (list_ascii_of_string text).
Proof. induction text as [|c r IH]; cbn; congruence. Qed.

Lemma textMissing_blank t :
  forallb isWhiteSpace (list_ascii_of_string t) = true -> textMissing (Some t) = true.
Proof.
  intros H. unfold textMissing.
  rewrite (length_chars (trim t)), trim_chars, (trimStart_all_white _ H).
  cbn. apply orb_true_r.
Qed.

(** X24: a chat message without text, or whose text is empty or made of
    white space only, from a socket that is in a room, sent with an
    acknowledgement function, is answered with the error that the text is
    required, and with nothing else: the schedule is not looked up, nothing
    is stored, nothing is emitted. *)
Theorem blank_chat_is_refused env s socket user text :
  getUserBySocketId (socket_id socket) s = Some user ->
  match text with
  | None => True
  | Some t => forallb isWhiteSpace (list_ascii_of_string t) = true
  end ->
  run (on_chat_message socket (Some text) AckFunction) env s
  = (Normal tt, s, [EvAck (AckError "Message text is required")]).
Proof.
  intros Hu Hblank.
  assert (Hmissing : textMissing text = true).
  { destruct text as [t|]; [now apply textMissing_blank | reflexivity]. }
  unfold run, on_chat_message. handler_eval. rewrite Hu. handler_eval.
  now rewrite Hmissing.
Qed.

Lemma blank_chat_is_refused_witness :
  getUserBySocketId "s2" classroom
  = Some {| u_userId := "u1"; u_roomId := "r1"; u_info := studentInfo |}
  /\ run (on_chat_message studentSocket (Some (Some "   ")) AckFunction)
         quietEnv classroom
     = (Normal tt, classroom, [EvAck (AckError "Message text is required")]).
Proof.
  split; [reflexivity|].
  exact (@blank_chat_is_refused quietEnv classroom studentSocket _ (Some "   ")
           eq_refl eq_refl).
Defined.

Lemma chat_acks_emits env s socket user text :
  getUserBySocketId (socket_id socket) s = Some user ->
  textMissing (Some text) = false ->
  acks (traceOf (run (on_chat_message socket (Some (Some text)) AckFunction) env s))
  = [AckChat (chatMessage env user text)]
  /\ emits (traceOf (run (on_chat_message socket (Some (Some text)) AckFunction)
                       env s))
     = [(IoTo (u_roomId user), ChatPush (chatMessage env user text))].
Proof.
  intros Hu Hvalid. rewrite (chat_run env s socket text AckFunction Hu Hvalid).
  cbn [traceOf snd].
  destruct (schedule_getScheduleByRoomId env (u_roomId user)) as [sch|e];
    [destruct (messages_add env sch (chatMessage env user text)) as [[]|e]|];
    now split.
Qed.

(** X25: the text of the message that the chat handler emits and
    acknowledges, through the acknowledgement function of the request, is
    the text of the request without its leading and trailing white space:
    it is not empty, it neither starts nor ends with a white space
    character, and the characters removed at either end are all white
    space. *)
Theorem chat_text_is_trimmed env s socket user text :
  getUserBySocketId (socket_id socket) s = Some user ->
  textMissing (Some text) = false ->
  exists message first middle,
    acks (traceOf (run (on_chat_message socket (Some (Some text)) AckFunction) env s))
    = [AckChat message]
    /\ emits (traceOf (run (on_chat_message socket (Some (Some text)) AckFunction)
                         env s))
       = [(IoTo (u_roomId user), ChatPush message)]
    /\ list_ascii_of_string (msg_text message) = first :: middle
    /\ isWhiteSpace first = false
    /\ isWhiteSpace (last (first :: middle) first) = false
    /\ exists before after,
         list_ascii_of_string text = before ++ first :: middle ++ after
         /\ forallb isWhiteSpace before = true
         /\ forallb isWhiteSpace after = true.
Proof.
  intros Hu Hvalid.
  destruct (chat_acks_emits env s socket text Hu Hvalid) as [Hacks Hemits].
  exists (chatMessage env user text). cbn [msg_text chatMessage].
  rewrite trim_chars.
  destruct (trimStart_split (list_ascii_of_string text)) as (before & Hb & Hbw & Hh).
  destruct (trimStart_split (rev (trimStart (list_ascii_of_string text))))
    as (post & Hp & Hpw & Hl).
  set (core := trimStart (rev (trimStart (list_ascii_of_string text)))) in *.
  assert (Hcore : trimStart (list_ascii_of_string text) = rev core ++ rev post).
  { rewrite <- rev_app_distr, <- Hp. symmetry. apply rev_involutive. }
  assert (Hne : core <> []).
  { intros Hnil. unfold textMissing in Hvalid.
    rewrite (length_chars (trim text)), trim_chars in Hvalid.
    fold core in Hvalid. rewrite Hnil in Hvalid. cbn in Hvalid.
    now rewrite orb_true_r in Hvalid. }
  destruct (rev core) as [|first middle] eqn:Hrev.
  { apply (f_equal (@rev ascii)) in Hrev. rewrite rev_involutive in Hrev.
    contradiction. }
  exists first, middle.
  split; [exact Hacks|]. split; [exact Hemits|].
  split; [reflexivity|]. split.
  - rewrite Hcore in Hh. now cbn in Hh.
  - split.
    + destruct core as [|c rest]; [contradiction|]. cbn in Hrev.
      assert (Hlast : last (first :: middle) first = c).
      { rewrite <- Hrev. apply last_last. }
      rewrite Hlast. exact Hl.
    + exists before, (rev post). rewrite Hb at 1. rewrite Hcore.
      split; [reflexivity|]. split; [exact Hbw|].
      rewrite forallb_forall in *. intros x Hx. apply Hpw. now apply in_rev.
Qed.

Lemma chat_text_is_trimmed_witness :
  getUserBySocketId "s2" classroom
  = Some {| u_userId := "u1"; u_roomId := "r1"; u_info := studentInfo |}
  /\ textMissing (Some "  hi there ") = false
  /\ exists message first middle,
       acks (traceOf (run (on_chat_message studentSocket
                             (Some (Some "  hi there ")) AckFunction)
                        quietEnv classroom))
       = [AckChat message]
       /\ list_ascii_of_string (msg_text message) = first :: middle
       /\ isWhiteSpace first = false.
Proof.
  split; [reflexivity|]. split; [reflexivity|].
  destruct (@chat_text_is_trimmed quietEnv classroom studentSocket _ "  hi there "
              eq_refl eq_refl)
    as (m & f & mid & Ha & _ & Ht & Hf & _).
  now exists m, f, mid.
Defined.

(* ===================================================================== *)
(** ** Who may enter a room *)

Import ScheduleService.

Lemma filter_head_find {A} (f : A -> bool) l :
  find f l = hd_error (filter f l).
Proof.
  induction l as [|x r IH]; cbn; [reflexivity|].
  now destruct (f x).
Qed.

Lemma filter_nonempty {A} (f : A -> bool) l :
  negb (Nat.eqb (length (filter f l)) 0) = true <->
  exists x, In x l /\ f x = true.
Proof.
  split.
  - destruct (filter f l) as [|x r] eqn:E; [discriminate|]. intros _.
    assert (Hin : In x (filter f l)) by (rewrite E; now left).
    apply filter_In in Hin. now exists x.
  - intros (x & Hin & Hf).
    assert (Hx : In x (filter f l)) by now apply filter_In.
    now destruct (filter f l).
Qed.

Lemma getScheduleByRoomId_normal db roomId doc :
  fst (getScheduleByRoomId db roomId) = Normal doc <->
  schedulesFailure db = None /\ scheduleOf db roomId = Some doc.
Proof.
  unfold getScheduleByRoomId, whereRoomId, scheduleOf.
  rewrite filter_head_find.
  destruct (schedulesFailure db) as [e|]; cbn.
  - split; [discriminate | intros [H _]; discriminate H].
  - destruct (filter _ (schedules db)) as [|d r]; cbn; split;
      try discriminate; try (intros [_ H]; discriminate H).
    + intros [= ->]. now split.
    + now intros [_ [= ->]].
Qed.

Lemma canUserAccessRoom_true_iff db userId roomId userRole :
  fst (canUserAccessRoom db userId roomId userRole) = true <->
  authorized db userId roomId userRole.
Proof.
  unfold canUserAccessRoom, authorized.
  pose proof (getScheduleByRoomId_normal db roomId) as Hnormal.
  destruct (getScheduleByRoomId db roomId) as [[schedule|e] log]; cbn [fst] in *.
  - destruct (proj1 (Hnormal schedule) eq_refl) as [Hok Hsched].
    assert (Huniq : forall schedule',
               scheduleOf db roomId = Some schedule' -> schedule' = schedule)
      by (intros ? H; congruence).
    destruct (String.eqb_spec userRole "teacher") as [->|Hteacher]; cbn [andb].
    + destruct (String.eqb_spec (sd_teacherId schedule) userId) as [Ho|Ho]; cbn.
      * split; [intros _|reflexivity]. split; [exact Hok|].
        exists schedule. split; [exact Hsched|]. now left.
      * split; [discriminate|].
        intros (_ & schedule' & Hs' & [[_ Ht]|[Hst _]]);
          [apply Huniq in Hs'; subst schedule'; contradiction | discriminate Hst].
    + destruct (String.eqb_spec userRole "student") as [->|Hstudent].
      * unfold whereStudentCourse, enrolled.
        destruct (enrollmentsFailure db) as [e|]; cbn [fst].
        -- split; [discriminate|].
           intros (_ & schedule' & _ & [[Ht _]|(_ & He & _)]); discriminate.
        -- rewrite filter_nonempty. split.
           ++ intros (en & Hin & Hf). apply andb_prop in Hf as [H1 H2].
              apply String.eqb_eq in H1, H2.
              split; [exact Hok|]. exists schedule. split; [exact Hsched|].
              right. split; [reflexivity|]. split; [reflexivity|]. now exists en.
           ++ intros (_ & schedule' & Hs' & [[Ht _]|(_ & _ & en & Hin & H1 & H2)]);
                [discriminate Ht|].
              apply Huniq in Hs'. subst schedule'. exists en.
              split; [exact Hin|]. now rewrite H1, H2, !String.eqb_refl.
      * cbn. split; [discriminate|].
        intros (_ & schedule' & _ & [[Ht _]|[Hst _]]); contradiction.
  - split; [discriminate|].
    intros (Hok & schedule & Hs & _).
    specialize (proj2 (Hnormal schedule) (conj Hok Hs)). discriminate.
Qed.

(** X26: [canUserAccessRoom] answers yes exactly when the schedules can be
    read, the room id has a schedule, and the user is the teacher of the
    first schedule with that room id or is a student enrolled in its course
    (the enrollments being readable).  In every other case, a failing query
    and a role that is neither teacher nor student included, it answers no;
    and [getScheduleByRoomId] returns that first schedule or throws. *)
Theorem room_access_fails_closed db userId roomId userRole :
  (fst (canUserAccessRoom db userId roomId userRole) = true <->
   authorized db userId roomId userRole)
  /\ (forall doc,
        fst (getScheduleByRoomId db roomId) = Normal doc <->
        schedulesFailure db = None /\ scheduleOf db roomId = Some doc)
  /\ (forall doc,
        fst (getScheduleByRoomId db roomId) = Normal doc -> sd_roomId doc = roomId)
  /\ (userRole <> "teacher" -> userRole <> "student" ->
      fst (canUserAccessRoom db userId roomId userRole) = false).
Proof.
  split; [apply canUserAccessRoom_true_iff|].
  split; [intros doc; apply getScheduleByRoomId_normal|]. split.
  - intros doc H. apply getScheduleByRoomId_normal in H as [_ H].
    unfold scheduleOf in H. apply find_some in H as [_ H].
    now apply String.eqb_eq.
  - intros Ht Hs.
    destruct (fst (canUserAccessRoom db userId roomId userRole)) eqn:E;
      [|reflexivity].
    apply canUserAccessRoom_true_iff in E
      as (_ & schedule & _ & [[H _]|[H _]]); contradiction.
Qed.

Lemma room_access_fails_closed_witness :
  fst (canUserAccessRoom sampleDb "u1" "r1" "student") = true
  /\ fst (canUserAccessRoom sampleDb "t2" "r1" "teacher") = false
  /\ fst (canUserAccessRoom sampleDb "t1" "r1" "admin") = false.
Proof.
  split; [reflexivity|]. split; [reflexivity|].
  apply (proj2 (proj2 (proj2 (room_access_fails_closed sampleDb "t1" "r1" "admin"))));
    discriminate.
Defined.

Lemma on_createRoom_mutations env s socket roomId cb :
  mutations (traceOf (run (on_createRoom socket (Some roomId) cb) env s)) <> [] <->
  role (socket_user socket) = "teacher"
  /\ schedule_canUserAccessRoom env (uid (socket_user socket)) roomId
       (role (socket_user socket)) = true.
Proof.
  unfold run, on_createRoom.
  destruct cb as [|truthy]; handler_eval;
    (destruct (String.eqb_spec (role (socket_user socket)) "teacher") as [Hr|Hr];
     handler_eval;
     [destruct (schedule_canUserAccessRoom env _ _ _) eqn:Ho; handler_eval;
      [destruct (mediasoup_getRouterRtpCapabilities env); cbn;
         (split; [now split | discriminate])
      |cbn; split; [congruence | intros [_ H]; discriminate H]]
     |cbn; split; [congruence | intros [H _]; contradiction]]).
Qed.

Lemma on_joinRoom_mutations env s socket roomId cb :
  mutations (traceOf (run (on_joinRoom socket (Some roomId) cb) env s)) <> [] <->
  schedule_canUserAccessRoom env (uid (socket_user socket)) roomId
    (role (socket_user socket)) = true
  /\ roomExists roomId s = true.
Proof.
  unfold run, on_joinRoom.
  destruct cb as [|truthy]; handler_eval;
    (destruct (schedule_canUserAccessRoom env _ _ _) eqn:Ho; handler_eval;
     [destruct (roomExists roomId s) eqn:Hex; handler_eval;
      [destruct (mediasoup_getRouterRtpCapabilities env); cbn;
         (split; [now split | discriminate])
      |cbn; split; [congruence | intros [_ H]; discriminate H]]
     |cbn; split; [congruence | intros [H _]; discriminate H]]).
Qed.

(** X27: with the schedule service reading a database, the createRoom
    handler calls the registry exactly when the socket's role is teacher and
    the user is the teacher of the room's schedule, and the joinRoom handler
    exactly when the room exists and the user is that teacher or a student
    enrolled in the course of the schedule; this whatever the callback of
    the request is. *)
Theorem registration_needs_a_schedule env db s socket roomId cb :
  let env' := withFirestore env db in
  let user := socket_user socket in
  (mutations (traceOf (run (on_createRoom socket (Some roomId) cb) env' s)) <> []
   <-> role user = "teacher" /\ authorized db (uid user) roomId "teacher")
  /\ (mutations (traceOf (run (on_joinRoom socket (Some roomId) cb) env' s)) <> []
      <-> authorized db (uid user) roomId (role user) /\ roomExists roomId s = true).
Proof.
  cbn zeta. rewrite on_createRoom_mutations, on_joinRoom_mutations.
  cbn [withFirestore schedule_canUserAccessRoom].
  rewrite canUserAccessRoom_true_iff. split; [|reflexivity].
  split; intros [Hr Ha]; (split; [exact Hr|]); now rewrite Hr in *.
Qed.

Lemma registration_needs_a_schedule_witness :
  mutations (traceOf (run (on_createRoom teacherSocket (Some "r1") AckFunction)
                        (withFirestore quietEnv sampleDb) emptyService)) <> []
  /\ authorized sampleDb "t1" "r1" "teacher".
Proof.
  assert (H : mutations (traceOf (run (on_createRoom teacherSocket (Some "r1")
                                         AckFunction)
                                    (withFirestore quietEnv sampleDb) emptyService))
              <> []) by discriminate.
  split; [exact H|].
  exact (proj2 (proj1 (proj1 (registration_needs_a_schedule quietEnv sampleDb
                                emptyService teacherSocket "r1" AckFunction)) H)).
Defined.

(* ===================================================================== *)
(** ** The identity of a connection *)

Import Auth.

(** X28: the middleware lets a connection in exactly when it brings a
    non-empty token, the token verifies and the user of the token has a
    profile document; name and role of [socket.user] are then those of the
    profile, its uid and email are the profile's when the profile has
    fields of these names, the token's otherwise, and it has a [userId] or
    a [roomId] of its own exactly when the profile has.  A connection that
    is not let in gets one of the three error messages. *)
Theorem connection_identity auth token :
  (forall user,
     fst (authenticate auth token) = NextOk user <->
     exists t decoded userData,
       token = Some t /\ t <> ""
       /\ verifyIdToken auth t = Normal decoded
       /\ getUserDoc auth (tok_uid decoded) = Normal (Some userData)
       /\ name user = ud_name userData /\ role user = ud_role userData
       /\ uid user = match ud_uid userData with
                     | Some u => u
                     | None => tok_uid decoded
                     end
       /\ email user = match ud_email userData with
                       | Some m => m
                       | None => tok_email decoded
                       end
       /\ prop_userId user = ud_userId userData
       /\ prop_roomId user = ud_roomId userData)
  /\ (forall message,
        fst (authenticate auth token) = NextError message ->
        message = "No authentication token provided"
        \/ message = "Authentication failed"
        \/ message = "User profile not found").
Proof.
  unfold authenticate. split.
  - intros user. destruct token as [t|].
    2:{ split; [discriminate | intros (t & _ & _ & H & _); discriminate H]. }
    destruct t as [|c r]; cbn [String.length Nat.eqb].
    { split; [discriminate | intros (t & _ & _ & [= <-] & Hne & _); contradiction]. }
    destruct (verifyIdToken auth (String c r)) as [decoded|e] eqn:Hv.
    2:{ split; [discriminate|].
        intros (t & d & u & [= <-] & _ & H & _). congruence. }
    destruct (getUserDoc auth (tok_uid decoded)) as [[userData|]|e] eqn:Hd.
    + cbn [fst]. split.
      * intros [= <-]. exists (String c r), decoded, userData.
        repeat split; try assumption; discriminate.
      * intros (t & d & u & [= <-] & _ & Hv' & Hd' & Hn & Hr & Hu & He & Hpu & Hpr).
        rewrite Hv in Hv'. injection Hv' as <-. rewrite Hd in Hd'.
        injection Hd' as <-. destruct user; cbn in *. now subst.
    + split; [discriminate|].
      intros (t & d & u & [= <-] & _ & Hv' & Hd' & _).
      rewrite Hv in Hv'. injection Hv' as <-. congruence.
    + split; [discriminate|].
      intros (t & d & u & [= <-] & _ & Hv' & Hd' & _).
      rewrite Hv in Hv'. injection Hv' as <-. congruence.
  - intros message. destruct token as [t|]; [|intros [= <-]; now left].
    destruct (Nat.eqb (String.length t) 0); [intros [= <-]; now left|].
    destruct (verifyIdToken auth t) as [decoded|e];
      [|intros [= <-]; right; now left].
    destruct (getUserDoc auth (tok_uid decoded)) as [[userData|]|e]; cbn [fst];
      [discriminate | intros [= <-]; right; now right
       | intros [= <-]; right; now left].
Qed.

Lemma connection_identity_witness :
  fst (authenticate sampleAuth (Some "tok-t1"))
  = NextOk {| uid := "t1"; email := "ada@school.org"; name := "Ada";
              role := "teacher"; prop_userId := None; prop_roomId := None |}
  /\ exists t decoded userData,
       Some "tok-t1" = Some t /\ t <> ""
       /\ verifyIdToken sampleAuth t = Normal decoded
       /\ getUserDoc sampleAuth (tok_uid decoded) = Normal (Some userData)
       /\ ud_role userData = "teacher".
Proof.
  assert (H : fst (authenticate sampleAuth (Some "tok-t1"))
              = NextOk {| uid := "t1"; email := "ada@school.org"; name := "Ada";
                          role := "teacher" |}) by reflexivity.
  split; [exact H|].
  destruct (proj1 (proj1 (connection_identity sampleAuth (Some "tok-t1")) _) H)
    as (t & d & u & Ht & Hne & Hv & Hd & _ & Hr & _).
  exists t, d, u. repeat split; try assumption. now rewrite <- Hr.
Defined.

(* ===================================================================== *)
(** ** Consuming and resuming *)

(** X29: a consume request of a participant on one of its transports, sent
    with an acknowledgement function, when the router is available, finds
    the producer compatible and the transport returns a consumer, stores
    the consumer under the participant and answers with it.  A resumeConsumer request of the same socket for the id
    of that consumer then calls [resume] on it, once, and answers with
    success, leaving the registry as it is. *)
Theorem consume_then_resume envx s socket user room participant d transport
    consumer :
  getUserBySocketId (socket_id socket) s = Some user ->
  getRoom (u_roomId user) s = Some room ->
  JSMap.get (u_userId user) (room_participants room) = Some participant ->
  JSMap.get (cd_transportId d) (p_transports participant) = Some transport ->
  mediasoup_getRouter (base envx) = Normal tt ->
  router_canConsume (base envx) (cd_producerId d) (cd_rtpCapabilities d)
  = Normal true ->
  transport_consume (base envx) (transport_id transport) (cd_producerId d)
    (cd_rtpCapabilities d) = Normal consumer ->
  let r := run (on_consume socket (Some d) AckFunction) (base envx) s in
  let s' := serviceOf r in
  acks (traceOf r) = [AckConsumed consumer]
  /\ consumeCalls (traceOf r)
     = [EvConsume (transport_id transport) (cd_producerId d) (cd_rtpCapabilities d)]
  /\ s' = afterCall (base envx)
            (CallAddConsumer (u_roomId user) (u_userId user) consumer) s
  /\ getConsumer (u_roomId user) (u_userId user) (consumer_id consumer) s'
     = Some consumer
  /\ (consumer_resume envx (consumer_id consumer) = Normal tt ->
      runX (on_resumeConsumer socket (Some (consumer_id consumer)) AckFunction) envx s'
      = (Normal tt, s',
         [EvConsumerResume (consumer_id consumer); Old (EvAck AckSuccess)])).
Proof.
  intros Hu Hr Hp Ht Hrouter Hcan Hconsume.
  assert (Hpart : getParticipant (u_roomId user) (u_userId user) s
                  = Some participant).
  { unfold getParticipant. now rewrite Hr. }
  assert (Htr : getTransport (u_roomId user) (u_userId user) (cd_transportId d) s
                = Some transport).
  { unfold getTransport. now rewrite Hpart. }
  set (s1 := afterMutateParticipant (u_roomId user) (u_userId user)
               (fun p => withConsumer p consumer) s).
  assert (Hget : getConsumer (u_roomId user) (u_userId user)
                   (consumer_id consumer) s1 = Some consumer).
  { unfold getConsumer, s1.
    rewrite getParticipant_afterMutate, !String.eqb_refl, Hpart. cbn.
    apply get_set_eq. }
  assert (Hu1 : getUserBySocketId (socket_id socket) s1 = Some user).
  { unfold getUserBySocketId, s1. now rewrite users_afterMutate. }
  cbn zeta. unfold run, on_consume. handler_eval.
  rewrite Hu. handler_eval. rewrite Htr. handler_eval. rewrite Hrouter.
  handler_eval. rewrite Hcan. handler_eval. rewrite Hconsume. handler_eval.
  rewrite performCall_service.
  change (afterAddConsumer (u_roomId user) (u_userId user) consumer s) with s1.
  split; [reflexivity|]. split; [reflexivity|]. split; [reflexivity|].
  split; [exact Hget|].
  intros Hresume. unfold runX, on_resumeConsumer. handler_eval.
  rewrite Hu1. handler_eval. rewrite Hget. handler_eval. now rewrite Hresume.
Qed.

Lemma consume_then_resume_witness :
  getUserBySocketId "s2" classroom
  = Some {| u_userId := "u1"; u_roomId := "r1"; u_info := studentInfo |}
  /\ acks (traceOf (run (on_consume studentSocket
                           (Some {| cd_transportId := "tr2"; cd_producerId := "p1";
                                    cd_rtpCapabilities := "caps" |}) AckFunction)
                      quietEnv classroom))
     = [AckConsumed {| consumer_id := "c-p1"; consumer_kind := "video";
                       consumer_rtpParameters := "rtp";
                       consumer_producerPaused := false |}].
Proof.
  split; [reflexivity|].
  exact (proj1 (@consume_then_resume quietEnvX classroom studentSocket _ _ _
                  {| cd_transportId := "tr2"; cd_producerId := "p1";
                     cd_rtpCapabilities := "caps" |} _ _
                  eq_refl eq_refl eq_refl eq_refl eq_refl eq_refl eq_refl)).
Defined.

Lemma stats_after_join_witness :
  exists st',
    getRoomStats "r1"
      (afterCall quietEnv (CallAddUserToRoom "r1" "u1" "s2" studentInfo) oneTeacher)
    = Some st'
    /\ rs_participantCount st' = 2.
Proof.
  destruct (proj2 (stats_after_join quietEnv oneTeacher "r1" "u1" "s2" studentInfo))
    as (st' & Hst & _ & _ & Hcount).
  exists st'. split; [exact Hst|]. rewrite Hcount. reflexivity.
Defined.

Lemma rooms_listing_witness :
  In "r1" (getAllRooms (afterCall quietEnv (CallRemoveUserFromRoom "s2") classroom))
  /\ In "r1" (getAllRooms classroom).
Proof.
  assert (H : In "r1" (getAllRooms
                         (afterCall quietEnv (CallRemoveUserFromRoom "s2") classroom)))
    by (left; reflexivity).
  split; [exact H|].
  exact (proj2 (proj2 rooms_listing) quietEnv classroom
           (CallRemoveUserFromRoom "s2") "r1" I H).
Defined.
